(** * MARS_UI master-device dashboard: serial frame reader, recording buffer,
      stream handler and background worker.

    A shallow embedding of
      - [pages/usb_ui.py]          (frame parser, one-shot frame reader, reader
                                    thread, keyboard and recording state, CSV
                                    export),
      - [grpc_stream_handler.py]   (bounded sample queue and callback fan-out),
      - [pages/wifi_ui_1.py]       (background task worker, gain handler),
      - [GRPC/stubs/client.py]     (gain clamping before the RPC, gain
                                    validation),
      - [grpc_data_manager.py]     (the data manager's lock, poses, log and
                                    gain values),
    of the [masterdevice_raspi_ver/rasberry_UI/rasberry_UI] tree.

    Conventions.  Python [bytes] are [list byte]; Python [int] is [Z];
    wall-clock readings ([time.time()]) and gain values are Python floats and
    are modelled by the rationals [Q] (only comparisons, differences and
    truncations of them matter below); a raised exception is an explicit
    [Raised msg] outcome. *)

From Stdlib Require Import ZArith QArith Strings.Byte Lia Lqa.
From stdpp Require Import base list strings gmap pretty.

Open Scope Z_scope.

(* ===================================================================== *)
(** ** Python byte-string primitives *)
(* ===================================================================== *)

Module PyBytes.

Definition byte_val (b : byte) : Z := Z.of_N (Byte.to_N b).

(** [len(buf)] *)
Definition len {A} (l : list A) : Z := Z.of_nat (length l).

(** [buf[i:j]] for [0 <= i], [0 <= j] *)
Definition slice {A} (l : list A) (i j : Z) : list A :=
  take (Z.to_nat (j - i)) (drop (Z.to_nat i) l).

(** [del buf[:k]] *)
Definition del_prefix {A} (l : list A) (k : Z) : list A :=
  drop (Z.to_nat k) l.

(** [buf[-k:]] for [0 < k] *)
Definition suffix {A} (l : list A) (k : Z) : list A :=
  drop (length l - Z.to_nat k)%nat l.

Fixpoint starts_with (sub buf : list byte) : bool :=
  match sub, buf with
  | [], _ => true
  | _ :: _, [] => false
  | s :: sub', b :: buf' => Byte.eqb s b && starts_with sub' buf'
  end.

Fixpoint find_from (sub buf : list byte) (pos : nat) : option nat :=
  if starts_with sub buf then Some pos
  else match buf with
       | [] => None
       | _ :: buf' => find_from sub buf' (S pos)
       end.

(** [buf.find(sub)]: the lowest index where [sub] occurs, [-1] if none. *)
Definition find (sub buf : list byte) : Z :=
  match find_from sub buf 0 with
  | Some i => Z.of_nat i
  | None => -1
  end.

(** [sum(bs)] *)
Definition sum (bs : list byte) : Z :=
  foldr (fun b acc => byte_val b + acc) 0 bs.

(** [int.from_bytes(bs, 'little')] *)
Fixpoint from_bytes_little (bs : list byte) : Z :=
  match bs with
  | [] => 0
  | b :: bs' => byte_val b + 256 * from_bytes_little bs'
  end.

(** The fourteen 4-byte groups read by [struct.unpack('<14I', enc)]. *)
Fixpoint unpack_words (n : nat) (bs : list byte) : list Z :=
  match n with
  | O => []
  | S n' => from_bytes_little (take 4 bs) :: unpack_words n' (drop 4 bs)
  end.

(** [struct.unpack('<14I', enc)]; [None] is [struct.error] (wrong size). *)
Definition unpack_14I (enc : list byte) : option (list Z) :=
  if len enc =? 56 then Some (unpack_words 14 enc) else None.

End PyBytes.

(* ===================================================================== *)
(** ** pages/usb_ui.py: the binary frame parser *)
(* ===================================================================== *)

Module UsbFrame.
Import PyBytes.

Definition FRAME_HEADER1 : byte := xaa.
Definition FRAME_HEADER2 : byte := xbb.
Definition NUM_JOINTS : Z := 7.
Definition ENC_DATA_SIZE : Z := NUM_JOINTS * 2 * 4.
Definition FRAME_SIZE : Z := 2 + 1 + ENC_DATA_SIZE + 2.

Definition FRAME_HDR : list byte := [FRAME_HEADER1; FRAME_HEADER2].
Definition FRAME_LEN : Z := FRAME_SIZE.

(** The values bound by one successful pass through the loop body:
    [sw], [left_arm], [right_arm]. *)
Record Frame := mkFrame {
  sw : Z;
  left_arm : list Z;
  right_arm : list Z
}.

(** [crc_rx = int.from_bytes(frame[-2:], 'little')] *)
Definition crc_rx (frame : list byte) : Z :=
  from_bytes_little (suffix frame 2).

(** [crc_calc = sum(frame[2:2+1+ENC_DATA_SIZE]) & 0xFFFF] *)
Definition crc_calc (frame : list byte) : Z :=
  Z.land (sum (slice frame 2 (2 + 1 + ENC_DATA_SIZE))) 0xFFFF.

(** Lines 304-319 of the loop body, after the window was cut out of the
    buffer.  [None] is either of the two [continue] exits. *)
Definition decode_window (frame : list byte) : option Frame :=
  match frame !! 2%nat with
  | None => None
  | Some b =>
      let sw := byte_val b in
      let enc := slice frame 3 (3 + ENC_DATA_SIZE) in
      if negb (crc_rx frame =? crc_calc frame) then None
      else match unpack_14I enc with
           | None => None
           | Some values =>
               Some {| sw := sw;
                       left_arm := take 7 values;
                       right_arm := drop 7 values |}
           end
  end.

(** The [while True] loop of lines 293-354, as far as the buffer and the
    decoded frames go.  Each round removes at least [FRAME_LEN] bytes, so
    [length buf] rounds always suffice; [None] only if the fuel runs out. *)
Fixpoint parse_loop (fuel : nat) (buf : list byte)
  : option (list Frame * list byte) :=
  match fuel with
  | O => None
  | S fuel' =>
      let i := find FRAME_HDR buf in
      if i <? 0 then Some ([], buf)
      else if len buf - i <? FRAME_LEN then Some ([], buf)
      else
        let frame := slice buf i (i + FRAME_LEN) in
        let buf' := del_prefix buf (i + FRAME_LEN) in
        match decode_window frame with
        | None => parse_loop fuel' buf'
        | Some f =>
            match parse_loop fuel' buf' with
            | None => None
            | Some (fs, rest) => Some (f :: fs, rest)
            end
        end
  end.

Definition parse_frames (buf : list byte) : option (list Frame * list byte) :=
  parse_loop (S (length buf)) buf.

(** A complete frame on the wire: header, 59 further bytes. *)
Definition has_header (b : list byte) : Prop :=
  b !! 0%nat = Some FRAME_HEADER1 /\ b !! 1%nat = Some FRAME_HEADER2.

Definition checksum_ok (b : list byte) : Prop :=
  sum (slice b 2 59) mod 65536 = from_bytes_little (slice b 59 61).

Definition valid_frame (b : list byte) : Prop :=
  length b = 61%nat /\ has_header b /\ checksum_ok b.

Definition corrupted_frame (b : list byte) : Prop :=
  length b = 61%nat /\ has_header b /\ ~ checksum_ok b.

(** [b[off]] as an integer (0 past the end, which no statement below
    relies on). *)
Definition byte_at (b : list byte) (off : nat) : Z :=
  from_option byte_val 0 (b !! off).

(** Little-endian unsigned 32-bit value of the four bytes of [b] at [off]. *)
Definition le32_at (b : list byte) (off : nat) : Z :=
  byte_at b off
  + 2 ^ 8 * byte_at b (off + 1)
  + 2 ^ 16 * byte_at b (off + 2)
  + 2 ^ 24 * byte_at b (off + 3).

(** The frame the wire format prescribes for a 61-byte message [b]:
    switch byte [b[2]], fourteen little-endian words from [b[3:59]], the
    first seven for the left arm and the last seven for the right arm. *)
Definition spec_frame (b : list byte) : Frame :=
  {| sw := byte_at b 2;
     left_arm := map (fun k => le32_at b (3 + 4 * k)) (seq 0 7);
     right_arm := map (fun k => le32_at b (3 + 4 * k)) (seq 7 7) |}.

(** Seven values per arm. *)
Definition frame_wf (f : Frame) : Prop :=
  length (left_arm f) = 7%nat /\ length (right_arm f) = 7%nat.

(** The window the loop cuts out when the first header match is at [i]. *)
Definition window_at (buf : list byte) (i : Z) : list byte :=
  slice buf i (i + FRAME_LEN).

(** Scenario A of the protocol notes: switch byte 1, all encoders 0. *)
Definition frame_A : list byte :=
  [xaa; xbb; x01] ++ replicate 56 x00 ++ [x01; x00].

(** The same message with a wrong checksum. *)
Definition frame_A_bad : list byte :=
  [xaa; xbb; x01] ++ replicate 56 x00 ++ [x02; x00].

End UsbFrame.

(* ===================================================================== *)
(** ** Python values shared by the modules below *)
(* ===================================================================== *)

Module Py.

(** [a < b] on floats *)
Definition Qltb (a b : Q) : bool := negb (Qle_bool b a).

(** [int(x)]: truncation toward zero *)
Definition py_int (x : Q) : Z := Z.quot (Qnum x) (Zpos (Qden x)).

(** [min(a, b)] and [max(a, b)] as the builtins compute them: the first
    argument is kept unless the second is strictly smaller (larger). *)
Definition py_min (a b : Q) : Q := if Qltb b a then b else a.
Definition py_max (a b : Q) : Q := if Qltb a b then b else a.

(** The result of a call that may raise: [Raised msg] is an [Exception]
    whose [str(e)] is [msg]. *)
Inductive outcome (A : Type) : Type :=
| Returned (a : A)
| Raised (msg : string).
Arguments Returned {A} a.
Arguments Raised {A} msg.

(** Truthiness of an optional string ([None] and [''] are falsy). *)
Definition truthy_str (s : option string) : bool :=
  match s with
  | None => false
  | Some s => negb (String.eqb s "")
  end.

End Py.

(* ===================================================================== *)
(** ** pages/usb_ui.py: shared state, recording buffer, CSV export *)
(* ===================================================================== *)

Module UsbUi.
Import Py UsbFrame.

(** One entry of [recorded_encoders]. *)
Record Sample := mkSample {
  timestamp : Q;
  s_left_arm : list Z;
  s_right_arm : list Z
}.

(** The [stats] dictionary. *)
Record Stats := mkStats {
  last_ts : Q;
  ema_interval_ms : option Q;
  fps : Q
}.

(** The module globals shared by the reader thread, the keyboard listener
    and the button callback. *)
Record State := mkState {
  latest_enc_R : list Z;
  latest_enc_L : list Z;
  recorded_encoders : list Sample;
  recording_active : bool;
  device_active : bool;
  stats : Stats;
  keyboard_state : gmap string bool;
  prev_keyboard_state : gmap string bool;
  key_physically_pressed : gmap string bool
}.

Definition all_keys_off : gmap string bool :=
  list_to_map [("1", false); ("2", false); ("3", false);
               ("4", false); ("5", false); ("6", false)].

Definition initial_state : State :=
  {| latest_enc_R := replicate 7 0;
     latest_enc_L := replicate 7 0;
     recorded_encoders := [];
     recording_active := false;
     device_active := true;
     stats := {| last_ts := 0; ema_interval_ms := None; fps := 0 |};
     keyboard_state := all_keys_off;
     prev_keyboard_state := all_keys_off;
     key_physically_pressed := all_keys_off |}.

(** Assignments to single globals. *)
Definition set_recording_active (b : bool) (st : State) : State :=
  {| latest_enc_R := latest_enc_R st; latest_enc_L := latest_enc_L st;
     recorded_encoders := recorded_encoders st;
     recording_active := b;
     device_active := device_active st; stats := stats st;
     keyboard_state := keyboard_state st;
     prev_keyboard_state := prev_keyboard_state st;
     key_physically_pressed := key_physically_pressed st |}.

Definition set_device_active (b : bool) (st : State) : State :=
  {| latest_enc_R := latest_enc_R st; latest_enc_L := latest_enc_L st;
     recorded_encoders := recorded_encoders st;
     recording_active := recording_active st;
     device_active := b; stats := stats st;
     keyboard_state := keyboard_state st;
     prev_keyboard_state := prev_keyboard_state st;
     key_physically_pressed := key_physically_pressed st |}.

Definition set_recorded_encoders (l : list Sample) (st : State) : State :=
  {| latest_enc_R := latest_enc_R st; latest_enc_L := latest_enc_L st;
     recorded_encoders := l;
     recording_active := recording_active st;
     device_active := device_active st; stats := stats st;
     keyboard_state := keyboard_state st;
     prev_keyboard_state := prev_keyboard_state st;
     key_physically_pressed := key_physically_pressed st |}.

Definition set_keyboard (ks prev phys : gmap string bool) (st : State) : State :=
  {| latest_enc_R := latest_enc_R st; latest_enc_L := latest_enc_L st;
     recorded_encoders := recorded_encoders st;
     recording_active := recording_active st;
     device_active := device_active st; stats := stats st;
     keyboard_state := ks;
     prev_keyboard_state := prev;
     key_physically_pressed := phys |}.

(** Lines 335-345: the statistics block. *)
Definition update_stats (ts : Q) (s : Stats) : Stats :=
  let s1 :=
    if negb (Qeq_bool (last_ts s) 0) then
      let dt := ((ts - last_ts s) * 1000)%Q in
      let ema :=
        match ema_interval_ms s with
        | None => dt
        | Some e => let alpha := 0.2%Q in ((1 - alpha) * e + alpha * dt)%Q
        end in
      {| last_ts := last_ts s;
         ema_interval_ms := Some ema;
         fps := if Qltb 0 ema then (1000 / ema)%Q else fps s |}
    else s in
  {| last_ts := ts; ema_interval_ms := ema_interval_ms s1; fps := fps s1 |}.

(** Lines 320-345: what one decoded frame does to the shared state;
    [ts] is the [time.time()] reading of line 320.  (The display deque
    [recent_frames] of lines 347-354 is not part of this state.) *)
Definition on_frame (ts : Q) (f : Frame) (st : State) : State :=
  {| latest_enc_L := left_arm f;
     latest_enc_R := right_arm f;
     recorded_encoders :=
       if recording_active st
       then recorded_encoders st ++
              [{| timestamp := ts;
                  s_left_arm := left_arm f;
                  s_right_arm := right_arm f |}]
       else recorded_encoders st;
     recording_active := recording_active st;
     device_active := device_active st;
     stats := update_stats ts (stats st);
     keyboard_state := keyboard_state st;
     prev_keyboard_state := prev_keyboard_state st;
     key_physically_pressed := key_physically_pressed st |}.

(** *** The keyboard listener *)

(** [d[k]] for the three key dictionaries, whose six keys never change. *)
Definition key_on (d : gmap string bool) (k : string) : bool :=
  default false (d !! k).

(** [c in [...]] *)
Definition char_in (c : string) (l : list string) : bool :=
  existsb (String.eqb c) l.

(** [handle_special_key_functions] *)
Definition handle_special_key_functions (key_char : string) (is_press : bool)
    (st : State) : State :=
  if negb (device_active st) then st
  else if String.eqb key_char "2" && is_press then
    set_recording_active (key_on (keyboard_state st) "2") st
  else if String.eqb key_char "5" && is_press then
    set_recorded_encoders [] st
  else st.

(** [on_key_press]; [key] is [key.char] when the key has one.  The write of
    [send_keyboard_state] to the serial port touches none of these
    globals. *)
Definition on_key_press (key : option string) (st : State) : State :=
  if negb (device_active st) then st
  else
    match key with
    | None => st
    | Some c =>
        if char_in c ["1"; "2"; "3"; "4"; "5"; "6"] then
          if key_on (key_physically_pressed st) c then st
          else
            let phys := <[c := true]> (key_physically_pressed st) in
            let prev := <[c := key_on (keyboard_state st) c]>
                          (prev_keyboard_state st) in
            if char_in c ["1"; "2"; "4"] then
              let ks := <[c := negb (key_on (keyboard_state st) c)]>
                          (keyboard_state st) in
              let st' := set_keyboard ks prev phys st in
              if String.eqb c "2"
              then handle_special_key_functions c true st' else st'
            else if char_in c ["3"; "5"; "6"] then
              let ks := <[c := true]> (keyboard_state st) in
              let st' := set_keyboard ks prev phys st in
              if String.eqb c "5"
              then handle_special_key_functions c true st' else st'
            else set_keyboard (keyboard_state st) prev phys st
        else st
    end.

(** [on_key_release] *)
Definition on_key_release (key : option string) (st : State) : State :=
  if negb (device_active st) then st
  else
    match key with
    | None => st
    | Some c =>
        if char_in c ["1"; "2"; "3"; "4"; "5"; "6"] then
          let phys := <[c := false]> (key_physically_pressed st) in
          if char_in c ["3"; "5"; "6"] && key_on (keyboard_state st) c then
            set_keyboard (<[c := false]> (keyboard_state st))
              (prev_keyboard_state st) phys st
          else set_keyboard (keyboard_state st) (prev_keyboard_state st) phys st
        else st
    end.

(** *** CSV export ([csv.DictWriter]) *)

Inductive Cell :=
| CStr (s : string)
| CFloat (x : Q)
| CInt (n : Z).

Definition Row := list Cell.

(** [for i in range(NUM_JOINTS)] *)
Definition joints : list nat := seq 0 (Z.to_nat NUM_JOINTS).

Definition right_key (i : nat) : string := "right_joint_" +:+ pretty (Z.of_nat i + 1).
Definition left_key (i : nat) : string := "left_joint_" +:+ pretty (Z.of_nat i + 1).

(** Lines 1058-1064 *)
Definition fieldnames : list string :=
  ["timestamp"; "datetime"] ++ map right_key joints ++ map left_key joints.

(** [row[key i] = arm[i]] for every joint; [None] is [IndexError]. *)
Definition fill_joints (key : nat -> string) (arm : list Z)
    (row : gmap string Cell) : option (gmap string Cell) :=
  foldl (fun acc i =>
           match acc, arm !! i with
           | Some r, Some v => Some (<[key i := CInt v]> r)
           | _, _ => None
           end) (Some row) joints.

Section CsvExport.
(** [datetime.fromtimestamp(t).strftime('%Y-%m-%d %H:%M:%S.%f')[:-3]] *)
Variable format_datetime : Q -> string.

(** Lines 1070-1081: the [row] dictionary of one entry. *)
Definition build_row (entry : Sample) : option (gmap string Cell) :=
  let row : gmap string Cell :=
    <["datetime" := CStr (format_datetime (timestamp entry))]>
      (<["timestamp" := CFloat (timestamp entry)]> ∅) in
  match fill_joints right_key (s_right_arm entry) row with
  | None => None
  | Some row' => fill_joints left_key (s_left_arm entry) row'
  end.

(** [DictWriter._dict_to_list]: a key outside [fieldnames] raises
    [ValueError]; a missing key is written as the empty string. *)
Definition dict_to_list (row : gmap string Cell) : option Row :=
  if bool_decide (dom row ⊆ list_to_set fieldnames)
  then Some (map (fun k => default (CStr "") (row !! k)) fieldnames)
  else None.

(** [writer.writerow(row)] for each entry in turn; the rows written so
    far, and whether the loop ran to its end. *)
Fixpoint write_rows (entries : list Sample) : list Row * bool :=
  match entries with
  | [] => ([], true)
  | e :: es =>
      match build_row e with
      | None => ([], false)
      | Some d =>
          match dict_to_list d with
          | None => ([], false)
          | Some r => let (rs, ok) := write_rows es in (r :: rs, ok)
          end
      end
  end.

Definition header_row : Row := map CStr fieldnames.

Inductive Alert :=
| NoAlert
| PortMissing
| RecordingStarted (device_off : bool)
| RecordingStopped
| DataCleared (count : Z)
| NothingToSave
| SaveDone (filename : string) (data_count : Z)
| SaveFailed.

(** The callback's return tuple, without the constant style dictionary
    and the pass-through [status_data]. *)
Record Outputs := mkOutputs {
  btn_text : string;
  btn_color : string;
  recording_status_text : string;
  status_display : Alert
}.

(** [handle_all_buttons].  [trigger] is [ctx.triggered] reduced to its
    component id, [now_str] the formatted [datetime.now()], [open_ok]
    whether [open(filepath, 'w')] succeeds.  The third component is the
    file left on disk, if one was created. *)
Definition handle_all_buttons (trigger : option string)
    (port_data current_text : option string) (device_state : option bool)
    (now_str : string) (open_ok : bool) (st : State)
  : State * Outputs * option (string * list Row) :=
  let st :=
    match device_state with
    | Some a => set_device_active a st
    | None => st
    end in
  match trigger with
  | None => (st, mkOutputs "Recording" "primary" "STOPPED" NoAlert, None)
  | Some trigger_id =>
      let btn0 := if truthy_str current_text
                  then default "" current_text else "Recording" in
      let rec_text (s : State) :=
        if recording_active s then "RECORDING" else "STOPPED" in
      if String.eqb trigger_id "save-btn" then
        if negb (truthy_str port_data) then
          (st, mkOutputs btn0 "primary" "STOPPED" PortMissing, None)
        else if bool_decide (current_text = Some "Recording") then
          (set_recording_active true st,
           mkOutputs "Stop" "danger" "RECORDING"
             (RecordingStarted (negb (device_active st))), None)
        else
          (set_recording_active false st,
           mkOutputs "Recording" "primary" "STOPPED" RecordingStopped, None)
      else if String.eqb trigger_id "clear-btn" then
        (set_recorded_encoders [] st,
         mkOutputs btn0 "primary" (rec_text st)
           (DataCleared (Z.of_nat (length (recorded_encoders st)))), None)
      else if String.eqb trigger_id "save-as-btn" then
        match recorded_encoders st with
        | [] => (st, mkOutputs btn0 "primary" (rec_text st) NothingToSave, None)
        | _ :: _ =>
            let filename := "encoder_data_" +:+ now_str +:+ ".csv" in
            if open_ok then
              let (rows, ok) := write_rows (recorded_encoders st) in
              (st,
               mkOutputs btn0 "primary" (rec_text st)
                 (if ok
                  then SaveDone filename (Z.of_nat (length (recorded_encoders st)))
                  else SaveFailed),
               Some (filename, header_row :: rows))
            else (st, mkOutputs btn0 "primary" (rec_text st) SaveFailed, None)
        end
      else (st, mkOutputs btn0 "primary" "STOPPED" NoAlert, None)
  end.

(** What happens to the shared state, in the order it happens. *)
Inductive Event :=
| Decoded (ts : Q) (f : Frame)
| Buttons (trigger : option string) (port_data current_text : option string)
          (device_state : option bool) (now_str : string) (open_ok : bool)
| KeyPress (key : option string)
| KeyRelease (key : option string).

Definition step (st : State) (e : Event) : State :=
  match e with
  | Decoded ts f => on_frame ts f st
  | Buttons tr pd ct ds ns ok => (handle_all_buttons tr pd ct ds ns ok st).1.1
  | KeyPress k => on_key_press k st
  | KeyRelease k => on_key_release k st
  end.

Definition run (evs : list Event) (st : State) : State := foldl step st evs.

(** The two presses of the Recording/Stop button. *)
Definition press_record : Event :=
  Buttons (Some "save-btn") (Some "COM3") (Some "Recording") None "" true.
Definition press_stop : Event :=
  Buttons (Some "save-btn") (Some "COM3") (Some "Stop") None "" true.

End CsvExport.

Definition sample_of (ts : Q) (f : Frame) : Sample :=
  {| timestamp := ts; s_left_arm := left_arm f; s_right_arm := right_arm f |}.

(** The row the column contract prescribes for one sample. *)
Definition spec_row (format_datetime : Q -> string) (e : Sample) : Row :=
  [CFloat (timestamp e); CStr (format_datetime (timestamp e))]
    ++ map CInt (take 7 (s_right_arm e))
    ++ map CInt (take 7 (s_left_arm e)).

Definition spec_header : Row :=
  map CStr
    ["timestamp"; "datetime";
     "right_joint_1"; "right_joint_2"; "right_joint_3"; "right_joint_4";
     "right_joint_5"; "right_joint_6"; "right_joint_7";
     "left_joint_1"; "left_joint_2"; "left_joint_3"; "left_joint_4";
     "left_joint_5"; "left_joint_6"; "left_joint_7"].

(** Every recorded sample comes from a decoded frame: seven values per arm. *)
Definition sample_wf (e : Sample) : Prop :=
  length (s_left_arm e) = 7%nat /\ length (s_right_arm e) = 7%nat.

(** An event whose frame, if it carries one, came out of the parser. *)
Definition event_wf (e : Event) : Prop :=
  match e with
  | Decoded _ f => frame_wf f
  | _ => True
  end.

End UsbUi.

(* ===================================================================== *)
(** ** grpc_stream_handler.py: GRPCStreamHandler *)
(* ===================================================================== *)

Module StreamHandler.
Import Py.

Record StreamSample := mkStreamSample {
  timestamp : Q;
  angles : list Q;
  sequence : Z;
  session_id : string;
  capture_time_ns : Z;
  send_time_ns : Z
}.

(** The [stats] dictionary of the handler. *)
Record HandlerStats := mkHandlerStats {
  total_samples : Z;
  processed_samples : Z;
  dropped_samples : Z;
  last_fps : Q;
  start_time : option Q
}.

(** The local variables of [_worker_loop]. *)
Record WorkerLocals := mkWorkerLocals {
  last_stats_time : Q;
  samples_since_last_stats : Z
}.

Inductive LoopStatus := Continue | Exit.

Section Handler.
(** Whatever the registered callbacks read and write. *)
Variable World : Type.

(** A callback runs on a sample, may change the world, and then either
    returns ([None]) or raises an [Exception] ([Some msg]). *)
Definition Callback : Type := StreamSample -> World -> World * option string.

(** [data_queue] holds samples and the [None] shutdown sentinel. *)
Record Handler := mkHandler {
  max_queue_size : Z;
  data_queue : list (option StreamSample);
  callbacks : list Callback;
  is_running : bool;
  stats : HandlerStats
}.

(** [GRPCStreamHandler(max_queue_size)] *)
Definition new_handler (max_queue_size : Z) : Handler :=
  {| max_queue_size := max_queue_size;
     data_queue := [];
     callbacks := [];
     is_running := false;
     stats := {| total_samples := 0; processed_samples := 0;
                 dropped_samples := 0; last_fps := 0;
                 start_time := None |} |}.

Definition add_callback (cb : Callback) (h : Handler) : Handler :=
  {| max_queue_size := max_queue_size h;
     data_queue := data_queue h;
     callbacks := callbacks h ++ [cb];
     is_running := is_running h;
     stats := stats h |}.

(** [start()], without the thread creation; [now] is [time.time()]. *)
Definition start (now : Q) (h : Handler) : Handler :=
  if is_running h then h
  else
    {| max_queue_size := max_queue_size h;
       data_queue := data_queue h;
       callbacks := callbacks h;
       is_running := true;
       stats := {| total_samples := total_samples (stats h);
                   processed_samples := processed_samples (stats h);
                   dropped_samples := dropped_samples (stats h);
                   last_fps := last_fps (stats h);
                   start_time := Some now |} |}.

(** [queue.Queue.full()]: a [maxsize <= 0] queue is unbounded. *)
Definition queue_full (h : Handler) : bool :=
  (0 <? max_queue_size h)
  && (max_queue_size h <=? Z.of_nat (length (data_queue h))).

(** [stop()], without the join.  [data_queue.put(None, timeout=1.0)] adds
    the sentinel when there is room; on a queue that stays full for that
    second it raises [queue.Full], which is swallowed. *)
Definition stop (h : Handler) : Handler :=
  if negb (is_running h) then h
  else
    {| max_queue_size := max_queue_size h;
       data_queue := if queue_full h then data_queue h
                     else data_queue h ++ [None];
       callbacks := callbacks h;
       is_running := false;
       stats := stats h |}.

(** The [StreamSample] built at lines 92-100. *)
Definition make_sample (angles : list Q) (sequence : Z) (session_id : string)
    (capture_time_ns send_time_ns : Z) (now : Q) : StreamSample :=
  {| timestamp := now;
     angles := angles;
     sequence := sequence;
     session_id := session_id;
     capture_time_ns :=
       if capture_time_ns =? 0 then py_int (now * 1000000000)%Q
       else capture_time_ns;
     send_time_ns :=
       if send_time_ns =? 0 then py_int (now * 1000000000)%Q
       else send_time_ns |}.

Definition bump_dropped (s : HandlerStats) : HandlerStats :=
  {| total_samples := total_samples s;
     processed_samples := processed_samples s;
     dropped_samples := dropped_samples s + 1;
     last_fps := last_fps s;
     start_time := start_time s |}.

Definition bump_total (s : HandlerStats) : HandlerStats :=
  {| total_samples := total_samples s + 1;
     processed_samples := processed_samples s;
     dropped_samples := dropped_samples s;
     last_fps := last_fps s;
     start_time := start_time s |}.

(** [add_sample]; [now] is the [time.time()] of line 92. *)
Definition add_sample (angles : list Q) (sequence : Z) (session_id : string)
    (capture_time_ns send_time_ns : Z) (now : Q) (h : Handler)
  : bool * Handler :=
  if negb (is_running h) then (false, h)
  else
    let sample :=
      make_sample angles sequence session_id capture_time_ns send_time_ns now in
    if queue_full h then
      (false,
       {| max_queue_size := max_queue_size h;
          data_queue := data_queue h;
          callbacks := callbacks h;
          is_running := is_running h;
          stats := bump_dropped (stats h) |})
    else
      (true,
       {| max_queue_size := max_queue_size h;
          data_queue := data_queue h ++ [Some sample];
          callbacks := callbacks h;
          is_running := is_running h;
          stats := bump_total (stats h) |}).

(** The [for callback in callbacks_copy] loop of [_process_sample]: each
    callback is called on the sample inside its own [try].  What a callback
    did to the world before it raised stays done; the exception is printed
    and the loop goes on with the next callback. *)
Fixpoint run_callbacks (cbs : list Callback) (sample : StreamSample)
    (w : World) : World :=
  match cbs with
  | [] => w
  | cb :: cbs' =>
      let (w1, _) := cb sample w in
      run_callbacks cbs' sample w1
  end.

(** [_process_sample] *)
Definition process_sample (h : Handler) (sample : StreamSample) (w : World)
  : World :=
  run_callbacks (callbacks h) sample w.

(** One round of the [while self.is_running] loop of [_worker_loop]: the
    loop test, the [get], and the body; [current_time] is the
    [time.time()] of line 138.  An empty queue is the [queue.Empty]
    branch. *)
Definition worker_iter (current_time : Q) (h : Handler) (loc : WorkerLocals)
    (w : World) : LoopStatus * Handler * WorkerLocals * World :=
  if negb (is_running h) then (Exit, h, loc, w)
  else
    match data_queue h with
    | [] => (Continue, h, loc, w)
    | None :: q =>
        (Exit,
         {| max_queue_size := max_queue_size h; data_queue := q;
            callbacks := callbacks h; is_running := is_running h;
            stats := stats h |}, loc, w)
    | Some sample :: q =>
        let w' := process_sample h sample w in
        let n := samples_since_last_stats loc + 1 in
        let elapsed := (current_time - last_stats_time loc)%Q in
        let due := Qle_bool 5 elapsed in
        (Continue,
         {| max_queue_size := max_queue_size h; data_queue := q;
            callbacks := callbacks h; is_running := is_running h;
            stats :=
              {| total_samples := total_samples (stats h);
                 processed_samples := processed_samples (stats h) + 1;
                 dropped_samples := dropped_samples (stats h);
                 last_fps := if due then (inject_Z n / elapsed)%Q
                             else last_fps (stats h);
                 start_time := start_time (stats h) |} |},
         {| last_stats_time := if due then current_time
                               else last_stats_time loc;
            samples_since_last_stats := if due then 0 else n |},
         w')
    end.

(** *** Producer, consumer and lifecycle calls, interleaved *)

Inductive Event :=
| Submit (angles : list Q) (sequence : Z) (session_id : string)
         (capture_time_ns send_time_ns : Z) (now : Q)
| WorkerRound (current_time : Q).

Record System := mkSystem {
  handler : Handler;
  locals : WorkerLocals;
  world : World;              (* what the callbacks have made of it so far *)
  worker_alive : bool;        (* the worker thread has not left its loop *)
  returns : list bool         (* what each [add_sample] returned *)
}.

Definition sys_step (s : System) (e : Event) : System :=
  match e with
  | Submit a sq sid c sd now =>
      let (r, h') := add_sample a sq sid c sd now (handler s) in
      {| handler := h'; locals := locals s; world := world s;
         worker_alive := worker_alive s;
         returns := returns s ++ [r] |}
  | WorkerRound t =>
      if worker_alive s then
        let '(st, h', loc', w') :=
          worker_iter t (handler s) (locals s) (world s) in
        {| handler := h'; locals := loc'; world := w';
           worker_alive := match st with Continue => true | Exit => false end;
           returns := returns s |}
      else s
  end.

Definition sys_run (evs : list Event) (s : System) : System :=
  foldl sys_step s evs.

(** [stop()] called from another thread while the worker is inside the
    body of its loop (busy with a callback) or about to test [is_running]
    again: the flag is cleared and the sentinel is put; the worker itself
    leaves at its next round.  (A worker that is waiting in [get] on an
    empty queue at that moment would be handed the sentinel instead; rounds
    are atomic here, so that case is not among the runs of this system.) *)
Definition sys_stop (s : System) : System :=
  {| handler := stop (handler s); locals := locals s; world := world s;
     worker_alive := worker_alive s; returns := returns s |}.

(** [start()] once the previous worker thread, if there was one, has left
    its loop: a handler that is not running gets a new worker thread, whose
    locals start afresh ([now] stands for both [time.time()] readings). *)
Definition sys_start (now : Q) (s : System) : System :=
  if is_running (handler s) then s
  else
    {| handler := start now (handler s);
       locals := {| last_stats_time := now; samples_since_last_stats := 0 |};
       world := world s; worker_alive := true; returns := returns s |}.

(** A started handler with the given callbacks and an empty queue. *)
Definition started (max_queue_size : Z) (cbs : list Callback) (t0 : Q)
    (w : World) : System :=
  {| handler := start t0 (foldl (fun h cb => add_callback cb h)
                                (new_handler max_queue_size) cbs);
     locals := {| last_stats_time := t0; samples_since_last_stats := 0 |};
     world := w; worker_alive := true; returns := [] |}.

(** The samples of the [Submit] events, in submission order. *)
Definition submitted (evs : list Event) : list StreamSample :=
  omap (fun e => match e with
                 | Submit a sq sid c sd now => Some (make_sample a sq sid c sd now)
                 | WorkerRound _ => None
                 end) evs.

(** The samples waiting in the queue. *)
Definition queued (h : Handler) : list StreamSample :=
  omap id (data_queue h).

(** A handler at work: the callbacks [cbs] are registered, [is_running]
    is set, the worker thread is in its loop and the queue holds samples
    only (no shutdown sentinel). *)
Definition at_work (cbs : list Callback) (s : System) : Prop :=
  callbacks (handler s) = cbs
  /\ is_running (handler s) = true
  /\ worker_alive s = true
  /\ data_queue (handler s) = Some <$> queued (handler s).

(** What the ordering guarantee prescribes, independently of the queue and
    the worker: the samples one after the other, each handed to every
    registered callback in registration order, whether or not an earlier
    callback raised. *)
Definition deliver_in_order (cbs : list Callback) (samples : list StreamSample)
    (w : World) : World :=
  foldl (fun w sample => foldl (fun w cb => (cb sample w).1) w cbs) w samples.

End Handler.

Arguments max_queue_size {World} _.
Arguments data_queue {World} _.
Arguments callbacks {World} _.
Arguments is_running {World} _.
Arguments stats {World} _.
Arguments handler {World} _.
Arguments locals {World} _.
Arguments world {World} _.
Arguments worker_alive {World} _.
Arguments returns {World} _.
Arguments new_handler {World} _.
Arguments add_callback {World} _ _.
Arguments start {World} _ _.
Arguments stop {World} _.
Arguments queue_full {World} _.
Arguments add_sample {World} _ _ _ _ _ _ _.
Arguments run_callbacks {World} _ _ _.
Arguments process_sample {World} _ _ _.
Arguments worker_iter {World} _ _ _ _.
Arguments sys_step {World} _ _.
Arguments sys_run {World} _ _.
Arguments sys_stop {World} _.
Arguments sys_start {World} _ _.
Arguments started {World} _ _ _ _.
Arguments queued {World} _.
Arguments at_work {World} _ _.
Arguments deliver_in_order {World} _ _ _.

(** The default handler ([max_queue_size = 1000]), started, with 1000
    samples accepted and not yet consumed. *)
Definition full_running : Handler unit :=
  foldl (fun h _ => (add_sample [0.5%Q] 7 "s" 0 0 1%Q h).2)
        (start 0%Q (new_handler 1000)) (seq 0 1000).

(** ... and the same after [stop()]. *)
Definition full_stopped : Handler unit := stop full_running.

(** Two callbacks that write down what they are called on, as pairs of
    the callback's position and the sample's sequence number: the first
    raises after writing, the second returns. *)
Definition cb_raising : Callback (list (nat * Z)) :=
  fun sample log => (log ++ [(0%nat, sequence sample)], Some "boom").
Definition cb_recording : Callback (list (nat * Z)) :=
  fun sample log => (log ++ [(1%nat, sequence sample)], None).

Definition demo_events : list Event :=
  [Submit [0.1%Q] 1 "s" 0 0 1%Q; Submit [0.2%Q] 2 "s" 0 0 2%Q;
   WorkerRound 3%Q; Submit [0.3%Q] 3 "s" 0 0 4%Q; WorkerRound 5%Q].

(** A handler that was stopped while its worker was busy with sample 1
    and sample 2 was waiting, and then started again. *)
Definition stopped_busy_and_restarted : System (list (nat * Z)) :=
  sys_start 5%Q
    (sys_step
       (sys_stop
          (sys_run [Submit [0.1%Q] 1 "s" 0 0 1%Q; WorkerRound 2%Q;
                    Submit [0.2%Q] 2 "s" 0 0 3%Q]
             (started 1000 [cb_raising; cb_recording] 0%Q [])))
       (WorkerRound 4%Q)).

End StreamHandler.

(* ===================================================================== *)
(** ** pages/wifi_ui_1.py: BackgroundWorker and the gain handler *)
(* ===================================================================== *)

Module Wifi.
Import Py.

Inductive TaskType :=
| APPLY_GAINS
| SEND_SAVE
| SEND_CLEAR
| SEND_HOMING
| SEND_TELEOP
| SEND_DELETE
| SEND_POWER_OFF.

(** [task_type.value] *)
Definition value (t : TaskType) : string :=
  match t with
  | APPLY_GAINS => "apply_gains"
  | SEND_SAVE => "send_save"
  | SEND_CLEAR => "send_clear"
  | SEND_HOMING => "send_homing"
  | SEND_TELEOP => "send_teleop"
  | SEND_DELETE => "send_delete"
  | SEND_POWER_OFF => "send_power_off"
  end.

(** The values that travel in [params] and come back from the client. *)
Inductive PyVal :=
| VNone
| VFloat (x : Q)
| VStr (s : string)
| VFloats (xs : list Q).

Record BackgroundTask := mkTask {
  task_id : string;
  task_type : TaskType;
  params : gmap string PyVal;
  timestamp : Q
}.

Record TaskResult := mkResult {
  r_task_id : string;
  success : bool;
  result : PyVal;
  error : string;
  r_timestamp : Q
}.

Record BackgroundWorker := mkWorker {
  task_queue : list BackgroundTask;
  result_queue : list TaskResult;
  running : bool;
  connection_data : string * Z
}.

Definition DEFAULT_RASPBERRY_IP : string := "192.168.0.43".
Definition DEFAULT_RASPBERRY_PORT : Z := 50051.

(** [BackgroundWorker()] *)
Definition new_worker : BackgroundWorker :=
  {| task_queue := []; result_queue := []; running := false;
     connection_data := (DEFAULT_RASPBERRY_IP, DEFAULT_RASPBERRY_PORT) |}.

(** [start()], without the thread creation *)
Definition start (wk : BackgroundWorker) : BackgroundWorker :=
  {| task_queue := task_queue wk; result_queue := result_queue wk;
     running := true; connection_data := connection_data wk |}.

(** [submit_task]: [now] is the [time.time()] inside the f-string, [ts] the
    one of the dataclass default.  [queue.Queue()] is unbounded, so
    [put_nowait] cannot raise [queue.Full]. *)
Definition submit_task (ty : TaskType) (params : gmap string PyVal)
    (now ts : Q) (wk : BackgroundWorker) : string * BackgroundWorker :=
  let task_id := value ty +:+ "_" +:+ pretty (py_int (now * 1000)%Q) in
  let task := {| task_id := task_id; task_type := ty; params := params;
                 timestamp := ts |} in
  (task_id,
   {| task_queue := task_queue wk ++ [task];
      result_queue := result_queue wk;
      running := running wk;
      connection_data := connection_data wk |}).

(** Calls that act on the outside world [W] and may raise. *)
Definition M (W A : Type) : Type := W -> W * outcome A.

#[export] Instance M_ret {W} : MRet (M W) :=
  fun A (a : A) w => (w, Returned a).

#[export] Instance M_bind {W} : MBind (M W) :=
  fun A B (k : A -> M W B) (m : M W A) w =>
    match m w with
    | (w', Returned a) => k a w'
    | (w', Raised msg) => (w', Raised msg)
    end.

(** The senders of [GRPC.stubs.client] the worker dispatches to. *)
Class RpcClient (W : Type) := {
  send_gravity_comp_gain : string -> Z -> PyVal -> PyVal -> M W PyVal;
  send_save_command : string -> Z -> string -> PyVal -> M W PyVal;
  send_delete_command : string -> Z -> PyVal -> M W PyVal;
  send_homing_command : string -> Z -> string -> M W PyVal;
  send_master_teleop_command : string -> Z -> PyVal -> M W PyVal;
  send_power_off_command : string -> Z -> string -> M W PyVal
}.

(** The methods of [grpc_data_manager] the worker calls. *)
Class DataManager (W : Type) := {
  update_gain_values : PyVal -> PyVal -> M W unit;
  clear_poses : M W unit;
  reset_all_data : M W unit
}.

Section Worker.
Context {W : Type} `{!RpcClient W, !DataManager W}.

(** [task.params[key]]; a missing key raises [KeyError(key)]. *)
Definition param (task : BackgroundTask) (key : string) : M W PyVal :=
  fun w =>
    match params task !! key with
    | Some v => (w, Returned v)
    | None => (w, Raised ("'" +:+ key +:+ "'"))
    end.

(** [task.params.get(key, dflt)] *)
Definition param_get (task : BackgroundTask) (key : string) (dflt : PyVal) : PyVal :=
  default dflt (params task !! key).

Definition is_str (v : PyVal) (s : string) : bool :=
  match v with
  | VStr s' => String.eqb s' s
  | _ => false
  end.

(** The [try] block of [_execute_task] (lines 211-259). *)
Definition execute_body (ip : string) (port : Z) (task : BackgroundTask)
  : M W PyVal :=
  match task_type task with
  | APPLY_GAINS =>
      s ← param task "shoulder_gain";
      j ← param task "joint_gain";
      result ← send_gravity_comp_gain ip port s j;
      s' ← param task "shoulder_gain";
      j' ← param task "joint_gain";
      _ ← update_gain_values s' j';
      mret result
  | SEND_SAVE =>
      send_save_command ip port "SAVE" (param_get task "angles" (VFloats []))
  | SEND_CLEAR =>
      result ← send_delete_command ip port (VStr "CLEAR_POSES");
      _ ← clear_poses;
      mret result
  | SEND_HOMING => send_homing_command ip port "GO_HOME"
  | SEND_TELEOP =>
      send_master_teleop_command ip port (param_get task "command" (VStr "START"))
  | SEND_DELETE =>
      let command := param_get task "command" (VStr "DELETE_ALL") in
      result ← send_delete_command ip port command;
      _ ← (if is_str command "DELETE_ALL" then reset_all_data else mret ());
      mret result
  | SEND_POWER_OFF => send_power_off_command ip port "POWER_OFF"
  end.

(** [_execute_task]; [now] stamps the [TaskResult]. *)
Definition execute_task (GRPC_CLIENT_AVAILABLE : bool) (wk : BackgroundWorker)
    (task : BackgroundTask) (now : Q) (w : W) : W * TaskResult :=
  if negb GRPC_CLIENT_AVAILABLE then
    (w, {| r_task_id := task_id task; success := false; result := VNone;
           error := "gRPC 클라이언트 모듈 없음"; r_timestamp := now |})
  else
    let (ip, port) := connection_data wk in
    match execute_body ip port task w with
    | (w', Returned r) =>
        (w', {| r_task_id := task_id task; success := true; result := r;
                error := ""; r_timestamp := now |})
    | (w', Raised msg) =>
        (w', {| r_task_id := task_id task; success := false; result := VNone;
                error := msg; r_timestamp := now |})
    end.

(** One round of [_worker_loop]: [true] in the first component means the
    [while] loop goes on.  An empty queue is the [queue.Empty] branch. *)
Definition worker_round (GRPC_CLIENT_AVAILABLE : bool) (now : Q)
    (wk : BackgroundWorker) (w : W) : bool * BackgroundWorker * W :=
  if negb (running wk) then (false, wk, w)
  else
    match task_queue wk with
    | [] => (true, wk, w)
    | task :: q =>
        let (w', r) := execute_task GRPC_CLIENT_AVAILABLE wk task now w in
        (true,
         {| task_queue := q;
            result_queue := result_queue wk ++ [r];
            running := running wk;
            connection_data := connection_data wk |}, w')
    end.

(** Which sender call [_execute_task] makes for a task. *)
Inductive dispatches (ip : string) (port : Z) (task : BackgroundTask)
  : M W PyVal -> Prop :=
| d_gains s j :
    task_type task = APPLY_GAINS ->
    params task !! "shoulder_gain" = Some s ->
    params task !! "joint_gain" = Some j ->
    dispatches ip port task (send_gravity_comp_gain ip port s j)
| d_save :
    task_type task = SEND_SAVE ->
    dispatches ip port task
      (send_save_command ip port "SAVE" (param_get task "angles" (VFloats [])))
| d_clear :
    task_type task = SEND_CLEAR ->
    dispatches ip port task (send_delete_command ip port (VStr "CLEAR_POSES"))
| d_homing :
    task_type task = SEND_HOMING ->
    dispatches ip port task (send_homing_command ip port "GO_HOME")
| d_teleop :
    task_type task = SEND_TELEOP ->
    dispatches ip port task
      (send_master_teleop_command ip port
         (param_get task "command" (VStr "START")))
| d_delete :
    task_type task = SEND_DELETE ->
    dispatches ip port task
      (send_delete_command ip port (param_get task "command" (VStr "DELETE_ALL")))
| d_power_off :
    task_type task = SEND_POWER_OFF ->
    dispatches ip port task (send_power_off_command ip port "POWER_OFF").

(** The data-manager call that follows the sender inside the [try] block. *)
Definition follow_up (task : BackgroundTask) : M W unit :=
  match task_type task with
  | APPLY_GAINS =>
      s ← param task "shoulder_gain";
      j ← param task "joint_gain";
      update_gain_values s j
  | SEND_CLEAR => clear_poses
  | SEND_DELETE =>
      if is_str (param_get task "command" (VStr "DELETE_ALL")) "DELETE_ALL"
      then reset_all_data else mret ()
  | _ => mret ()
  end.

End Worker.

(** *** The Apply-Gains button *)

(** [x or dflt] for an optional number: [None] and zero are falsy. *)
Definition or_default (x : option Q) (dflt : Q) : Q :=
  match x with
  | Some v => if Qeq_bool v 0 then dflt else v
  | None => dflt
  end.

(** [max(0.2, min(1.0, x))] *)
Definition clamp_gain (x : Q) : Q := py_max 0.2 (py_min 1.0 x).

Definition gain_params (shoulder_gain joint_gain : Q) : gmap string PyVal :=
  <["joint_gain" := VFloat joint_gain]>
    (<["shoulder_gain" := VFloat shoulder_gain]> ∅).

(** [apply_gains_threaded]; the result is [None] for [no_update] and
    otherwise the two numbers the callback formats for display. *)
Definition apply_gains_threaded (n_clicks : option Z)
    (shoulder_gain joint_gain : option Q) (now ts : Q) (wk : BackgroundWorker)
  : option (Q * Q) * BackgroundWorker :=
  match n_clicks with
  | None | Some 0 => (None, wk)
  | Some _ =>
      let shoulder_gain := clamp_gain (or_default shoulder_gain 0.6) in
      let joint_gain := clamp_gain (or_default joint_gain 0.7) in
      let (_, wk') :=
        submit_task APPLY_GAINS (gain_params shoulder_gain joint_gain) now ts wk in
      (Some (shoulder_gain, joint_gain), wk')
  end.

(** *** Collaborators found in the sources *)

(** [DummyGRPCDataManager]: every method is [pass]. *)
Definition dummy_data_manager {W : Type} : DataManager W :=
  {| update_gain_values := fun _ _ w => (w, Returned ());
     clear_poses := fun w => (w, Returned ());
     reset_all_data := fun w => (w, Returned ()) |}.

(** The client when the protobuf modules are missing: [create_grpc_channel]
    returns no channel and every sender returns the failure text. *)
Definition no_channel : M unit PyVal :=
  fun w => (w, Returned (VStr "연결 실패: gRPC 모듈이 로드되지 않음")).

Definition offline_client : RpcClient unit :=
  {| send_gravity_comp_gain := fun _ _ _ _ => no_channel;
     send_save_command := fun _ _ _ _ => no_channel;
     send_delete_command := fun _ _ _ => no_channel;
     send_homing_command := fun _ _ _ => no_channel;
     send_master_teleop_command := fun _ _ _ => no_channel;
     send_power_off_command := fun _ _ _ => no_channel |}.

(** A client double whose senders all raise the given message. *)
Definition raising_client (msg : string) : RpcClient unit :=
  {| send_gravity_comp_gain := fun _ _ _ _ w => (w, Raised msg);
     send_save_command := fun _ _ _ _ w => (w, Raised msg);
     send_delete_command := fun _ _ _ w => (w, Raised msg);
     send_homing_command := fun _ _ _ w => (w, Raised msg);
     send_master_teleop_command := fun _ _ _ w => (w, Raised msg);
     send_power_off_command := fun _ _ _ w => (w, Raised msg) |}.

End Wifi.

(* ===================================================================== *)
(** ** GRPC/stubs/client.py: send_gravity_comp_gain *)
(* ===================================================================== *)

Module Client.
Import Py Wifi.

(** [masterdevice_pb2.GravityCompGainRequest] *)
Record GravityCompGainRequest := mkGainRequest {
  shoulder_gain : Q;
  joint_gain : Q
}.

(** How [stub.GravityCompGain(request, timeout=3.0)] ends. *)
Inductive StubOutcome :=
| Response (message : string)
| RpcError (code details : string)
| OtherError (msg : string).

(** The remote side as the client sees it: what [create_grpc_channel]
    yields (a channel or not, and its status text), how the service answers
    a request, and the requests sent and channels closed so far. *)
Record Remote := mkRemote {
  connect : bool * string;
  respond : GravityCompGainRequest -> StubOutcome;
  sent : list GravityCompGainRequest;
  closed : nat
}.

(** [float(v)]; a string operand is taken to be non-numeric. *)
Definition py_float (v : PyVal) : outcome Q :=
  match v with
  | VFloat x => Returned x
  | VNone =>
      Raised "float() argument must be a string or a real number, not 'NoneType'"
  | VFloats _ =>
      Raised "float() argument must be a string or a real number, not 'list'"
  | VStr s => Raised ("could not convert string to float: '" +:+ s +:+ "'")
  end.

Definition close_channel (r : Remote) : Remote :=
  {| connect := connect r; respond := respond r; sent := sent r;
     closed := S (closed r) |}.

(** [send_gravity_comp_gain]: it returns a text in every case. *)
Definition send_gravity_comp_gain (ip : string) (port : Z)
    (shoulder_gain joint_gain : PyVal) : M Remote PyVal :=
  fun r =>
    let (channel, status) := connect r in
    if negb channel then (r, Returned (VStr ("연결 실패: " +:+ status)))
    else
      match py_float shoulder_gain with
      | Raised msg =>
          (close_channel r, Returned (VStr ("토크 게인 요청 오류: " +:+ msg)))
      | Returned s =>
          let shoulder_gain := clamp_gain s in
          match py_float joint_gain with
          | Raised msg =>
              (close_channel r, Returned (VStr ("토크 게인 요청 오류: " +:+ msg)))
          | Returned j =>
              let joint_gain := clamp_gain j in
              let request := {| shoulder_gain := shoulder_gain;
                                joint_gain := joint_gain |} in
              let r' := {| connect := connect r; respond := respond r;
                           sent := sent r ++ [request];
                           closed := closed r |} in
              match respond r request with
              | Response message =>
                  (close_channel r',
                   Returned (VStr ("토크 게인 설정 성공: " +:+ message)))
              | RpcError code details =>
                  (close_channel r',
                   Returned (VStr ("GravityCompGain RPC 실패: " +:+ code
                                   +:+ " - " +:+ details)))
              | OtherError msg =>
                  (close_channel r',
                   Returned (VStr ("토크 게인 요청 오류: " +:+ msg)))
              end
          end
      end.

(** A reachable service that answers every request with "ok", and one whose
    call fails with UNAVAILABLE. *)
Definition remote_ok : Remote :=
  {| connect := (true, "연결 성공");
     respond := fun _ => Response "ok"; sent := []; closed := 0 |}.

Definition remote_failing : Remote :=
  {| connect := (true, "연결 성공");
     respond := fun _ => RpcError "StatusCode.UNAVAILABLE" "failed to connect";
     sent := []; closed := 0 |}.

(** Senders over [Remote] that all raise the given message. *)
Definition raising_remote_client (msg : string) : RpcClient Remote :=
  {| Wifi.send_gravity_comp_gain := fun _ _ _ _ w => (w, Raised msg);
     send_save_command := fun _ _ _ _ w => (w, Raised msg);
     send_delete_command := fun _ _ _ w => (w, Raised msg);
     send_homing_command := fun _ _ _ w => (w, Raised msg);
     send_master_teleop_command := fun _ _ _ w => (w, Raised msg);
     send_power_off_command := fun _ _ _ w => (w, Raised msg) |}.

(** The client of the worker, with this module's gain sender and any
    implementation of the other senders. *)
Definition with_gain_sender (others : RpcClient Remote) : RpcClient Remote :=
  {| Wifi.send_gravity_comp_gain := send_gravity_comp_gain;
     send_save_command := @send_save_command _ others;
     send_delete_command := @send_delete_command _ others;
     send_homing_command := @send_homing_command _ others;
     send_master_teleop_command := @send_master_teleop_command _ others;
     send_power_off_command := @send_power_off_command _ others |}.

End Client.

(* ===================================================================== *)
(** ** pages/usb_ui.py: the one-shot frame reader and the reader thread *)
(* ===================================================================== *)

Module UsbSerial.
Import PyBytes UsbFrame Py.

(** [ser.read(n)] on a port where the bytes [inp] are waiting and nothing
    else arrives before the timeout: the bytes read and what stays in the
    port. *)
Definition read (n : nat) (inp : list byte) : list byte * list byte :=
  (take n inp, drop n inp).

(** [find_frame_start]: the body of [for _ in range(500)], [rounds] times. *)
Fixpoint find_frame_start_loop (rounds : nat) (inp : list byte)
  : bool * list byte :=
  match rounds with
  | O => (false, inp)
  | S rounds' =>
      let (byte1, inp1) := read 1 inp in
      match byte1 with
      | b1 :: _ =>
          if Byte.eqb b1 FRAME_HEADER1 then
            let (byte2, inp2) := read 1 inp1 in
            match byte2 with
            | b2 :: _ =>
                if Byte.eqb b2 FRAME_HEADER2 then (true, inp2)
                else find_frame_start_loop rounds' inp2
            | [] => find_frame_start_loop rounds' inp2
            end
          else find_frame_start_loop rounds' inp1
      | [] => find_frame_start_loop rounds' inp1
      end
  end.

Definition find_frame_start (inp : list byte) : bool * list byte :=
  find_frame_start_loop 500 inp.

(** [struct.unpack('<H', bs)[0]]; [None] is [struct.error]. *)
Definition unpack_H (bs : list byte) : option Z :=
  if len bs =? 2 then Some (from_bytes_little bs) else None.

(** [read_encoder_frame]; [now] is the [time.time()] of the returned
    dictionary, whose other three entries are the fields of [Frame].
    [None] is the [return None] of every failure path, the [except]
    included. *)
Definition read_encoder_frame (now : Q) (inp : list byte)
  : option (Q * Frame) * list byte :=
  let (found, inp1) := find_frame_start inp in
  if negb found then (None, inp1)
  else
    let (data, inp2) := read (Z.to_nat (FRAME_SIZE - 2)) inp1 in
    if negb (len data =? FRAME_SIZE - 2) then (None, inp2)
    else
      match data !! 0%nat with
      | None => (None, inp2)
      | Some b =>
          let switch_state := byte_val b in
          let encoder_data := slice data 1 (1 + ENC_DATA_SIZE) in
          match unpack_H (slice data (1 + ENC_DATA_SIZE) (1 + ENC_DATA_SIZE + 2)) with
          | None => (None, inp2)
          | Some crc_received =>
              let crc_calc := Z.land (sum (slice data 0 (1 + ENC_DATA_SIZE))) 0xFFFF in
              if negb (crc_received =? crc_calc) then (None, inp2)
              else
                match unpack_14I encoder_data with
                | None => (None, inp2)
                | Some values =>
                    (Some (now, {| sw := switch_state;
                                   left_arm := take 7 values;
                                   right_arm := drop 7 values |}), inp2)
                end
          end
      end.

(** *** The text-line pass of the reader thread (lines 356-372) *)

(** [k in line] *)
Fixpoint contains (k line : string) : bool :=
  String.prefix k line
  || match line with
     | EmptyString => false
     | String _ line' => contains k line'
     end.

Definition STATUS_KEYWORDS : list string :=
  ["COMPLETE"; "START"; "MOVING"; "REACHED"; "ERROR"; "TIMEOUT"; "BLOCKED"].

Section Reader.
(** [bs.decode('utf-8', errors='ignore').strip()] *)
Variable decode_strip : list byte -> string.

(** The second [while True] loop.  The first component lists the lines
    that are stored in [complete_messages] and logged, in order; the second
    is the buffer the loop leaves.  Every round removes at least one byte;
    [None] only if the fuel runs out. *)
Fixpoint text_loop (fuel : nat) (buf : list byte)
  : option (list string * list byte) :=
  match fuel with
  | O => None
  | S fuel' =>
      let nl := find [x0a] buf in
      if nl <? 0 then Some ([], buf)
      else
        let line := decode_strip (slice buf 0 (nl + 1)) in
        let buf' := del_prefix buf (nl + 1) in
        if String.eqb line "" then text_loop fuel' buf'
        else if existsb (fun k => contains k line) STATUS_KEYWORDS then
          match text_loop fuel' buf' with
          | None => None
          | Some (ls, rest) => Some (line :: ls, rest)
          end
        else text_loop fuel' buf'
  end.

Definition text_lines (buf : list byte) : option (list string * list byte) :=
  text_loop (S (length buf)) buf.

(** One round of [while serial_thread_active] that finds [chunk] waiting:
    [buf.extend(chunk)], the binary loop, the text loop.  With nothing
    waiting the round leaves the buffer alone. *)
Definition reader_round (buf chunk : list byte)
  : option (list Frame * list string * list byte) :=
  match chunk with
  | [] => Some ([], [], buf)
  | _ :: _ =>
      match parse_frames (buf ++ chunk) with
      | None => None
      | Some (fs, rest) =>
          match text_lines rest with
          | None => None
          | Some (ls, rest') => Some (fs, ls, rest')
          end
      end
  end.

(** Successive rounds, one per read. *)
Fixpoint reader_rounds (buf : list byte) (chunks : list (list byte))
  : option (list Frame * list string * list byte) :=
  match chunks with
  | [] => Some ([], [], buf)
  | c :: cs =>
      match reader_round buf c with
      | None => None
      | Some (fs, ls, buf') =>
          match reader_rounds buf' cs with
          | None => None
          | Some (fs', ls', buf'') => Some (fs ++ fs', ls ++ ls', buf'')
          end
      end
  end.

End Reader.

(** A decoder for the examples: 7-bit bytes as ASCII, line breaks and
    bytes from 0x80 on left out.  This is what [decode(...).strip()] gives
    on input whose only blanks are line breaks and whose bytes from 0x80 on
    form no UTF-8 sequence. *)
Fixpoint ascii_line (bs : list byte) : string :=
  match bs with
  | [] => EmptyString
  | b :: bs' =>
      if Byte.eqb b x0a || Byte.eqb b x0d || (128 <=? byte_val b)
      then ascii_line bs'
      else String (Ascii.ascii_of_byte b) (ascii_line bs')
  end.

(** Scenario A's frame with the first encoder value 10, whose low byte
    is the line-feed character. *)
Definition frame_lf : list byte :=
  [xaa; xbb; x01; x0a] ++ replicate 55 x00 ++ [x0b; x00].

End UsbSerial.

(* ===================================================================== *)
(** ** pages/wifi_ui_1.py: the worker's queues and connection data *)
(* ===================================================================== *)

Module WorkerQueues.
Import Py Wifi.

(** [update_connection] *)
Definition update_connection (ip : string) (port : Z) (wk : BackgroundWorker)
  : BackgroundWorker :=
  {| task_queue := task_queue wk; result_queue := result_queue wk;
     running := running wk; connection_data := (ip, port) |}.

(** [get_result]: [get_nowait], with [queue.Empty] turned into [None]. *)
Definition get_result (wk : BackgroundWorker)
  : option TaskResult * BackgroundWorker :=
  match result_queue wk with
  | [] => (None, wk)
  | r :: q =>
      (Some r,
       {| task_queue := task_queue wk; result_queue := q;
          running := running wk; connection_data := connection_data wk |})
  end.

(** The [while True] loop of [get_all_results]; every round but the last
    takes one result off the queue. *)
Fixpoint get_all_results_loop (fuel : nat) (wk : BackgroundWorker)
  : option (list TaskResult * BackgroundWorker) :=
  match fuel with
  | O => None
  | S fuel' =>
      match get_result wk with
      | (None, wk') => Some ([], wk')
      | (Some result, wk') =>
          match get_all_results_loop fuel' wk' with
          | None => None
          | Some (results, wk'') => Some (result :: results, wk'')
          end
      end
  end.

Definition get_all_results (wk : BackgroundWorker)
  : option (list TaskResult * BackgroundWorker) :=
  get_all_results_loop (S (length (result_queue wk))) wk.

Section Rounds.
Context {W : Type} `{!RpcClient W, !DataManager W}.

(** Successive rounds of [_worker_loop], one per [time.time()] reading of
    [nows], for as long as the loop goes on. *)
Fixpoint worker_rounds (GRPC_CLIENT_AVAILABLE : bool) (nows : list Q)
    (wk : BackgroundWorker) (w : W) : BackgroundWorker * W :=
  match nows with
  | [] => (wk, w)
  | now :: nows' =>
      let '(go_on, wk', w') := worker_round GRPC_CLIENT_AVAILABLE now wk w in
      if go_on then worker_rounds GRPC_CLIENT_AVAILABLE nows' wk' w'
      else (wk', w')
  end.

End Rounds.

(** A client double that writes down the address every sender is called
    with and answers "ok". *)
Definition note_address (ip : string) (port : Z) : M (list (string * Z)) PyVal :=
  fun log => (log ++ [(ip, port)], Returned (VStr "ok")).

Definition address_log_client : RpcClient (list (string * Z)) :=
  {| send_gravity_comp_gain := fun ip port _ _ => note_address ip port;
     send_save_command := fun ip port _ _ => note_address ip port;
     send_delete_command := fun ip port _ => note_address ip port;
     send_homing_command := fun ip port _ => note_address ip port;
     send_master_teleop_command := fun ip port _ => note_address ip port;
     send_power_off_command := fun ip port _ => note_address ip port |}.

End WorkerQueues.

(* ===================================================================== *)
(** ** GRPC/stubs/client.py: validate_gain_values *)
(* ===================================================================== *)

Module ClientUtil.
Import Py Wifi Client.

(** [a <= b] on floats *)
Definition Qleb (a b : Q) : bool := Qle_bool a b.

(** [validate_gain_values]: the tuple
    [(shoulder, joint, is_valid, message)]. *)
Definition validate_gain_values (shoulder_gain joint_gain : PyVal)
  : Q * Q * bool * string :=
  match py_float shoulder_gain with
  | Raised msg => (0.6%Q, 0.7%Q, false, "Invalid input: " +:+ msg)
  | Returned s =>
      let shoulder := py_max 0.2 (py_min 1.0 s) in
      match py_float joint_gain with
      | Raised msg => (0.6%Q, 0.7%Q, false, "Invalid input: " +:+ msg)
      | Returned j =>
          let joint := py_max 0.2 (py_min 1.0 j) in
          let is_valid :=
            (Qleb 0.2 shoulder && Qleb shoulder 1.0)
            && (Qleb 0.2 joint && Qleb joint 1.0) in
          (shoulder, joint, is_valid,
           if is_valid then "Valid" else "Values clamped to valid range")
      end
  end.

End ClientUtil.

(* ===================================================================== *)
(** ** grpc_data_manager.py: GRPCDataManager *)
(* ===================================================================== *)

Module GrpcDataManager.
Import Py Wifi Client.

(** An entry of [encoder_data], [streaming_data] or [save_stream_data]. *)
Record Sample := mkSample {
  timestamp : Q;
  angles : list Q;
  formatted : string
}.

(** An entry of [pose_data]. *)
Record Pose := mkPose {
  name : string;
  p_timestamp : Q;
  p_angles : list Q;
  p_datetime : string
}.

(** An entry of [grpc_logs]. *)
Record LogEntry := mkLogEntry {
  l_timestamp : Q;
  l_type : string;
  l_message : string;
  l_datetime : string
}.

(** The attributes of the manager that the methods below read or write.
    [lock_held] is the state of [self.lock], a plain [threading.Lock];
    [connected] is [robot_state["connected"]], [recording_active] and
    [recording_start_time] are the two entries of
    [robot_state["recording"]], and [gain_values] holds the values under
    "shoulder_gain" and "joint_gain". *)
Record Manager := mkManager {
  lock_held : bool;
  encoder_data : list Sample;
  streaming_data : list Sample;
  save_stream_data : list Sample;
  pose_data : list Pose;
  grpc_logs : list LogEntry;
  recorded_samples : list Sample;
  is_streaming : bool;
  is_recording : bool;
  is_save_streaming : bool;
  connected : bool;
  recording_active : bool;
  recording_start_time : option Q;
  gain_values : Q * Q;
  max_samples : Z
}.

(** [GRPCDataManager(max_samples)] *)
Definition new_manager (max_samples : Z) : Manager :=
  {| lock_held := false; encoder_data := []; streaming_data := [];
     save_stream_data := []; pose_data := []; grpc_logs := [];
     recorded_samples := []; is_streaming := false; is_recording := false;
     is_save_streaming := false; connected := false;
     recording_active := false; recording_start_time := None;
     gain_values := (0.6%Q, 0.7%Q); max_samples := max_samples |}.

(** Assignments to single attributes. *)
Definition set_lock_held (b : bool) (m : Manager) : Manager :=
  {| lock_held := b;
     encoder_data := encoder_data m;
     streaming_data := streaming_data m;
     save_stream_data := save_stream_data m;
     pose_data := pose_data m;
     grpc_logs := grpc_logs m;
     recorded_samples := recorded_samples m;
     is_streaming := is_streaming m;
     is_recording := is_recording m;
     is_save_streaming := is_save_streaming m;
     connected := connected m;
     recording_active := recording_active m;
     recording_start_time := recording_start_time m;
     gain_values := gain_values m;
     max_samples := max_samples m |}.

Definition set_connected (b : bool) (m : Manager) : Manager :=
  {| lock_held := lock_held m;
     encoder_data := encoder_data m;
     streaming_data := streaming_data m;
     save_stream_data := save_stream_data m;
     pose_data := pose_data m;
     grpc_logs := grpc_logs m;
     recorded_samples := recorded_samples m;
     is_streaming := is_streaming m;
     is_recording := is_recording m;
     is_save_streaming := is_save_streaming m;
     connected := b;
     recording_active := recording_active m;
     recording_start_time := recording_start_time m;
     gain_values := gain_values m;
     max_samples := max_samples m |}.

Definition set_grpc_logs (l : list LogEntry) (m : Manager) : Manager :=
  {| lock_held := lock_held m;
     encoder_data := encoder_data m;
     streaming_data := streaming_data m;
     save_stream_data := save_stream_data m;
     pose_data := pose_data m;
     grpc_logs := l;
     recorded_samples := recorded_samples m;
     is_streaming := is_streaming m;
     is_recording := is_recording m;
     is_save_streaming := is_save_streaming m;
     connected := connected m;
     recording_active := recording_active m;
     recording_start_time := recording_start_time m;
     gain_values := gain_values m;
     max_samples := max_samples m |}.

Definition set_pose_data (l : list Pose) (m : Manager) : Manager :=
  {| lock_held := lock_held m;
     encoder_data := encoder_data m;
     streaming_data := streaming_data m;
     save_stream_data := save_stream_data m;
     pose_data := l;
     grpc_logs := grpc_logs m;
     recorded_samples := recorded_samples m;
     is_streaming := is_streaming m;
     is_recording := is_recording m;
     is_save_streaming := is_save_streaming m;
     connected := connected m;
     recording_active := recording_active m;
     recording_start_time := recording_start_time m;
     gain_values := gain_values m;
     max_samples := max_samples m |}.

Definition set_gain_values (g : Q * Q) (m : Manager) : Manager :=
  {| lock_held := lock_held m;
     encoder_data := encoder_data m;
     streaming_data := streaming_data m;
     save_stream_data := save_stream_data m;
     pose_data := pose_data m;
     grpc_logs := grpc_logs m;
     recorded_samples := recorded_samples m;
     is_streaming := is_streaming m;
     is_recording := is_recording m;
     is_save_streaming := is_save_streaming m;
     connected := connected m;
     recording_active := recording_active m;
     recording_start_time := recording_start_time m;
     gain_values := g;
     max_samples := max_samples m |}.

Definition set_recording (b : bool) (t : option Q) (m : Manager) : Manager :=
  {| lock_held := lock_held m;
     encoder_data := encoder_data m;
     streaming_data := streaming_data m;
     save_stream_data := save_stream_data m;
     pose_data := pose_data m;
     grpc_logs := grpc_logs m;
     recorded_samples := recorded_samples m;
     is_streaming := is_streaming m;
     is_recording := b;
     is_save_streaming := is_save_streaming m;
     connected := connected m;
     recording_active := b;
     recording_start_time := t;
     gain_values := gain_values m;
     max_samples := max_samples m |}.

Definition set_samples (e s v : list Sample) (m : Manager) : Manager :=
  {| lock_held := lock_held m;
     encoder_data := e;
     streaming_data := s;
     save_stream_data := v;
     pose_data := pose_data m;
     grpc_logs := grpc_logs m;
     recorded_samples := recorded_samples m;
     is_streaming := is_streaming m;
     is_recording := is_recording m;
     is_save_streaming := is_save_streaming m;
     connected := connected m;
     recording_active := recording_active m;
     recording_start_time := recording_start_time m;
     gain_values := gain_values m;
     max_samples := max_samples m |}.

Definition clear_containers  (m : Manager) : Manager :=
  {| lock_held := lock_held m;
     encoder_data := [];
     streaming_data := [];
     save_stream_data := [];
     pose_data := [];
     grpc_logs := [];
     recorded_samples := [];
     is_streaming := is_streaming m;
     is_recording := is_recording m;
     is_save_streaming := is_save_streaming m;
     connected := connected m;
     recording_active := recording_active m;
     recording_start_time := recording_start_time m;
     gain_values := gain_values m;
     max_samples := max_samples m |}.

(** How a call ends: it returns [a] and leaves the manager in state [m],
    or it never returns because it waits for [self.lock] while the lock is
    held; [m] is then the state it got stuck in.  (Nothing in the class
    releases the lock on behalf of another caller.) *)
Inductive Run (A : Type) : Type :=
| Done (a : A) (m : Manager)
| Blocked (m : Manager).
Arguments Done {A} a m.
Arguments Blocked {A} m.

(** [with self.lock: body].  The lock is not reentrant: acquiring it while
    it is held waits.  Leaving the block, also by [return], releases it. *)
Definition with_lock {A} (body : Manager -> Run A) (m : Manager) : Run A :=
  if lock_held m then Blocked m
  else
    match body (set_lock_held true m) with
    | Done a m' => Done a (set_lock_held false m')
    | Blocked m' => Blocked m'
    end.

(** [d.append(x)] on a [deque(maxlen=maxlen)]: the oldest entries make
    room. *)
Definition deque_append {A} (maxlen : Z) (x : A) (d : list A) : list A :=
  PyBytes.suffix (d ++ [x]) maxlen.

(** [data_list[-limit:] if limit > 0 else data_list] *)
Definition last_entries {A} (limit : Z) (data_list : list A) : list A :=
  if 0 <? limit then PyBytes.suffix data_list limit else data_list.

Section Methods.
(** [self._format_angles] *)
Variable format_angles : list Q -> string.

(** [add_grpc_entry]; [now] is [time.time()], [clock] the formatted
    [datetime.now()]. *)
Definition add_grpc_entry (now : Q) (clock : string)
    (entry_type message : string) : Manager -> Run unit :=
  with_lock (fun m =>
    let entry := {| l_timestamp := now; l_type := entry_type;
                    l_message := message; l_datetime := clock |} in
    Done () (set_grpc_logs (deque_append 1000 entry (grpc_logs m)) m)).

(** [connect_client] *)
Definition connect_client (now : Q) (clock : string) (command : string)
  : Manager -> Run unit :=
  with_lock (fun m =>
    let m1 := set_connected true m in
    add_grpc_entry now clock "CONNECT" ("클라이언트 연결: " +:+ command) m1).

(** [disconnect_client] *)
Definition disconnect_client (now : Q) (clock : string) : Manager -> Run unit :=
  with_lock (fun m =>
    let m1 := set_connected false m in
    add_grpc_entry now clock "DISCONNECT" "클라이언트 연결 해제" m1).

(** [save_encoder_pose(angles, name)]; [default_name] is the
    [f"Pose_{timestamp}"] computed when [name] is [None]. *)
Definition save_encoder_pose (now : Q) (clock default_name : string)
    (angles : list Q) (name : option string) : Manager -> Run string :=
  let name := default default_name name in
  with_lock (fun m =>
    let pose := {| name := name; p_timestamp := now; p_angles := angles;
                   p_datetime := clock |} in
    Done name (set_pose_data (pose_data m ++ [pose]) m)).

(** [clear_poses] *)
Definition clear_poses : Manager -> Run unit :=
  with_lock (fun m => Done () (set_pose_data [] m)).

(** [update_encoder_data(angles, timestamp)] with a timestamp given. *)
Definition update_encoder_data (angles : list Q) (timestamp : Q)
  : Manager -> Run unit :=
  with_lock (fun m =>
    let sample := {| timestamp := timestamp; angles := angles;
                     formatted := format_angles angles |} in
    Done ()
      (set_samples
         (deque_append (max_samples m) sample (encoder_data m))
         (if is_streaming m
          then deque_append (max_samples m) sample (streaming_data m)
          else streaming_data m)
         (if is_save_streaming m
          then deque_append (max_samples m) sample (save_stream_data m)
          else save_stream_data m) m)).

(** [get_encoder_entries(limit)] *)
Definition get_encoder_entries (limit : Z) : Manager -> Run (list Sample) :=
  with_lock (fun m => Done (last_entries limit (encoder_data m)) m).

(** [start_recording] *)
Definition start_recording (now : Q) : Manager -> Run unit :=
  with_lock (fun m => Done () (set_recording true (Some now) m)).

(** [stop_recording] *)
Definition stop_recording (now : Q) (clock default_name : string)
  : Manager -> Run (option string) :=
  with_lock (fun m =>
    if negb (is_recording m) then Done None m
    else
      let m1 := set_recording false (recording_start_time m) m in
      match last (encoder_data m1) with
      | Some latest_data =>
          match save_encoder_pose now clock default_name
                  (angles latest_data) None m1 with
          | Done pose_name m2 => Done (Some pose_name) m2
          | Blocked m2 => Blocked m2
          end
      | None => Done None m1
      end).

(** [update_gain_values]; [float()] of a value that is no number raises
    inside the block, which releases the lock on the way out. *)
Definition update_gain_values (shoulder_gain joint_gain : PyVal)
  : Manager -> Run (outcome unit) :=
  with_lock (fun m =>
    match py_float shoulder_gain with
    | Raised msg => Done (Raised msg) m
    | Returned s =>
        let m1 := set_gain_values (s, snd (gain_values m)) m in
        match py_float joint_gain with
        | Raised msg => Done (Raised msg) m1
        | Returned j => Done (Returned ()) (set_gain_values (s, j) m1)
        end
    end).

(** [get_current_gain_values] *)
Definition get_current_gain_values : Manager -> Run (Q * Q) :=
  with_lock (fun m => Done (gain_values m) m).

(** [reset_all_data] *)
Definition reset_all_data : Manager -> Run unit :=
  with_lock (fun m => Done () (clear_containers m)).

End Methods.

(** *** The manager behind the background worker *)

(** The worker's calls into the data manager, seen from the worker thread
    while no other thread holds the manager's lock, and reduced to the
    attribute they can change that the gain handler shows:
    [update_gain_values] stores [float()] of both values, [clear_poses]
    and [reset_all_data] leave [gain_values] alone. *)
Definition store_gains (shoulder_gain joint_gain : PyVal)
  : M (Remote * (Q * Q)) unit :=
  fun '(r, g) =>
    match py_float shoulder_gain with
    | Raised msg => ((r, g), Raised msg)
    | Returned s =>
        match py_float joint_gain with
        | Raised msg => ((r, (s, snd g)), Raised msg)
        | Returned j => ((r, (s, j)), Returned ())
        end
    end.





End GrpcDataManager.

(* ===================================================================== *)
(** * Properties *)
(* ===================================================================== *)

Module UsbFrameFacts.
Import PyBytes UsbFrame.

(** *** The loop always terminates within its fuel *)

Lemma parse_loop_total fuel : forall buf,
  (length buf < fuel)%nat -> exists r, parse_loop fuel buf = Some r.
Proof.
  induction fuel as [|fuel IH]; intros buf Hlt; [lia|].
  cbn [parse_loop].
  destruct (find FRAME_HDR buf <? 0) eqn:Hneg; [eauto|].
  destruct (len buf - find FRAME_HDR buf <? FRAME_LEN) eqn:Hshort; [eauto|].
  apply Z.ltb_ge in Hneg, Hshort.
  assert (Hlen : (length (del_prefix buf (find FRAME_HDR buf + FRAME_LEN)) < fuel)%nat).
  { unfold del_prefix, len, FRAME_LEN, FRAME_SIZE, ENC_DATA_SIZE, NUM_JOINTS in *.
    rewrite length_drop. lia. }
  destruct (IH _ Hlen) as [[fs rest] Hr]. rewrite Hr.
  destruct (decode_window _); eauto.
Qed.

Lemma parse_loop_mono fuel : forall buf r fuel',
  parse_loop fuel buf = Some r -> (fuel <= fuel')%nat ->
  parse_loop fuel' buf = Some r.
Proof.
  induction fuel as [|fuel IH]; intros buf r fuel' Hr Hle; [discriminate|].
  destruct fuel' as [|fuel']; [lia|].
  cbn [parse_loop] in *.
  destruct (find FRAME_HDR buf <? 0); [done|].
  destruct (len buf - find FRAME_HDR buf <? FRAME_LEN); [done|].
  destruct (decode_window _).
  - destruct (parse_loop fuel _) as [[fs rest]|] eqn:Hrec; [|discriminate].
    rewrite (IH _ _ fuel' Hrec); [done|lia].
  - apply IH; [done|lia].
Qed.

Lemma parse_frames_total buf : exists r, parse_frames buf = Some r.
Proof. apply parse_loop_total. lia. Qed.

Lemma parse_loop_frames fuel buf :
  (length buf < fuel)%nat -> parse_loop fuel buf = parse_frames buf.
Proof.
  intros Hlt. destruct (parse_frames_total buf) as [r Hr].
  rewrite Hr. eapply parse_loop_mono; [exact Hr|lia].
Qed.

(** The loop equation: one round, then the loop again on what is left. *)
Lemma parse_frames_unfold buf :
  parse_frames buf =
    let i := find FRAME_HDR buf in
    if i <? 0 then Some ([], buf)
    else if len buf - i <? FRAME_LEN then Some ([], buf)
    else match decode_window (window_at buf i) with
         | None => parse_frames (del_prefix buf (i + FRAME_LEN))
         | Some f =>
             match parse_frames (del_prefix buf (i + FRAME_LEN)) with
             | None => None
             | Some (fs, rest) => Some (f :: fs, rest)
             end
         end.
Proof.
  unfold parse_frames at 1. cbn [parse_loop]. cbv zeta.
  destruct (find FRAME_HDR buf <? 0) eqn:Hneg; [done|].
  destruct (len buf - find FRAME_HDR buf <? FRAME_LEN) eqn:Hshort; [done|].
  apply Z.ltb_ge in Hneg, Hshort.
  rewrite parse_loop_frames; [done|].
  unfold del_prefix, len, FRAME_LEN, FRAME_SIZE, ENC_DATA_SIZE, NUM_JOINTS in *.
  rewrite length_drop. lia.
Qed.

(** *** One complete window *)

Ltac explode_list b H :=
  repeat (destruct b as [|? b]; [discriminate H|]);
  destruct b; [clear H|discriminate H].

Lemma find_header_0 b : has_header b -> find FRAME_HDR b = 0.
Proof.
  intros [H0 H1]. destruct b as [|x [|y b]]; simplify_eq/=.
  reflexivity.
Qed.

Lemma crc_calc_mod b : crc_calc b = sum (slice b 2 59) mod 65536.
Proof.
  unfold crc_calc. change 0xFFFF with (Z.ones 16).
  rewrite Z.land_ones by lia. reflexivity.
Qed.

Lemma crc_rx_61 b : length b = 61%nat -> crc_rx b = from_bytes_little (slice b 59 61).
Proof.
  intros Hlen. unfold crc_rx, suffix, slice. rewrite Hlen.
  change (Z.to_nat 59) with 59%nat. change (61 - Z.to_nat 2)%nat with 59%nat.
  rewrite take_ge; [done|]. rewrite length_drop. lia.
Qed.

Lemma crc_test_61 b :
  length b = 61%nat -> (crc_rx b =? crc_calc b) = true <-> checksum_ok b.
Proof.
  intros Hlen. rewrite crc_rx_61, crc_calc_mod by done.
  unfold checksum_ok. rewrite Z.eqb_eq. split; congruence.
Qed.

Lemma unpack_61 b :
  length b = 61%nat ->
  b !! 2%nat = Some (default x00 (b !! 2%nat)) /\
  byte_val (default x00 (b !! 2%nat)) = byte_at b 2 /\
  unpack_14I (slice b 3 (3 + ENC_DATA_SIZE)) =
    Some (left_arm (spec_frame b) ++ right_arm (spec_frame b)).
Proof.
  intros Hlen. explode_list b Hlen.
  split; [reflexivity|]. split; [reflexivity|].
  unfold unpack_14I, spec_frame, le32_at, byte_at, slice, len.
  change (Z.to_nat (3 + ENC_DATA_SIZE - 3)) with 56%nat.
  change (Z.to_nat 3) with 3%nat. cbn.
  f_equal. repeat (f_equal; try lia).
Qed.

Lemma decode_window_ok b :
  length b = 61%nat -> checksum_ok b -> decode_window b = Some (spec_frame b).
Proof.
  intros Hlen Hok. destruct (unpack_61 b Hlen) as (H2 & Hsw & Hun).
  unfold decode_window. rewrite H2, Hun.
  apply (crc_test_61 b Hlen) in Hok. rewrite Hok. cbn [negb].
  rewrite Hsw. reflexivity.
Qed.

Lemma decode_window_bad b :
  length b = 61%nat -> ~ checksum_ok b -> decode_window b = None.
Proof.
  intros Hlen Hbad. destruct (unpack_61 b Hlen) as (H2 & _ & _).
  unfold decode_window. rewrite H2.
  destruct (crc_rx b =? crc_calc b) eqn:E; [|done].
  apply (crc_test_61 b Hlen) in E. contradiction.
Qed.

Lemma parse_frames_nil : parse_frames [] = Some ([], []).
Proof. reflexivity. Qed.

(** *** Every emitted frame carries seven values per arm *)

Lemma decode_window_wf w f : decode_window w = Some f -> frame_wf f.
Proof.
  unfold decode_window, unpack_14I. intros Hd.
  destruct (w !! 2%nat); [|discriminate].
  destruct (negb _); [discriminate|].
  destruct (len _ =? 56); [|discriminate].
  injection Hd as <-. split; reflexivity.
Qed.

Lemma parse_loop_wf fuel : forall buf fs rest,
  parse_loop fuel buf = Some (fs, rest) -> Forall frame_wf fs.
Proof.
  induction fuel as [|fuel IH]; intros buf fs rest Hp; [discriminate|].
  cbn [parse_loop] in Hp.
  destruct (find FRAME_HDR buf <? 0); [injection Hp as <- <-; constructor|].
  destruct (len buf - find FRAME_HDR buf <? FRAME_LEN);
    [injection Hp as <- <-; constructor|].
  destruct (decode_window _) as [f|] eqn:Hd.
  - destruct (parse_loop fuel _) as [[fs' rest']|] eqn:Hrec; [|discriminate].
    injection Hp as <- <-. constructor.
    + apply (decode_window_wf _ _ Hd).
    + apply (IH _ _ _ Hrec).
  - apply (IH _ _ _ Hp).
Qed.

Lemma parse_frames_short buf :
  len buf < FRAME_LEN -> parse_frames buf = Some ([], buf).
Proof.
  intros Hshort. rewrite parse_frames_unfold. cbv zeta.
  destruct (find FRAME_HDR buf <? 0) eqn:Hneg; [done|].
  apply Z.ltb_ge in Hneg.
  destruct (len buf - find FRAME_HDR buf <? FRAME_LEN) eqn:E; [done|].
  apply Z.ltb_ge in E. lia.
Qed.

Lemma del_prefix_app (pre b rest : list byte) :
  length b = 61%nat -> del_prefix (pre ++ b ++ rest) (len pre + FRAME_LEN) = rest.
Proof.
  intros Hlen. unfold del_prefix, len, FRAME_LEN.
  replace (Z.to_nat (Z.of_nat (length pre) + FRAME_SIZE))
    with (length pre + length b)%nat
    by (unfold FRAME_SIZE, ENC_DATA_SIZE, NUM_JOINTS; lia).
  rewrite <- drop_drop, drop_app_length, drop_app_length. reflexivity.
Qed.

(** A buffer whose first header match starts a complete window [b],
    followed by [rest]: one round handles [b], the loop goes on with
    [rest]. *)
Lemma parse_frames_window (pre b rest : list byte) :
  length b = 61%nat ->
  find FRAME_HDR (pre ++ b ++ rest) = len pre ->
  parse_frames (pre ++ b ++ rest) =
    match decode_window b with
    | None => parse_frames rest
    | Some f =>
        match parse_frames rest with
        | None => None
        | Some (fs, rest') => Some (f :: fs, rest')
        end
    end.
Proof.
  intros Hlen Hfind. rewrite parse_frames_unfold. cbv zeta. rewrite Hfind.
  assert (Hpos : (len pre <? 0) = false) by (apply Z.ltb_ge; unfold len; lia).
  rewrite Hpos.
  assert (Hfull : (len (pre ++ b ++ rest) - len pre <? FRAME_LEN) = false).
  { apply Z.ltb_ge. unfold len, FRAME_LEN, FRAME_SIZE, ENC_DATA_SIZE, NUM_JOINTS.
    rewrite !length_app. lia. }
  rewrite Hfull, del_prefix_app by done.
  replace (window_at (pre ++ b ++ rest) (len pre)) with b; [done|].
  unfold window_at, slice, len, FRAME_LEN.
  replace (Z.to_nat (Z.of_nat (length pre) + FRAME_SIZE - Z.of_nat (length pre)))
    with 61%nat by (unfold FRAME_SIZE, ENC_DATA_SIZE, NUM_JOINTS; lia).
  rewrite Nat2Z.id, drop_app_length, take_app_length'; done.
Qed.

Lemma has_header_app (b rest : list byte) : has_header b -> has_header (b ++ rest).
Proof.
  intros [H0 H1]. split; apply lookup_app_l_Some; done.
Qed.

Lemma checksum_ok_dec b : {checksum_ok b} + {~ checksum_ok b}.
Proof. unfold checksum_ok. apply Z.eq_dec. Qed.

(** *** Checksum law, resynchronisation, and what a mismatch consumes *)

(** C2 (checksum law).  A 61-byte sequence [b] that starts with AA BB and
    sits at the first header match of the buffer is accepted exactly when
    [sum(b[2:59]) mod 65536] equals the little-endian 16-bit value of
    [b[59:61]]; the frame then emitted has switch byte [b[2]] and the
    fourteen little-endian words of [b[3:59]]; otherwise nothing is
    emitted. *)
Theorem C2_checksum_law (pre b : list byte) :
  length b = 61%nat ->
  has_header b ->
  find FRAME_HDR (pre ++ b) = len pre ->
  (checksum_ok b <-> parse_frames (pre ++ b) = Some ([spec_frame b], []))
  /\ (~ checksum_ok b <-> parse_frames (pre ++ b) = Some ([], [])).
Proof.
  intros Hlen Hhdr Hfind.
  pose proof (parse_frames_window pre b [] Hlen) as Hw.
  rewrite app_nil_r in Hw. specialize (Hw Hfind).
  rewrite parse_frames_nil in Hw.
  destruct (checksum_ok_dec b) as [Hok|Hbad].
  - rewrite (decode_window_ok b Hlen Hok) in Hw. rewrite Hw.
    split; split; done.
  - rewrite (decode_window_bad b Hlen Hbad) in Hw. rewrite Hw.
    split; split; done.
Qed.

Lemma C2_checksum_law_witness :
  (checksum_ok frame_A <->
     parse_frames ([x00; xaa] ++ frame_A) = Some ([spec_frame frame_A], []))
  /\ (~ checksum_ok frame_A <->
     parse_frames ([x00; xaa] ++ frame_A) = Some ([], [])).
Proof.
  apply (C2_checksum_law [x00; xaa] frame_A).
  - reflexivity.
  - split; reflexivity.
  - vm_compute. reflexivity.
Defined.

(** C3 (resynchronisation).  A complete corrupted frame (header present,
    checksum wrong) immediately followed by a complete valid frame: the
    loop drops the first window and emits the valid frame. *)
Theorem C3_resync_after_corrupted_frame (c v : list byte) :
  corrupted_frame c ->
  valid_frame v ->
  parse_frames (c ++ v) = Some ([spec_frame v], []).
Proof.
  intros (Hclen & Hchdr & Hcbad) (Hvlen & Hvhdr & Hvok).
  pose proof (parse_frames_window [] c v Hclen) as Hw. cbn [app] in Hw.
  rewrite Hw by (apply find_header_0, has_header_app, Hchdr).
  rewrite (decode_window_bad c Hclen Hcbad).
  pose proof (parse_frames_window [] v [] Hvlen) as Hv.
  rewrite app_nil_r in Hv. cbn [app] in Hv.
  rewrite Hv by (apply find_header_0, Hvhdr).
  rewrite (decode_window_ok v Hvlen Hvok), parse_frames_nil. reflexivity.
Qed.

Lemma C3_resync_after_corrupted_frame_witness :
  parse_frames (frame_A_bad ++ frame_A) = Some ([spec_frame frame_A], []).
Proof.
  apply (C3_resync_after_corrupted_frame frame_A_bad frame_A).
  - split; [reflexivity|]. split; [split; reflexivity|].
    unfold checksum_ok. vm_compute. lia.
  - split; [reflexivity|]. split; [split; reflexivity|].
    unfold checksum_ok. vm_compute. reflexivity.
Defined.

(** C1, as the code has it.  When the first header match begins a complete
    61-byte window whose checksum fails, the loop has already deleted the
    buffer up to the END of that window ([del buf[:i+FRAME_LEN]] precedes
    the check), so scanning resumes after the whole window.  For AA BB
    followed by a complete 61-byte frame [v] the window is the leading
    AA BB plus the first 59 bytes of [v]; at most that window is decoded
    and the last two bytes of [v] are all that stays in the buffer. *)
Theorem C1_mismatch_consumes_whole_window :
  (forall buf : list byte,
     0 <= find FRAME_HDR buf ->
     FRAME_LEN <= len buf - find FRAME_HDR buf ->
     ~ checksum_ok (window_at buf (find FRAME_HDR buf)) ->
     parse_frames buf =
       parse_frames (del_prefix buf (find FRAME_HDR buf + FRAME_LEN)))
  /\ (forall v : list byte,
       length v = 61%nat ->
       parse_frames ([xaa; xbb] ++ v) =
         Some (match decode_window ([xaa; xbb] ++ take 59 v) with
               | Some f => [f]
               | None => []
               end, drop 59 v)).
Proof.
  split.
  - intros buf Hpos Hfull Hbad.
    assert (Hwlen : length (window_at buf (find FRAME_HDR buf)) = 61%nat).
    { unfold window_at, slice, len, FRAME_LEN, FRAME_SIZE, ENC_DATA_SIZE,
        NUM_JOINTS in *.
      rewrite length_take, length_drop. lia. }
    rewrite parse_frames_unfold at 1. cbv zeta.
    apply Z.ltb_ge in Hpos, Hfull. rewrite Hpos, Hfull.
    rewrite (decode_window_bad _ Hwlen Hbad). reflexivity.
  - intros v Hlen.
    rewrite <- (take_drop 59 v) at 1.
    change ([xaa; xbb] ++ take 59 v ++ drop 59 v)
      with ([] ++ ([xaa; xbb] ++ take 59 v) ++ drop 59 v).
    rewrite parse_frames_window.
    + rewrite (parse_frames_short (drop 59 v)).
      * destruct (decode_window _); reflexivity.
      * unfold len, FRAME_LEN, FRAME_SIZE, ENC_DATA_SIZE, NUM_JOINTS.
        rewrite length_drop. lia.
    + cbn [app length]. rewrite length_take. lia.
    + reflexivity.
Qed.

Lemma C1_mismatch_consumes_whole_window_witness :
  parse_frames (frame_A_bad ++ frame_A) = parse_frames frame_A
  /\ parse_frames ([xaa; xbb] ++ frame_A) = Some ([], [x01; x00]).
Proof.
  split.
  - apply (proj1 C1_mismatch_consumes_whole_window (frame_A_bad ++ frame_A)).
    + vm_compute. discriminate.
    + vm_compute. discriminate.
    + unfold checksum_ok. vm_compute. lia.
  - apply (proj2 C1_mismatch_consumes_whole_window frame_A). reflexivity.
Defined.

(** Scenario B does not hold of this loop: after a leading AA BB the valid
    frame of scenario A is never emitted. *)
Lemma C1_counterexample :
  valid_frame frame_A
  /\ parse_frames ([xaa; xbb] ++ frame_A) = Some ([], [x01; x00])
  /\ ~ (exists fs rest,
          parse_frames ([xaa; xbb] ++ frame_A) = Some (fs, rest)
          /\ In (spec_frame frame_A) fs).
Proof.
  assert (Hrun : parse_frames ([xaa; xbb] ++ frame_A) = Some ([], [x01; x00]))
    by (vm_compute; reflexivity).
  split; [|split; [exact Hrun|]].
  - split; [reflexivity|]. split; [split; reflexivity|].
    unfold checksum_ok. vm_compute. reflexivity.
  - intros (fs & rest & Hp & Hin). rewrite Hrun in Hp.
    injection Hp as <- <-. destruct Hin.
Qed.

End UsbFrameFacts.

Module UsbUiFacts.
Import Py UsbFrame UsbUi.

Lemma step_press_record fmt st :
  step fmt st press_record = set_recording_active true st.
Proof. reflexivity. Qed.

Lemma step_press_stop fmt st :
  step fmt st press_stop = set_recording_active false st.
Proof. reflexivity. Qed.

Lemma special_key_2_keeps_buffer st :
  recorded_encoders (handle_special_key_functions "2" true st)
  = recorded_encoders st.
Proof.
  unfold handle_special_key_functions.
  destruct (device_active st); reflexivity.
Qed.

Lemma key_2_press_keeps_buffer st :
  recorded_encoders (on_key_press (Some "2") st) = recorded_encoders st.
Proof.
  unfold on_key_press. destruct (device_active st); [|reflexivity].
  cbn [negb char_in existsb String.eqb Ascii.eqb Bool.eqb orb andb].
  destruct (key_on (key_physically_pressed st) "2"); [reflexivity|].
  rewrite special_key_2_keeps_buffer. reflexivity.
Qed.

Lemma key_release_keeps_buffer k st :
  recorded_encoders (on_key_release k st) = recorded_encoders st.
Proof.
  unfold on_key_release. destruct (device_active st); [|reflexivity].
  destruct k as [c|]; [|reflexivity]. cbn [negb].
  destruct (char_in c _); [|reflexivity].
  destruct (_ && _); reflexivity.
Qed.

Lemma fieldnames_header : header_row = spec_header.
Proof. vm_compute. reflexivity. Qed.

Lemma row_of_sample (fmt : Q -> string) (e : Sample) :
  sample_wf e ->
  match build_row fmt e with
  | Some d => dict_to_list d
  | None => None
  end = Some (spec_row fmt e).
Proof.
  destruct e as [ts l r]. intros [Hl Hr]. cbn in Hl, Hr.
  do 7 (destruct l as [|? l]; [discriminate Hl|]).
  destruct l; [clear Hl|discriminate Hl].
  do 7 (destruct r as [|? r]; [discriminate Hr|]).
  destruct r; [clear Hr|discriminate Hr].
  vm_compute. reflexivity.
Qed.

Lemma write_rows_wf (fmt : Q -> string) (es : list Sample) :
  Forall sample_wf es ->
  write_rows fmt es = (map (spec_row fmt) es, true).
Proof.
  induction 1 as [|e es He _ IH]; [reflexivity|].
  cbn [write_rows map].
  pose proof (row_of_sample fmt e He) as Hrow.
  destruct (build_row fmt e) as [d|]; [|discriminate Hrow].
  rewrite Hrow, IH. reflexivity.
Qed.

(** *** The buffer only ever holds samples with seven values per arm *)

Lemma on_frame_keeps_wf ts f st :
  frame_wf f ->
  Forall sample_wf (recorded_encoders st) ->
  Forall sample_wf (recorded_encoders (on_frame ts f st)).
Proof.
  intros [Hl Hr] Hwf. unfold on_frame. cbn.
  destruct (recording_active st); [|done].
  apply Forall_app. split; [done|]. constructor; [|constructor].
  split; done.
Qed.

Lemma special_key_buffer c st :
  recorded_encoders (handle_special_key_functions c true st) = recorded_encoders st
  \/ recorded_encoders (handle_special_key_functions c true st) = [].
Proof.
  unfold handle_special_key_functions.
  destruct (device_active st); cbn [negb]; [|by left].
  destruct (String.eqb c "2"); cbn [andb]; [by left|].
  destruct (String.eqb c "5"); cbn [andb]; [by right|by left].
Qed.

Lemma key_press_buffer k st :
  recorded_encoders (on_key_press k st) = recorded_encoders st
  \/ recorded_encoders (on_key_press k st) = [].
Proof.
  unfold on_key_press. destruct (device_active st); cbn [negb]; [|by left].
  destruct k as [c|]; [|by left].
  destruct (char_in c ["1"; "2"; "3"; "4"; "5"; "6"]); [|by left].
  destruct (key_on (key_physically_pressed st) c); [by left|].
  destruct (char_in c ["1"; "2"; "4"]).
  - destruct (String.eqb c "2"); [|by left].
    apply (special_key_buffer c (set_keyboard _ _ _ st)).
  - destruct (char_in c ["3"; "5"; "6"]); [|by left].
    destruct (String.eqb c "5"); [|by left].
    apply (special_key_buffer c (set_keyboard _ _ _ st)).
Qed.

Lemma buttons_buffer fmt tr pd ct ds ns ok st :
  recorded_encoders (handle_all_buttons fmt tr pd ct ds ns ok st).1.1
    = recorded_encoders st
  \/ recorded_encoders (handle_all_buttons fmt tr pd ct ds ns ok st).1.1 = [].
Proof.
  unfold handle_all_buttons.
  set (st' := match ds with Some a => set_device_active a st | None => st end).
  assert (Hds : recorded_encoders st' = recorded_encoders st)
    by (subst st'; destruct ds; reflexivity).
  destruct tr as [t|]; [|left; exact Hds].
  destruct (String.eqb t "save-btn").
  { destruct (negb (truthy_str pd)); [left; exact Hds|].
    case_bool_decide; left; exact Hds. }
  destruct (String.eqb t "clear-btn"); [by right|].
  destruct (String.eqb t "save-as-btn"); [|left; exact Hds].
  destruct (recorded_encoders st') eqn:Hbuf; [left; cbn; congruence|].
  destruct ok; [|left; cbn; congruence].
  destruct (write_rows _ _). left; cbn; congruence.
Qed.

Lemma step_keeps_wf fmt e st :
  event_wf e ->
  Forall sample_wf (recorded_encoders st) ->
  Forall sample_wf (recorded_encoders (step fmt st e)).
Proof.
  intros He Hwf. destruct e as [ts f|tr pd ct ds ns ok|k|k]; cbn [step].
  - apply on_frame_keeps_wf; done.
  - destruct (buttons_buffer fmt tr pd ct ds ns ok st) as [-> | ->];
      [done|constructor].
  - destruct (key_press_buffer k st) as [-> | ->]; [done|constructor].
  - rewrite key_release_keeps_buffer. done.
Qed.

(** From the initial state, whatever the order of decoded frames, button
    presses and key strokes. *)
Lemma run_keeps_wf fmt evs : forall st,
  Forall event_wf evs ->
  Forall sample_wf (recorded_encoders st) ->
  Forall sample_wf (recorded_encoders (run fmt evs st)).
Proof.
  induction evs as [|e evs IH]; intros st Hevs Hwf; [done|].
  inversion Hevs; subst. cbn. apply IH; [done|].
  apply step_keeps_wf; done.
Qed.

(** C4 (recording gate).  A decoded frame always replaces the latest
    angles and always updates the statistics; it is appended to
    [recorded_encoders] exactly when [recording_active] holds at that
    moment.  Toggling the flag, by the Recording/Stop button or by key 2,
    changes none of the samples already recorded, so frames F1 (recording),
    F2 (stopped), F3 (recording) leave exactly the samples of F1 and F3. *)
Theorem C4_recording_gate (fmt : Q -> string) :
  (forall ts f st,
     latest_enc_L (on_frame ts f st) = left_arm f
     /\ latest_enc_R (on_frame ts f st) = right_arm f
     /\ stats (on_frame ts f st) = update_stats ts (stats st)
     /\ last_ts (stats (on_frame ts f st)) = ts
     /\ recording_active (on_frame ts f st) = recording_active st
     /\ recorded_encoders (on_frame ts f st) =
          recorded_encoders st ++
            (if recording_active st then [sample_of ts f] else []))
  /\ (forall pd ct ds ns ok st,
        recorded_encoders
          (step fmt st (Buttons (Some "save-btn") pd ct ds ns ok))
        = recorded_encoders st)
  /\ (forall st,
        recorded_encoders (step fmt st (KeyPress (Some "2")))
        = recorded_encoders st
        /\ recorded_encoders (step fmt st (KeyRelease (Some "2")))
           = recorded_encoders st)
  /\ (forall st ts1 f1 ts2 f2 ts3 f3,
        recorded_encoders
          (run fmt [press_record; Decoded ts1 f1;
                    press_stop; Decoded ts2 f2;
                    press_record; Decoded ts3 f3] st)
        = recorded_encoders st ++ [sample_of ts1 f1; sample_of ts3 f3])
  /\ (forall ts1 f1 ts2 f2 ts3 f3,
        recorded_encoders
          (run fmt [press_record; Decoded ts1 f1;
                    press_stop; Decoded ts2 f2;
                    press_record; Decoded ts3 f3] initial_state)
        = [sample_of ts1 f1; sample_of ts3 f3])
  /\ (forall ts1 f1 ts2 f2 ts3 f3,
        recorded_encoders
          (run fmt [KeyPress (Some "2"); KeyRelease (Some "2"); Decoded ts1 f1;
                    KeyPress (Some "2"); KeyRelease (Some "2"); Decoded ts2 f2;
                    KeyPress (Some "2"); KeyRelease (Some "2"); Decoded ts3 f3]
             initial_state)
        = [sample_of ts1 f1; sample_of ts3 f3]).
Proof.
  assert (Hscen : forall st ts1 f1 ts2 f2 ts3 f3,
        recorded_encoders
          (run fmt [press_record; Decoded ts1 f1;
                    press_stop; Decoded ts2 f2;
                    press_record; Decoded ts3 f3] st)
        = recorded_encoders st ++ [sample_of ts1 f1; sample_of ts3 f3]).
  { intros. unfold run. cbn [foldl].
    rewrite !step_press_record, step_press_stop.
    cbn [step on_frame set_recording_active recording_active recorded_encoders].
    rewrite <- app_assoc. reflexivity. }
  split; [|split; [|split; [|split; [|split]]]].
  - intros ts f st. unfold on_frame, sample_of. cbn.
    repeat split. destruct (recording_active st); [done|].
    rewrite app_nil_r. reflexivity.
  - intros pd ct ds ns ok st. cbn.
    destruct ds; destruct (truthy_str pd); cbn; try done;
      case_bool_decide; done.
  - intros st. cbn [step]. split.
    + apply key_2_press_keeps_buffer.
    + apply key_release_keeps_buffer.
  - exact Hscen.
  - intros. rewrite Hscen. reflexivity.
  - intros. vm_compute. reflexivity.
Qed.

(** C9 (CSV export).  For a non-empty buffer of N recorded samples the
    Save-As branch writes the header row and then N data rows, the columns
    being timestamp, datetime, right_joint_1..7, left_joint_1..7 with
    right_joint_i = right_arm[i-1] and left_joint_i = left_arm[i-1]; the
    buffer is the same afterwards, also when the file cannot be opened. *)
Theorem C9_csv_export (fmt : Q -> string) (st : State)
    (pd ct : option string) (ds : option bool) (ns : string) :
  recorded_encoders st <> [] ->
  Forall sample_wf (recorded_encoders st) ->
  (handle_all_buttons fmt (Some "save-as-btn") pd ct ds ns true st).2
    = Some ("encoder_data_" +:+ ns +:+ ".csv",
            spec_header :: map (spec_row fmt) (recorded_encoders st))
  /\ length (spec_header :: map (spec_row fmt) (recorded_encoders st))
       = S (length (recorded_encoders st))
  /\ (forall ok,
        recorded_encoders
          (handle_all_buttons fmt (Some "save-as-btn") pd ct ds ns ok st).1.1
        = recorded_encoders st).
Proof.
  intros Hne Hwf. split; [|split].
  - unfold handle_all_buttons.
    change (String.eqb "save-as-btn" "save-btn") with false.
    change (String.eqb "save-as-btn" "clear-btn") with false.
    change (String.eqb "save-as-btn" "save-as-btn") with true.
    cbv iota. destruct ds as [a|]; cbn [recorded_encoders set_device_active];
      destruct (recorded_encoders st) as [|e es] eqn:Hbuf; try done;
      rewrite (write_rows_wf fmt (e :: es) Hwf); cbn [snd];
      rewrite fieldnames_header; reflexivity.
  - cbn. rewrite length_map. reflexivity.
  - intros ok. unfold handle_all_buttons.
    change (String.eqb "save-as-btn" "save-btn") with false.
    change (String.eqb "save-as-btn" "clear-btn") with false.
    change (String.eqb "save-as-btn" "save-as-btn") with true.
    cbv iota. destruct ds as [a|]; cbn [recorded_encoders set_device_active];
      destruct (recorded_encoders st) as [|e es] eqn:Hbuf; try done;
      destruct ok; try done;
      destruct (write_rows fmt (e :: es)); cbn; rewrite ?Hbuf; done.
Qed.

Lemma C9_csv_export_witness :
  (handle_all_buttons (fun _ => "2025-01-01 00:00:00.000")
     (Some "save-as-btn") None None None "20250101_000000" true
     (on_frame 1.5 (spec_frame frame_A)
        (on_frame 1 (spec_frame frame_A)
           (step (fun _ => "") initial_state press_record)))).2
  = Some ("encoder_data_20250101_000000.csv",
          [spec_header;
           [CFloat 1; CStr "2025-01-01 00:00:00.000";
            CInt 0; CInt 0; CInt 0; CInt 0; CInt 0; CInt 0; CInt 0;
            CInt 0; CInt 0; CInt 0; CInt 0; CInt 0; CInt 0; CInt 0];
           [CFloat 1.5; CStr "2025-01-01 00:00:00.000";
            CInt 0; CInt 0; CInt 0; CInt 0; CInt 0; CInt 0; CInt 0;
            CInt 0; CInt 0; CInt 0; CInt 0; CInt 0; CInt 0; CInt 0]]).
Proof.
  refine (proj1 (C9_csv_export _ _ None None None "20250101_000000" _ _)).
  - vm_compute. discriminate.
  - repeat constructor.
Defined.

End UsbUiFacts.

Module StreamHandlerFacts.
Import Py StreamHandler.

Section Facts.
Context {World : Type}.
Implicit Types (h : Handler World) (s : System World)
  (cbs : list (Callback World)) (w : World).

Lemma submitted_app (evs1 evs2 : list Event) :
  submitted (evs1 ++ evs2) = submitted evs1 ++ submitted evs2.
Proof. apply omap_app. Qed.

(** One sample through [_process_sample]: every callback of the copy is
    applied, in registration order, whatever the ones before it did. *)
Lemma run_callbacks_fold cbs : forall sample w,
  run_callbacks cbs sample w = foldl (fun w cb => (cb sample w).1) w cbs.
Proof.
  induction cbs as [|cb cbs IH]; intros sample w; cbn; [done|].
  destruct (cb sample w) as [w1 r]. apply IH.
Qed.

Lemma deliver_in_order_app cbs (l1 l2 : list StreamSample) w :
  deliver_in_order cbs (l1 ++ l2) w
  = deliver_in_order cbs l2 (deliver_in_order cbs l1 w).
Proof. apply foldl_app. Qed.

Lemma deliver_in_order_cons cbs sample (l : list StreamSample) w :
  deliver_in_order cbs (sample :: l) w
  = deliver_in_order cbs l (run_callbacks cbs sample w).
Proof. unfold deliver_in_order. cbn [foldl]. by rewrite run_callbacks_fold. Qed.

Lemma deliver_in_order_snoc cbs sample (l : list StreamSample) w :
  deliver_in_order cbs (l ++ [sample]) w
  = run_callbacks cbs sample (deliver_in_order cbs l w).
Proof. rewrite deliver_in_order_app, deliver_in_order_cons. done. Qed.

Lemma callbacks_registered cbs h :
  callbacks (foldl (fun h cb => add_callback cb h) h cbs) = callbacks h ++ cbs.
Proof.
  revert h. induction cbs as [|cb cbs IH]; intros h; cbn.
  - by rewrite app_nil_r.
  - rewrite IH. cbn. by rewrite <- app_assoc.
Qed.

Lemma queue_registered cbs h :
  data_queue (foldl (fun h cb => add_callback cb h) h cbs) = data_queue h
  /\ is_running (foldl (fun h cb => add_callback cb h) h cbs) = is_running h.
Proof.
  revert h. induction cbs as [|cb cbs IH]; intros h; cbn; [done|].
  destruct (IH (add_callback cb h)) as [-> ->]. done.
Qed.

(** A handler that was started and has seen nothing else yet is at work. *)
Lemma at_work_started m cbs t0 w : at_work cbs (started m cbs t0 w).
Proof.
  pose proof (callbacks_registered cbs (new_handler m)) as Hc.
  destruct (queue_registered cbs (new_handler m)) as [Hq Hr].
  cbn in Hc, Hq, Hr.
  unfold at_work, started, start, queued; cbn [handler worker_alive].
  rewrite Hr. cbn. rewrite Hq. done.
Qed.

(** What holds after any interleaving of submissions and worker rounds
    that begins in [s0], a handler at work. *)
Record order_inv cbs (s0 : System World) (evs : list Event) s : Prop := {
  inv_at_work : at_work cbs s;
  inv_order :
    Forall (fun r => r = true) (returns s) ->
    exists delivered,
      queued (handler s0) ++ submitted evs = delivered ++ queued (handler s)
      /\ world s = deliver_in_order cbs delivered (world s0)
}.

Lemma order_inv_init cbs s0 : at_work cbs s0 -> order_inv cbs s0 [] s0.
Proof.
  intros Hw. split; [done|]. intros _. exists []. by rewrite app_nil_r.
Qed.

Ltac proj_simpl :=
  cbn [handler locals world worker_alive returns
       callbacks is_running data_queue max_queue_size stats fst snd].

Lemma order_inv_step cbs s0 evs s e :
  order_inv cbs s0 evs s -> order_inv cbs s0 (evs ++ [e]) (sys_step s e).
Proof.
  intros [(Hc & Hr & Ha & Hq) Ho]. destruct e as [a sq sid c sd now|t].
  - (* a submission *)
    cbn [sys_step]. unfold add_sample. rewrite Hr. cbn [negb].
    destruct (queue_full (handler s)) eqn:Hfull.
    + split; [repeat split; proj_simpl; done|]. proj_simpl.
      intros Hall. apply Forall_app in Hall as [_ Hlast].
      inversion Hlast; discriminate.
    + split.
      * repeat split; proj_simpl; try done.
        unfold queued. proj_simpl. rewrite omap_app, fmap_app.
        unfold queued in Hq. rewrite <- Hq. done.
      * proj_simpl. intros Hall. apply Forall_app in Hall as [Hall _].
        destruct (Ho Hall) as (delivered & Hsplit & Hworld).
        exists delivered. split; [|done].
        unfold queued. proj_simpl. rewrite omap_app, submitted_app.
        cbn [submitted omap id app]. rewrite !app_assoc. f_equal. exact Hsplit.
  - (* a worker round *)
    cbn [sys_step]. rewrite Ha. unfold worker_iter. rewrite Hr. cbn [negb].
    destruct (data_queue (handler s)) as [|[sample|] q] eqn:Hdq.
    + split; [repeat split; proj_simpl; try done; congruence|].
      proj_simpl. intros Hall. destruct (Ho Hall) as (delivered & Hsplit & Hworld).
      exists delivered. rewrite submitted_app, app_nil_r. done.
    + assert (Hqd : queued (handler s) = sample :: omap id q)
        by (unfold queued; rewrite Hdq; done).
      rewrite Hqd in Hq. rewrite fmap_cons in Hq. injection Hq as Hq.
      split; [repeat split; proj_simpl; done|].
      proj_simpl. intros Hall. destruct (Ho Hall) as (delivered & Hsplit & Hworld).
      exists (delivered ++ [sample]). split.
      * rewrite submitted_app, app_nil_r, Hsplit, Hqd, <- app_assoc. done.
      * unfold process_sample. rewrite Hc, Hworld, deliver_in_order_snoc. done.
    + unfold queued in Hq. rewrite Hdq in Hq. cbn in Hq.
      destruct (omap id q); discriminate.
Qed.

Lemma order_inv_run cbs s0 evs0 s evs :
  order_inv cbs s0 evs0 s -> order_inv cbs s0 (evs0 ++ evs) (sys_run evs s).
Proof.
  revert evs0 s. induction evs as [|e evs IH]; intros evs0 s Hinv.
  - rewrite app_nil_r. done.
  - cbn. replace (evs0 ++ e :: evs) with ((evs0 ++ [e]) ++ evs)
      by (rewrite <- app_assoc; done).
    apply IH, order_inv_step, Hinv.
Qed.

(** Worker rounds alone drain the queue, one sample per round, and
    refuse nothing. *)
Lemma drain cbs s0 t : forall n evs s,
  order_inv cbs s0 evs s ->
  length (data_queue (handler s)) = n ->
  data_queue (handler (sys_run (replicate n (WorkerRound t)) s)) = []
  /\ returns (sys_run (replicate n (WorkerRound t)) s) = returns s.
Proof.
  induction n as [|n IH]; intros evs s Hinv Hlen.
  - cbn. split; [|done]. by apply nil_length_inv.
  - cbn [replicate sys_run foldl].
    pose proof (order_inv_step cbs s0 evs s (WorkerRound t) Hinv) as Hinv'.
    destruct Hinv as [(Hc & Hr & Ha & Hq) Ho].
    assert (Hstep : length (data_queue (handler (sys_step s (WorkerRound t)))) = n
                    /\ returns (sys_step s (WorkerRound t)) = returns s).
    { cbn [sys_step]. rewrite Ha. unfold worker_iter. rewrite Hr. cbn [negb].
      destruct (data_queue (handler s)) as [|[sample|] q] eqn:Hdq.
      - discriminate.
      - cbn in *. split; [lia|done].
      - unfold queued in Hq. rewrite Hdq in Hq. cbn in Hq.
        destruct (omap id q); discriminate. }
    destruct Hstep as [Hlen' Hret].
    destruct (IH _ _ Hinv' Hlen') as [Hd Hrs].
    split; [exact Hd|]. unfold sys_run in Hrs. rewrite Hrs. exact Hret.
Qed.

Lemma submitted_rounds n t : submitted (replicate n (WorkerRound t)) = [].
Proof. induction n; [done|]. cbn. done. Qed.

(** *** A worker that meets the sentinel, and a handler without a worker *)

Lemma sys_run_cons (e : Event) (evs : list Event) s :
  sys_run (e :: evs) s = sys_run evs (sys_step s e).
Proof. reflexivity. Qed.

(** A running handler whose queue holds the samples [q] and then the
    sentinel: the worker delivers [q] in order, takes the sentinel and
    leaves, and [is_running] stays set. *)
Lemma drain_to_sentinel cbs t : forall (q : list StreamSample) s,
  callbacks (handler s) = cbs ->
  is_running (handler s) = true ->
  worker_alive s = true ->
  data_queue (handler s) = (Some <$> q) ++ [None] ->
  worker_alive (sys_run (replicate (S (length q)) (WorkerRound t)) s) = false
  /\ is_running (handler (sys_run (replicate (S (length q)) (WorkerRound t)) s))
     = true
  /\ data_queue (handler (sys_run (replicate (S (length q)) (WorkerRound t)) s))
     = []
  /\ world (sys_run (replicate (S (length q)) (WorkerRound t)) s)
     = deliver_in_order cbs q (world s).
Proof.
  induction q as [|sample q IH]; intros s Hc Hr Ha Hq.
  - cbn [length replicate sys_run foldl sys_step]. rewrite Ha.
    unfold worker_iter. rewrite Hr, Hq. cbn. done.
  - cbn [length].
    change (replicate (S (S (length q))) (WorkerRound t))
      with (WorkerRound t :: replicate (S (length q)) (WorkerRound t)).
    rewrite !sys_run_cons.
    set (s1 := sys_step s (WorkerRound t)).
    assert (H1 : callbacks (handler s1) = cbs
                 /\ is_running (handler s1) = true
                 /\ worker_alive s1 = true
                 /\ data_queue (handler s1) = (Some <$> q) ++ [None]
                 /\ world s1 = run_callbacks cbs sample (world s)).
    { subst s1. cbn [sys_step]. rewrite Ha. unfold worker_iter.
      rewrite Hr, Hq. cbn. unfold process_sample. rewrite Hc. done. }
    destruct H1 as (Hc1 & Hr1 & Ha1 & Hq1 & Hw1).
    destruct (IH s1 Hc1 Hr1 Ha1 Hq1) as (Hdead & Hrun & Hempty & Hworld).
    split; [exact Hdead|]. split; [exact Hrun|]. split; [exact Hempty|].
    rewrite Hworld, Hw1, deliver_in_order_cons. done.
Qed.

(** Without a worker thread no callback is called any more, whatever is
    submitted and however long one waits; [is_running] is not touched. *)
Lemma no_worker_no_delivery (evs : list Event) : forall s,
  worker_alive s = false ->
  world (sys_run evs s) = world s
  /\ worker_alive (sys_run evs s) = false
  /\ is_running (handler (sys_run evs s)) = is_running (handler s).
Proof.
  induction evs as [|e evs IH]; intros s Hdead; [done|].
  cbn [sys_run foldl].
  assert (Hstep : world (sys_step s e) = world s
                  /\ worker_alive (sys_step s e) = false
                  /\ is_running (handler (sys_step s e)) = is_running (handler s)).
  { destruct e as [a sq sid c sd now|t]; cbn [sys_step].
    - unfold add_sample. destruct (negb _); [done|].
      destruct (queue_full _); done.
    - rewrite Hdead. done. }
  destruct Hstep as (Hw & Hd & Hr).
  destruct (IH _ Hd) as (Hw' & Hd' & Hr'). unfold sys_run in *.
  rewrite Hw', Hr'. done.
Qed.

(** The state [stop()] and a later [start()] leave behind when the worker
    was busy: running, a new worker, and the old queue with the sentinel
    at its end. *)
Lemma restart_keeps_sentinel cbs s t t1 :
  at_work cbs s ->
  queue_full (handler s) = false ->
  callbacks (handler (sys_start t1 (sys_step (sys_stop s) (WorkerRound t)))) = cbs
  /\ is_running (handler (sys_start t1 (sys_step (sys_stop s) (WorkerRound t))))
     = true
  /\ worker_alive (sys_start t1 (sys_step (sys_stop s) (WorkerRound t))) = true
  /\ data_queue (handler (sys_start t1 (sys_step (sys_stop s) (WorkerRound t))))
     = (Some <$> queued (handler s)) ++ [None]
  /\ world (sys_start t1 (sys_step (sys_stop s) (WorkerRound t))) = world s.
Proof.
  intros (Hc & Hr & Ha & Hq) Hfull.
  unfold sys_stop, stop. rewrite Hr, Hfull. cbn [negb sys_step]. proj_simpl.
  rewrite Ha. unfold worker_iter. proj_simpl. cbn [negb].
  unfold sys_start, start. proj_simpl. cbn. rewrite <- Hq. done.
Qed.

(** C5, as the code has it.  While the handler is running and its bounded
    queue is full, [add_sample] returns [False] at once, leaves the queue
    and every other field as they were, and adds one to
    [dropped_samples]. *)
Theorem C5_full_queue_drops_newest h angles sequence session_id
    capture_time_ns send_time_ns now :
  is_running h = true ->
  0 < max_queue_size h ->
  max_queue_size h <= Z.of_nat (length (data_queue h)) ->
  let r := add_sample angles sequence session_id capture_time_ns
             send_time_ns now h in
  r.1 = false
  /\ data_queue r.2 = data_queue h
  /\ dropped_samples (stats r.2) = dropped_samples (stats h) + 1
  /\ total_samples (stats r.2) = total_samples (stats h)
  /\ processed_samples (stats r.2) = processed_samples (stats h)
  /\ last_fps (stats r.2) = last_fps (stats h)
  /\ start_time (stats r.2) = start_time (stats h)
  /\ callbacks r.2 = callbacks h
  /\ is_running r.2 = is_running h
  /\ max_queue_size r.2 = max_queue_size h.
Proof.
  intros Hrun Hpos Hfull. unfold add_sample. rewrite Hrun. cbn [negb].
  assert (Hq : queue_full h = true).
  { unfold queue_full. apply andb_true_intro.
    split; [apply Z.ltb_lt|apply Z.leb_le]; done. }
  rewrite Hq. cbn. repeat split.
Qed.

(** C6.  The callbacks are arbitrary functions on a world of their own
    and any of them may raise on any sample.

    (1) Where the claim holds.  From every state in which the handler is
    at work (running, worker alive, no sentinel queued), after any
    interleaving of submissions and worker rounds in which no [add_sample]
    on record was refused: the world is what handing a first part of the
    accepted samples, one by one in submission order, to every callback in
    registration order makes of it, and the other part is still queued, in
    order; once the worker has made one round per queued sample, every
    accepted sample has been handed to every callback, in submission
    order, none twice and none left out.

    (2) Where it fails.  [stop()] called while the worker is busy leaves
    the sentinel in the queue, because the worker leaves through the
    [while self.is_running] test without reading it.  After [start()] the
    new worker hands on what was queued, reads the stale sentinel and
    ends.  From then on the handler reports running and [add_sample]
    returns [True], but no callback is ever called again. *)
Theorem C6_order_kept_until_stale_sentinel :
  (forall cbs (s0 : System World) (evs : list Event),
     at_work cbs s0 ->
     Forall (fun r => r = true) (returns (sys_run evs s0)) ->
     (exists delivered,
        queued (handler s0) ++ submitted evs
        = delivered ++ queued (handler (sys_run evs s0))
        /\ world (sys_run evs s0) = deliver_in_order cbs delivered (world s0))
     /\ forall t,
          world (sys_run
                   (evs ++ replicate
                             (length (data_queue (handler (sys_run evs s0))))
                             (WorkerRound t))
                   s0)
          = deliver_in_order cbs (queued (handler s0) ++ submitted evs) (world s0))
  /\ (forall cbs (s : System World) (t t1 t2 : Q),
        at_work cbs s ->
        queue_full (handler s) = false ->
        let dead :=
          sys_run (replicate (S (length (data_queue (handler s)))) (WorkerRound t2))
            (sys_start t1 (sys_step (sys_stop s) (WorkerRound t))) in
        world dead = deliver_in_order cbs (queued (handler s)) (world s)
        /\ is_running (handler dead) = true
        /\ (forall angles sequence session_id capture_time_ns send_time_ns now,
              (add_sample angles sequence session_id capture_time_ns
                 send_time_ns now (handler dead)).1 = true)
        /\ forall evs : list Event,
             world (sys_run evs dead) = world dead
             /\ is_running (handler (sys_run evs dead)) = true).
Proof.
  split.
  - intros cbs s0 evs Hwork Hall.
    pose proof (order_inv_run cbs s0 [] s0 evs (order_inv_init cbs s0 Hwork))
      as Hinv.
    cbn [app] in Hinv. split.
    + apply (inv_order _ _ _ _ Hinv); done.
    + intros t. unfold sys_run at 1. rewrite foldl_app.
      fold (sys_run evs s0).
      set (s1 := sys_run evs s0) in *.
      set (n := length (data_queue (handler s1))).
      fold (sys_run (replicate n (WorkerRound t)) s1).
      destruct (drain cbs s0 t n evs s1 Hinv eq_refl) as [Hempty Hret].
      pose proof (order_inv_run cbs s0 evs s1 (replicate n (WorkerRound t)) Hinv)
        as Hinv2.
      pose proof (inv_order _ _ _ _ Hinv2) as Ho. rewrite Hret in Ho.
      destruct (Ho Hall) as (delivered & Hsplit & Hworld).
      unfold queued at 2 in Hsplit. rewrite Hempty in Hsplit.
      cbn [omap] in Hsplit.
      rewrite app_nil_r, submitted_app, submitted_rounds, app_nil_r in Hsplit.
      rewrite Hworld, Hsplit. done.
  - intros cbs s t t1 t2 Hwork Hfull dead.
    destruct (restart_keeps_sentinel cbs s t t1 Hwork Hfull)
      as (Hc & Hr & Ha & Hq & Hw).
    assert (Hlen : length (data_queue (handler s)) = length (queued (handler s))).
    { destruct Hwork as (_ & _ & _ & Hsame). rewrite Hsame at 1.
      by rewrite length_fmap. }
    destruct (drain_to_sentinel cbs t2 (queued (handler s)) _ Hc Hr Ha Hq)
      as (Hdead & Hrun & Hempty & Hworld).
    rewrite <- Hlen in Hdead, Hrun, Hempty, Hworld. fold dead in Hdead, Hrun, Hempty, Hworld.
    split; [by rewrite Hworld, Hw|]. split; [exact Hrun|]. split.
    + intros a sq sid c sd now. unfold add_sample, queue_full.
      rewrite Hrun, Hempty. cbn [negb length].
      destruct (0 <? max_queue_size (handler dead)) eqn:Hpos; [|done].
      apply Z.ltb_lt in Hpos.
      destruct (max_queue_size (handler dead) <=? Z.of_nat 0) eqn:Hle; [|done].
      apply Z.leb_le in Hle. lia.
    + intros evs. destruct (no_worker_no_delivery evs dead Hdead) as (Hw' & _ & Hr').
      split; [exact Hw'|]. by rewrite Hr'.
Qed.

End Facts.

Lemma C5_full_queue_drops_newest_witness :
  let r := add_sample [0.5%Q] 8 "s" 0 0 2%Q full_running in
  r.1 = false
  /\ data_queue r.2 = data_queue full_running
  /\ dropped_samples (stats r.2) = dropped_samples (stats full_running) + 1
  /\ total_samples (stats r.2) = total_samples (stats full_running)
  /\ processed_samples (stats r.2) = processed_samples (stats full_running)
  /\ last_fps (stats r.2) = last_fps (stats full_running)
  /\ start_time (stats r.2) = start_time (stats full_running)
  /\ callbacks r.2 = callbacks full_running
  /\ is_running r.2 = is_running full_running
  /\ max_queue_size r.2 = max_queue_size full_running.
Proof.
  apply (C5_full_queue_drops_newest full_running [0.5%Q] 8 "s" 0 0 2%Q).
  - vm_compute. reflexivity.
  - vm_compute. reflexivity.
  - vm_compute. discriminate.
Defined.

(** A full queue alone does not make [add_sample] count a drop: the default
    handler, stopped while its queue holds 1000 samples, refuses a further
    sample and leaves [dropped_samples] as it was. *)
Lemma C5_counterexample :
  max_queue_size full_stopped = 1000
  /\ length (data_queue full_stopped) = 1000%nat
  /\ add_sample [0.5%Q] 8 "s" 0 0 2%Q full_stopped = (false, full_stopped)
  /\ dropped_samples
       (stats (add_sample [0.5%Q] 8 "s" 0 0 2%Q full_stopped).2)
     <> dropped_samples (stats full_stopped) + 1.
Proof.
  split; [vm_compute; reflexivity|].
  split; [vm_compute; reflexivity|].
  split; [vm_compute; reflexivity|].
  vm_compute. discriminate.
Qed.

(** What the two recording callbacks have written after the example
    run has been drained: every sample, in submission order, at both
    callbacks, although the first one raises each time. *)
Example recorded_in_submission_order :
  world (sys_run (demo_events ++ [WorkerRound 6%Q])
           (started 1000 [cb_raising; cb_recording] 0%Q []))
  = [(0%nat, 1); (1%nat, 1); (0%nat, 2); (1%nat, 2); (0%nat, 3); (1%nat, 3)].
Proof. vm_compute. reflexivity. Qed.

(** After a stop while busy and a restart, sample 2 is still handed on;
    sample 3, which [add_sample] accepts into a queue of one, never
    reaches a callback. *)
Example lost_after_restart :
  let s := sys_run [WorkerRound 6%Q; WorkerRound 7%Q;
                    Submit [0.3%Q] 3 "s" 0 0 8%Q;
                    WorkerRound 9%Q; WorkerRound 10%Q; WorkerRound 11%Q]
             stopped_busy_and_restarted in
  is_running (handler s) = true
  /\ returns s = [true; true; true]
  /\ length (data_queue (handler s)) = 1%nat
  /\ world s = [(0%nat, 1); (1%nat, 1); (0%nat, 2); (1%nat, 2)].
Proof. vm_compute. repeat split. Qed.

Lemma C6_order_kept_until_stale_sentinel_witness :
  ((exists delivered,
      queued (handler (started 1000 [cb_raising; cb_recording] 0%Q []))
        ++ submitted demo_events
      = delivered
          ++ queued (handler (sys_run demo_events
                                (started 1000 [cb_raising; cb_recording] 0%Q [])))
      /\ world (sys_run demo_events
                  (started 1000 [cb_raising; cb_recording] 0%Q []))
         = deliver_in_order [cb_raising; cb_recording] delivered [])
   /\ forall t,
        world (sys_run
                 (demo_events ++ replicate
                    (length (data_queue
                       (handler (sys_run demo_events
                          (started 1000 [cb_raising; cb_recording] 0%Q [])))))
                    (WorkerRound t))
                 (started 1000 [cb_raising; cb_recording] 0%Q []))
        = deliver_in_order [cb_raising; cb_recording]
            (queued (handler (started 1000 [cb_raising; cb_recording] 0%Q []))
               ++ submitted demo_events) [])
  /\ (let s := sys_run [Submit [0.1%Q] 1 "s" 0 0 1%Q; WorkerRound 2%Q;
                        Submit [0.2%Q] 2 "s" 0 0 3%Q]
                 (started 1000 [cb_raising; cb_recording] 0%Q []) in
      let dead :=
        sys_run (replicate (S (length (data_queue (handler s)))) (WorkerRound 6%Q))
          (sys_start 5%Q (sys_step (sys_stop s) (WorkerRound 4%Q))) in
      world dead = deliver_in_order [cb_raising; cb_recording]
                     (queued (handler s)) (world s)
      /\ is_running (handler dead) = true
      /\ (forall angles sequence session_id capture_time_ns send_time_ns now,
            (add_sample angles sequence session_id capture_time_ns
               send_time_ns now (handler dead)).1 = true)
      /\ forall evs : list Event,
           world (sys_run evs dead) = world dead
           /\ is_running (handler (sys_run evs dead)) = true).
Proof.
  split.
  - apply (proj1 C6_order_kept_until_stale_sentinel
             [cb_raising; cb_recording]
             (started 1000 [cb_raising; cb_recording] 0%Q []) demo_events).
    + apply at_work_started.
    + vm_compute. repeat constructor.
  - apply (proj2 C6_order_kept_until_stale_sentinel
             [cb_raising; cb_recording]
             (sys_run [Submit [0.1%Q] 1 "s" 0 0 1%Q; WorkerRound 2%Q;
                       Submit [0.2%Q] 2 "s" 0 0 3%Q]
                (started 1000 [cb_raising; cb_recording] 0%Q []))
             4%Q 5%Q 6%Q).
    + repeat split.
    + reflexivity.
Defined.

End StreamHandlerFacts.

Module WifiFacts.
Import Py Wifi.

Section WorkerFacts.
Context {W : Type} `{!RpcClient W, !DataManager W}.

Lemma execute_task_id avail wk task now (w : W) :
  r_task_id (execute_task avail wk task now w).2 = task_id task.
Proof.
  unfold execute_task. destruct avail; cbn [negb]; [|done].
  destruct (connection_data wk) as [ip port].
  destruct (execute_body ip port task w) as [w' [r|msg]]; done.
Qed.

(** The [try] block is: the dispatched sender, then the data-manager
    follow-up, then [return]. *)
Lemma execute_body_dispatch ip port task call (w : W) :
  dispatches ip port task call ->
  execute_body ip port task w =
    (result ← call; _ ← follow_up task; mret result) w.
Proof.
  intros Hd. unfold execute_body, follow_up.
  destruct Hd as [s j Hty Hs Hj|Hty|Hty|Hty|Hty|Hty|Hty]; rewrite Hty;
    unfold mbind, M_bind, mret, M_ret, param; rewrite ?Hs, ?Hj;
    repeat match goal with
           | |- context [match ?c w with _ => _ end] => destruct (c w) as [? [?|?]]
           | |- context [match ?c ?w' with _ => _ end] =>
               destruct (c w') as [? [[]|?]]
           | |- context [if ?b then _ else _] => destruct b
           end; try reflexivity.
Qed.

Lemma execute_task_raised wk task now call (w w1 : W) msg :
  dispatches (connection_data wk).1 (connection_data wk).2 task call ->
  call w = (w1, Raised msg) ->
  execute_task true wk task now w =
    (w1, {| r_task_id := task_id task; success := false; result := VNone;
            error := msg; r_timestamp := now |}).
Proof.
  intros Hd Hcall. unfold execute_task. cbn [negb].
  destruct (connection_data wk) as [ip port]. cbn [fst snd] in Hd.
  rewrite (execute_body_dispatch ip port task call w Hd).
  unfold mbind, M_bind. rewrite Hcall. reflexivity.
Qed.

Lemma execute_task_returned wk task now call (w w1 w2 : W) x :
  dispatches (connection_data wk).1 (connection_data wk).2 task call ->
  call w = (w1, Returned x) ->
  follow_up task w1 = (w2, Returned ()) ->
  execute_task true wk task now w =
    (w2, {| r_task_id := task_id task; success := true; result := x;
            error := ""; r_timestamp := now |}).
Proof.
  intros Hd Hcall Hfollow. unfold execute_task. cbn [negb].
  destruct (connection_data wk) as [ip port]. cbn [fst snd] in Hd.
  rewrite (execute_body_dispatch ip port task call w Hd).
  unfold mbind, M_bind, mret, M_ret. rewrite Hcall, Hfollow. reflexivity.
Qed.

(** C7 (one result per task).  A round of the worker loop that finds a task
    puts exactly one [TaskResult] with that task's id on the result queue and
    goes on; if the sender the task is dispatched to raises, the result has
    [success = False] and the exception's text as [error]; if the sender and
    the follow-up return, it has [success = True] and the sender's value. *)
Theorem C7_one_result_per_task avail now wk task q (w : W) :
  running wk = true ->
  task_queue wk = task :: q ->
  exists r w',
    worker_round avail now wk w =
      (true,
       {| task_queue := q; result_queue := result_queue wk ++ [r];
          running := true; connection_data := connection_data wk |}, w')
    /\ r_task_id r = task_id task
    /\ (avail = true ->
        forall call,
          dispatches (connection_data wk).1 (connection_data wk).2 task call ->
          (forall w1 msg,
             call w = (w1, Raised msg) ->
             success r = false /\ error r = msg /\ w' = w1)
          /\ (forall w1 w2 x,
                call w = (w1, Returned x) ->
                follow_up task w1 = (w2, Returned ()) ->
                success r = true /\ result r = x /\ error r = "" /\ w' = w2)).
Proof.
  intros Hrun Hq.
  exists (execute_task avail wk task now w).2, (execute_task avail wk task now w).1.
  split; [|split].
  - unfold worker_round. rewrite Hrun, Hq. cbn [negb].
    destruct (execute_task avail wk task now w) as [w' r]. reflexivity.
  - apply execute_task_id.
  - intros -> call Hd. split.
    + intros w1 msg Hcall.
      rewrite (execute_task_raised wk task now call w w1 msg Hd Hcall). done.
    + intros w1 w2 x Hcall Hfollow.
      rewrite (execute_task_returned wk task now call w w1 w2 x Hd Hcall Hfollow).
      done.
Qed.

End WorkerFacts.

Lemma C7_one_result_per_task_witness :
  exists r w',
    @worker_round unit (raising_client "Deadline Exceeded") dummy_data_manager
      true 2 (submit_task SEND_HOMING ∅ 1 1 (start new_worker)).2 () =
      (true,
       {| task_queue := [];
          result_queue := [] ++ [r];
          running := true;
          connection_data := (DEFAULT_RASPBERRY_IP, DEFAULT_RASPBERRY_PORT) |}, w')
    /\ r_task_id r = "send_homing_1000"
    /\ (true = true ->
        forall call,
          @dispatches unit (raising_client "Deadline Exceeded")
            DEFAULT_RASPBERRY_IP DEFAULT_RASPBERRY_PORT
            {| task_id := "send_homing_1000"; task_type := SEND_HOMING;
               params := ∅; timestamp := 1 |} call ->
          (forall w1 msg,
             call () = (w1, Raised msg) ->
             success r = false /\ error r = msg /\ w' = w1)
          /\ (forall w1 w2 x,
                call () = (w1, Returned x) ->
                @follow_up unit dummy_data_manager
                  {| task_id := "send_homing_1000"; task_type := SEND_HOMING;
                     params := ∅; timestamp := 1 |} w1 = (w2, Returned ()) ->
                success r = true /\ result r = x /\ error r = "" /\ w' = w2)).
Proof.
  apply (@C7_one_result_per_task unit (raising_client "Deadline Exceeded")
           dummy_data_manager true 2
           (submit_task SEND_HOMING ∅ 1 1 (start new_worker)).2
           {| task_id := "send_homing_1000"; task_type := SEND_HOMING;
              params := ∅; timestamp := 1 |} [] ()).
  - reflexivity.
  - vm_compute. reflexivity.
Defined.

(** With a sender that raises, the round ends in a failed result carrying
    the message; with the senders of a client that has no channel, which
    return their failure text, it ends in a successful result carrying that
    text. *)
Example worker_round_raising :
  (@worker_round unit (raising_client "Deadline Exceeded") dummy_data_manager
     true 2 (submit_task SEND_HOMING ∅ 1 1 (start new_worker)).2 ()).1.2
  = {| task_queue := [];
       result_queue := [ {| r_task_id := "send_homing_1000"; success := false;
                            result := VNone; error := "Deadline Exceeded";
                            r_timestamp := 2 |} ];
       running := true;
       connection_data := (DEFAULT_RASPBERRY_IP, DEFAULT_RASPBERRY_PORT) |}.
Proof. vm_compute. reflexivity. Qed.

Example worker_round_offline :
  (@worker_round unit offline_client dummy_data_manager
     true 2 (submit_task SEND_HOMING ∅ 1 1 (start new_worker)).2 ()).1.2
  = {| task_queue := [];
       result_queue :=
         [ {| r_task_id := "send_homing_1000"; success := true;
              result := VStr "연결 실패: gRPC 모듈이 로드되지 않음";
              error := ""; r_timestamp := 2 |} ];
       running := true;
       connection_data := (DEFAULT_RASPBERRY_IP, DEFAULT_RASPBERRY_PORT) |}.
Proof. vm_compute. reflexivity. Qed.

(** C10 (task ids can collide).  The id returned by [submit_task] is the
    type's value, an underscore and the clock reading in whole milliseconds;
    two submissions of one type within the same millisecond get the same id,
    both tasks sit in the queue under it, and so do their results. *)
Theorem C10_task_id_collision (ty : TaskType) (p1 p2 : gmap string PyVal)
    (now1 now2 ts1 ts2 : Q) (wk : BackgroundWorker) :
  py_int (now1 * 1000)%Q = py_int (now2 * 1000)%Q ->
  let s1 := submit_task ty p1 now1 ts1 wk in
  let s2 := submit_task ty p2 now2 ts2 s1.2 in
  s1.1 = value ty +:+ "_" +:+ pretty (py_int (now1 * 1000)%Q)
  /\ s2.1 = s1.1
  /\ task_queue s2.2 =
       task_queue wk ++
         [ {| task_id := s1.1; task_type := ty; params := p1; timestamp := ts1 |};
           {| task_id := s1.1; task_type := ty; params := p2; timestamp := ts2 |} ]
  /\ forall (W : Type) (c : RpcClient W) (d : DataManager W)
            avail wk' t1 t2 (w1 w2 : W),
       r_task_id
         (execute_task avail wk'
            {| task_id := s1.1; task_type := ty; params := p1; timestamp := ts1 |}
            t1 w1).2
       = r_task_id
           (execute_task avail wk'
              {| task_id := s2.1; task_type := ty; params := p2; timestamp := ts2 |}
              t2 w2).2.
Proof.
  intros Hms. cbn zeta. unfold submit_task. cbn [fst snd task_queue].
  rewrite <- Hms. repeat split.
  - rewrite <- app_assoc. reflexivity.
  - intros W c d avail wk' t1 t2 w1 w2. rewrite !execute_task_id. reflexivity.
Qed.

Lemma C10_task_id_collision_witness :
  (submit_task SEND_HOMING ∅ 1.0001 1.0001 new_worker).1 = "send_homing_1000"
  /\ (submit_task SEND_HOMING ∅ 1.0004 1.0004
        (submit_task SEND_HOMING ∅ 1.0001 1.0001 new_worker).2).1
     = "send_homing_1000".
Proof.
  pose proof (C10_task_id_collision SEND_HOMING ∅ ∅ 1.0001 1.0004 1.0001 1.0004
                new_worker eq_refl) as (H1 & H2 & _).
  cbn zeta in H1, H2. split.
  - rewrite H1. vm_compute. reflexivity.
  - rewrite H2, H1. vm_compute. reflexivity.
Defined.

End WifiFacts.

Module ClientFacts.
Import Py Wifi Client.

Lemma Qltb_true a b : Qltb a b = true <-> (a < b)%Q.
Proof.
  unfold Qltb. rewrite negb_true_iff, <- not_true_iff_false, Qle_bool_iff.
  split; [apply Qnot_le_lt|apply Qlt_not_le].
Qed.

Lemma Qltb_false a b : Qltb a b = false <-> (b <= a)%Q.
Proof.
  unfold Qltb. rewrite negb_false_iff, Qle_bool_iff. reflexivity.
Qed.

(** The three ways [max(0.2, min(1.0, x))] comes out. *)
Lemma clamp_gain_cases x :
  ((x <= 0.2)%Q /\ clamp_gain x = 0.2%Q)
  \/ ((1.0 <= x)%Q /\ clamp_gain x = 1.0%Q)
  \/ ((0.2 < x)%Q /\ (x < 1.0)%Q /\ clamp_gain x = x).
Proof.
  unfold clamp_gain, py_max, py_min.
  destruct (Qltb x 1.0) eqn:Hhi.
  - apply Qltb_true in Hhi. destruct (Qltb 0.2 x) eqn:Hlo.
    + apply Qltb_true in Hlo. right. right. done.
    + apply Qltb_false in Hlo. left. done.
  - apply Qltb_false in Hhi. right. left. split; [done|].
    reflexivity.
Qed.

Lemma clamp_gain_idempotent x : clamp_gain (clamp_gain x) = clamp_gain x.
Proof.
  destruct (clamp_gain_cases x) as [[_ ->]|[[_ ->]|(Hlo & Hhi & ->)]];
    try reflexivity.
  unfold clamp_gain, py_max, py_min.
  apply Qltb_true in Hlo, Hhi. rewrite Hhi, Hlo. reflexivity.
Qed.

Lemma gain_params_shoulder a b :
  gain_params a b !! "shoulder_gain" = Some (VFloat a).
Proof. reflexivity. Qed.

Lemma gain_params_joint a b :
  gain_params a b !! "joint_gain" = Some (VFloat b).
Proof. reflexivity. Qed.

Lemma send_gain_sent ip port s j r status :
  connect r = (true, status) ->
  sent (send_gravity_comp_gain ip port (VFloat s) (VFloat j) r).1 =
    sent r ++ [ {| shoulder_gain := clamp_gain s; joint_gain := clamp_gain j |} ]
  /\ exists txt,
       (send_gravity_comp_gain ip port (VFloat s) (VFloat j) r).2
       = Returned (VStr txt).
Proof.
  intros Hc. unfold send_gravity_comp_gain. rewrite Hc. cbn [negb py_float].
  destruct (respond r _); cbn; eauto.
Qed.

Lemma apply_gains_submits n s j now ts wk :
  n <> 0 ->
  apply_gains_threaded (Some n) s j now ts wk =
    (Some (clamp_gain (or_default s 0.6), clamp_gain (or_default j 0.7)),
     (submit_task APPLY_GAINS
        (gain_params (clamp_gain (or_default s 0.6))
                     (clamp_gain (or_default j 0.7))) now ts wk).2).
Proof.
  intros Hn. unfold apply_gains_threaded. destruct n; [done| |]; reflexivity.
Qed.

Lemma worker_round_gains others a b now ts now' r status :
  connect r = (true, status) ->
  sent (@worker_round Remote (with_gain_sender others) dummy_data_manager true now'
          (submit_task APPLY_GAINS (gain_params a b) now ts (start new_worker)).2
          r).2
  = sent r ++ [ {| shoulder_gain := clamp_gain a; joint_gain := clamp_gain b |} ].
Proof.
  intros Hc.
  destruct (send_gain_sent DEFAULT_RASPBERRY_IP DEFAULT_RASPBERRY_PORT a b r
              status Hc) as [Hsent [txt Htxt]].
  unfold worker_round, submit_task, start, new_worker.
  cbn [running task_queue negb fst snd app].
  unfold execute_task. cbn [negb connection_data].
  unfold execute_body. cbn [task_type].
  unfold mbind, M_bind, param. cbn [params].
  rewrite gain_params_shoulder, gain_params_joint.
  change (@Wifi.send_gravity_comp_gain Remote (with_gain_sender others))
    with send_gravity_comp_gain.
  destruct (send_gravity_comp_gain DEFAULT_RASPBERRY_IP DEFAULT_RASPBERRY_PORT
              (VFloat a) (VFloat b) r) as [r1 o] eqn:Hsend.
  cbn [fst snd] in Hsent, Htxt. subst o. cbn. exact Hsent.
Qed.

(** A failing RPC does not make the sender raise: the error comes back as
    the returned text, and the worker then files it as a success. *)
Example rpc_error_is_returned_as_text :
  (send_gravity_comp_gain "192.168.0.43" 50051 (VFloat 0.5) (VFloat 0.5)
     remote_failing).2
  = Returned
      (VStr "GravityCompGain RPC 실패: StatusCode.UNAVAILABLE - failed to connect").
Proof. vm_compute. reflexivity. Qed.

Example rpc_error_filed_as_success :
  result_queue
    (@worker_round Remote (with_gain_sender (raising_remote_client "unused"))
       dummy_data_manager true 2
       (submit_task APPLY_GAINS (gain_params 0.5 0.5) 1 1 (start new_worker)).2
       remote_failing).1.2
  = [ {| r_task_id := "apply_gains_1000"; success := true;
         result :=
           VStr "GravityCompGain RPC 실패: StatusCode.UNAVAILABLE - failed to connect";
         error := ""; r_timestamp := 2 |} ].
Proof. vm_compute. reflexivity. Qed.

(** The two clamps.  The Apply-Gains handler replaces a missing or zero
    input by its default (0.6 shoulder, 0.7 joint) and clamps the value into
    [0.2, 1.0]; it always submits the task.  The client clamps again
    whatever it is given, so the request that is sent carries values in
    [0.2, 1.0]: above 1.0 becomes 1.0, below 0.2 becomes 0.2.  Shoulder 1.5
    and joint 0.1 are sent as 1.0 and 0.2. *)
Lemma gains_clamped_after_default :
  (forall x,
     (0.2 <= clamp_gain x)%Q /\ (clamp_gain x <= 1.0)%Q
     /\ ((1.0 < x)%Q -> clamp_gain x = 1.0%Q)
     /\ ((x < 0.2)%Q -> clamp_gain x = 0.2%Q)
     /\ ((0.2 <= x)%Q -> (x <= 1.0)%Q -> (clamp_gain x == x)%Q))
  /\ (forall ip port s j r status,
        connect r = (true, status) ->
        sent (send_gravity_comp_gain ip port (VFloat s) (VFloat j) r).1 =
          sent r ++ [ {| shoulder_gain := clamp_gain s;
                         joint_gain := clamp_gain j |} ])
  /\ (forall others n s j now ts now' r status,
        n <> 0 ->
        connect r = (true, status) ->
        sent (@worker_round Remote (with_gain_sender others) dummy_data_manager
                true now'
                (apply_gains_threaded (Some n) s j now ts (start new_worker)).2
                r).2
        = sent r ++ [ {| shoulder_gain := clamp_gain (or_default s 0.6);
                         joint_gain := clamp_gain (or_default j 0.7) |} ])
  /\ (forall others,
        sent (@worker_round Remote (with_gain_sender others) dummy_data_manager
                true 2
                (apply_gains_threaded (Some 1) (Some 1.5%Q) (Some 0.1%Q) 1 1
                   (start new_worker)).2
                remote_ok).2
        = [ {| shoulder_gain := 1.0; joint_gain := 0.2 |} ]).
Proof.
  split; [|split; [|split]].
  - intros x.
    destruct (clamp_gain_cases x) as [[H ->]|[[H ->]|(Hlo & Hhi & ->)]].
    + repeat split; intros; first [lra | reflexivity | exfalso; lra].
    + repeat split; intros; first [lra | reflexivity | exfalso; lra].
    + repeat split; intros; first [lra | reflexivity | exfalso; lra].
  - intros ip port s j r status Hc.
    apply (send_gain_sent ip port s j r status Hc).
  - intros others n s j now ts now' r status Hn Hc.
    rewrite (apply_gains_submits n s j now ts _ Hn). cbn [snd].
    rewrite (worker_round_gains others _ _ now ts now' r status Hc).
    rewrite !clamp_gain_idempotent. reflexivity.
  - intros others.
    rewrite (apply_gains_submits 1 _ _ 1 1 _ ltac:(lia)). cbn [snd].
    rewrite (worker_round_gains others _ _ 1 1 2 remote_ok "연결 성공" eq_refl).
    reflexivity.
Qed.

(** C8 (gains are clamped before dispatch, values below 0.2 becoming 0.2).
    With both gain inputs at 0 the Apply-Gains handler takes [0 or 0.6] and
    [0 or 0.7] before it clamps, so the request that reaches the service
    carries 0.6 and 0.7; the client given 0 directly sends 0.2 and 0.2. *)
Theorem C8_zero_gain_sent_as_default :
  (0 < 0.2)%Q
  /\ sent (@worker_round Remote (with_gain_sender (raising_remote_client "unused"))
             dummy_data_manager true 2
             (apply_gains_threaded (Some 1) (Some 0%Q) (Some 0%Q) 1 1
                (start new_worker)).2
             remote_ok).2
     = [ {| shoulder_gain := 0.6; joint_gain := 0.7 |} ]
  /\ sent (send_gravity_comp_gain DEFAULT_RASPBERRY_IP DEFAULT_RASPBERRY_PORT
             (VFloat 0) (VFloat 0) remote_ok).1
     = [ {| shoulder_gain := 0.2; joint_gain := 0.2 |} ]
  /\ {| shoulder_gain := 0.6; joint_gain := 0.7 |}
     <> {| shoulder_gain := 0.2; joint_gain := 0.2 |}.
Proof.
  split; [reflexivity|].
  split; [vm_compute; reflexivity|].
  split; [vm_compute; reflexivity|].
  intros H. discriminate H.
Qed.

End ClientFacts.

Module UsbFrameStream.
Import PyBytes UsbFrame UsbFrameFacts.

(** *** [bytes.find] on a buffer that grows at its end *)

Lemma starts_with_length sub : forall buf,
  starts_with sub buf = true -> (length sub <= length buf)%nat.
Proof.
  induction sub as [|s sub IH]; intros [|b buf] H; cbn in *;
    try lia; try discriminate.
  apply andb_true_iff in H as [_ H]. apply IH in H. lia.
Qed.

Lemma starts_with_app sub : forall buf more,
  starts_with sub buf = true -> starts_with sub (buf ++ more) = true.
Proof.
  induction sub as [|s sub IH]; intros [|b buf] more H; cbn in *; try done.
  apply andb_true_iff in H as [Hb H]. rewrite Hb. cbn. apply IH, H.
Qed.

Lemma starts_with_app_inv sub : forall buf more,
  starts_with sub (buf ++ more) = true -> (length sub <= length buf)%nat ->
  starts_with sub buf = true.
Proof.
  induction sub as [|s sub IH]; intros [|b buf] more H Hlen; cbn in *;
    try done; try lia.
  apply andb_true_iff in H as [Hb H]. rewrite Hb. cbn. apply (IH _ more); [done|lia].
Qed.

Lemma find_from_length sub : forall buf pos i,
  find_from sub buf pos = Some i -> (length sub <= length buf)%nat.
Proof.
  intros buf. induction buf as [|b buf IH]; intros pos i H; cbn in H.
  - destruct (starts_with sub []) eqn:E; [|discriminate].
    apply starts_with_length in E. done.
  - destruct (starts_with sub (b :: buf)) eqn:E.
    + apply starts_with_length in E. done.
    + apply IH in H. cbn. lia.
Qed.

Lemma find_from_app sub : forall buf more pos i,
  find_from sub buf pos = Some i -> find_from sub (buf ++ more) pos = Some i.
Proof.
  intros buf. induction buf as [|b buf IH]; intros more pos i H.
  - cbn in H. destruct (starts_with sub []) eqn:E; [|discriminate].
    destruct sub; [|discriminate]. destruct more; exact H.
  - cbn [find_from] in H. change ((b :: buf) ++ more) with (b :: (buf ++ more)).
    cbn [find_from].
    destruct (starts_with sub (b :: buf)) eqn:E.
    + change (b :: (buf ++ more)) with ((b :: buf) ++ more).
      rewrite (starts_with_app _ _ more E). exact H.
    + destruct (starts_with sub (b :: buf ++ more)) eqn:E'.
      * pose proof (find_from_length _ _ _ _ H) as Hlen.
        change (b :: buf ++ more) with ((b :: buf) ++ more) in E'.
        apply starts_with_app_inv in E'; [congruence|cbn; lia].
      * apply IH, H.
Qed.

Lemma find_app sub buf more :
  0 <= find sub buf -> find sub (buf ++ more) = find sub buf.
Proof.
  unfold find. destruct (find_from sub buf 0) as [i|] eqn:E; [|lia].
  intros _. rewrite (find_from_app _ _ more _ _ E). reflexivity.
Qed.

(** Where [find] reports a match, the pattern is there. *)
Lemma find_from_starts sub : forall buf pos i,
  find_from sub buf pos = Some i ->
  (pos <= i)%nat /\ starts_with sub (drop (i - pos) buf) = true.
Proof.
  intros buf. induction buf as [|b buf IH]; intros pos i H; cbn [find_from] in H.
  - destruct (starts_with sub []) eqn:E; [|discriminate].
    injection H as <-. rewrite Nat.sub_diag. done.
  - destruct (starts_with sub (b :: buf)) eqn:E.
    + injection H as <-. rewrite Nat.sub_diag. done.
    + apply IH in H as [Hle H]. split; [lia|].
      replace (i - pos)%nat with (S (i - S pos)) by lia. exact H.
Qed.

Lemma find_header buf :
  0 <= find FRAME_HDR buf ->
  exists tl, drop (Z.to_nat (find FRAME_HDR buf)) buf = FRAME_HEADER1 :: FRAME_HEADER2 :: tl.
Proof.
  unfold find. destruct (find_from FRAME_HDR buf 0) as [i|] eqn:E; [|lia].
  intros _. apply find_from_starts in E as [_ E].
  rewrite Nat.sub_0_r in E. rewrite Nat2Z.id.
  unfold FRAME_HDR in E.
  destruct (drop i buf) as [|x [|y tl]]; cbn [starts_with] in E;
    rewrite ?andb_false_r in E; try discriminate.
  apply andb_true_iff in E as [Ex E]. apply andb_true_iff in E as [Ey _].
  apply Byte.byte_dec_bl in Ex, Ey. subst. eauto.
Qed.

(** *** One round on a buffer that holds a complete window *)

Lemma window_complete buf :
  0 <= find FRAME_HDR buf -> FRAME_LEN <= len buf - find FRAME_HDR buf ->
  window_at buf (find FRAME_HDR buf) = take 61 (drop (Z.to_nat (find FRAME_HDR buf)) buf)
  /\ del_prefix buf (find FRAME_HDR buf + FRAME_LEN)
     = drop (Z.to_nat (find FRAME_HDR buf) + 61) buf
  /\ (Z.to_nat (find FRAME_HDR buf) + 61 <= length buf)%nat.
Proof.
  intros Hpos Hfull.
  unfold window_at, del_prefix, slice, len, FRAME_LEN, FRAME_SIZE, ENC_DATA_SIZE,
    NUM_JOINTS in *.
  repeat split.
  - f_equal. lia.
  - f_equal. lia.
  - lia.
Qed.

Lemma window_valid buf f :
  0 <= find FRAME_HDR buf -> FRAME_LEN <= len buf - find FRAME_HDR buf ->
  decode_window (window_at buf (find FRAME_HDR buf)) = Some f ->
  valid_frame (window_at buf (find FRAME_HDR buf))
  /\ f = spec_frame (window_at buf (find FRAME_HDR buf)).
Proof.
  intros Hpos Hfull Hd.
  destruct (window_complete buf Hpos Hfull) as (Hw & _ & Hlen).
  destruct (find_header buf Hpos) as [tl Htl].
  assert (Hwlen : length (window_at buf (find FRAME_HDR buf)) = 61%nat).
  { rewrite Hw, length_take, length_drop. lia. }
  destruct (checksum_ok_dec (window_at buf (find FRAME_HDR buf))) as [Hok|Hbad].
  - rewrite (decode_window_ok _ Hwlen Hok) in Hd. injection Hd as <-.
    split; [|reflexivity]. split; [exact Hwlen|]. split; [|exact Hok].
    rewrite Hw, Htl. split; reflexivity.
  - rewrite (decode_window_bad _ Hwlen Hbad) in Hd. discriminate.
Qed.

(** *** Chunked input *)

Lemma parse_loop_app fuel : forall buf more fs rest,
  parse_loop fuel buf = Some (fs, rest) ->
  parse_frames (buf ++ more) =
    match parse_frames (rest ++ more) with
    | Some (fs', rest') => Some (fs ++ fs', rest')
    | None => None
    end.
Proof.
  induction fuel as [|fuel IH]; intros buf more fs rest Hp; [discriminate|].
  cbn [parse_loop] in Hp.
  destruct (find FRAME_HDR buf <? 0) eqn:Hneg.
  { injection Hp as <- <-. destruct (parse_frames (buf ++ more)) as [[??]|]; done. }
  destruct (len buf - find FRAME_HDR buf <? FRAME_LEN) eqn:Hshort.
  { injection Hp as <- <-. destruct (parse_frames (buf ++ more)) as [[??]|]; done. }
  pose proof Hneg as Hpos. pose proof Hshort as Hfull.
  apply Z.ltb_ge in Hpos, Hfull.
  destruct (window_complete buf Hpos Hfull) as (Hw & Hd & Hlen).
  etrans; [apply parse_frames_unfold|]. cbv zeta.
  rewrite (find_app _ _ more Hpos), Hneg.
  assert (Hfull' : (len (buf ++ more) - find FRAME_HDR buf <? FRAME_LEN) = false).
  { apply Z.ltb_ge. unfold len in *. rewrite length_app. lia. }
  rewrite Hfull'.
  assert (Hw' : window_at (buf ++ more) (find FRAME_HDR buf)
                = slice buf (find FRAME_HDR buf) (find FRAME_HDR buf + FRAME_LEN)).
  { fold (window_at buf (find FRAME_HDR buf)). rewrite Hw.
    unfold window_at, slice, FRAME_LEN, FRAME_SIZE, ENC_DATA_SIZE, NUM_JOINTS.
    replace (Z.to_nat (find FRAME_HDR buf + (2 + 1 + 7 * 2 * 4 + 2) - find FRAME_HDR buf))
      with 61%nat by lia.
    rewrite drop_app_le by lia. rewrite take_app_le; [done|].
    rewrite length_drop. lia. }
  assert (Hd' : del_prefix (buf ++ more) (find FRAME_HDR buf + FRAME_LEN)
                = del_prefix buf (find FRAME_HDR buf + FRAME_LEN) ++ more).
  { rewrite Hd. unfold del_prefix, FRAME_LEN, FRAME_SIZE, ENC_DATA_SIZE, NUM_JOINTS.
    replace (Z.to_nat (find FRAME_HDR buf + (2 + 1 + 7 * 2 * 4 + 2)))
      with (Z.to_nat (find FRAME_HDR buf) + 61)%nat by lia.
    apply drop_app_le. lia. }
  rewrite Hw', Hd'.
  destruct (decode_window _) as [f|].
  - destruct (parse_loop fuel _) as [[fs0 rest0]|] eqn:Hrec; [|discriminate].
    injection Hp as <- <-. rewrite (IH _ more _ _ Hrec).
    destruct (parse_frames (rest0 ++ more)) as [[??]|]; done.
  - apply IH, Hp.
Qed.

(** The binary loop does not depend on how the stream was cut into reads:
    running it on [buf], appending [more] to what it left and running it
    again emits the same frames, and leaves the same bytes, as one run on
    [buf ++ more]. *)
Theorem parse_frames_chunked (buf more : list byte) :
  parse_frames (buf ++ more) =
    match parse_frames buf with
    | Some (fs, rest) =>
        match parse_frames (rest ++ more) with
        | Some (fs', rest') => Some (fs ++ fs', rest')
        | None => None
        end
    | None => None
    end.
Proof.
  destruct (parse_frames_total buf) as [[fs rest] Hp]. rewrite Hp.
  exact (parse_loop_app _ _ more _ _ Hp).
Qed.

(** *** What the loop emits and what it leaves *)

Lemma parse_loop_sound fuel : forall buf fs rest,
  parse_loop fuel buf = Some (fs, rest) ->
  Forall (fun f => exists pre w post,
            buf = pre ++ w ++ post /\ valid_frame w /\ f = spec_frame w) fs.
Proof.
  induction fuel as [|fuel IH]; intros buf fs rest Hp; [discriminate|].
  cbn [parse_loop] in Hp.
  destruct (find FRAME_HDR buf <? 0) eqn:Hneg; [injection Hp as <- <-; constructor|].
  destruct (len buf - find FRAME_HDR buf <? FRAME_LEN) eqn:Hshort;
    [injection Hp as <- <-; constructor|].
  apply Z.ltb_ge in Hneg, Hshort.
  destruct (window_complete buf Hneg Hshort) as (Hw & Hd & Hlen).
  fold (window_at buf (find FRAME_HDR buf)) in Hp. rewrite Hd in Hp.
  assert (Hrec : forall fs', parse_loop fuel (drop (Z.to_nat (find FRAME_HDR buf) + 61) buf)
                             = Some (fs', rest) ->
            Forall (fun f => exists pre w post,
                      buf = pre ++ w ++ post /\ valid_frame w /\ f = spec_frame w) fs').
  { intros fs' Hfs'. eapply Forall_impl; [apply (IH _ _ _ Hfs')|].
    intros f (pre & w & post & Hbuf & Hv & Hf).
    exists (take (Z.to_nat (find FRAME_HDR buf) + 61) buf ++ pre), w, post.
    split; [|done]. rewrite <- app_assoc, <- Hbuf. symmetry. apply take_drop. }
  destruct (decode_window _) as [f|] eqn:Hdec; [|apply Hrec, Hp].
  destruct (parse_loop fuel _) as [[fs0 rest0]|] eqn:Hrec0; [|discriminate].
  injection Hp as <- <-. constructor; [|apply Hrec; reflexivity].
  destruct (window_valid buf f Hneg Hshort Hdec) as [Hv Hf].
  exists (take (Z.to_nat (find FRAME_HDR buf)) buf),
         (window_at buf (find FRAME_HDR buf)),
         (drop (Z.to_nat (find FRAME_HDR buf) + 61) buf).
  split; [|done]. rewrite Hw, <- drop_drop, take_drop, take_drop. reflexivity.
Qed.

(** Every frame the loop emits is the decoding of 61 consecutive bytes of
    the buffer that start with AA BB and pass the checksum. *)
Theorem parse_frames_sound (buf : list byte) (fs : list Frame) (rest : list byte) :
  parse_frames buf = Some (fs, rest) ->
  Forall (fun f => exists pre w post,
            buf = pre ++ w ++ post /\ valid_frame w /\ f = spec_frame w) fs.
Proof. apply parse_loop_sound. Qed.

Lemma parse_frames_sound_witness :
  Forall (fun f => exists pre w post,
            [x0a; xaa] ++ frame_A ++ [xbb] = pre ++ w ++ post
            /\ valid_frame w /\ f = spec_frame w) [spec_frame frame_A].
Proof.
  apply (parse_frames_sound ([x0a; xaa] ++ frame_A ++ [xbb]) _ [xbb]).
  vm_compute. reflexivity.
Defined.

Lemma parse_loop_leftover fuel : forall buf fs rest,
  parse_loop fuel buf = Some (fs, rest) ->
  rest `suffix_of` buf
  /\ (61 * length fs + length rest <= length buf)%nat
  /\ (find FRAME_HDR rest < 0 \/ len rest - find FRAME_HDR rest < FRAME_LEN).
Proof.
  induction fuel as [|fuel IH]; intros buf fs rest Hp; [discriminate|].
  cbn [parse_loop] in Hp.
  destruct (find FRAME_HDR buf <? 0) eqn:Hneg.
  { injection Hp as <- <-. apply Z.ltb_lt in Hneg. cbn. split; [done|]. split; [lia|]. by left. }
  destruct (len buf - find FRAME_HDR buf <? FRAME_LEN) eqn:Hshort.
  { injection Hp as <- <-. apply Z.ltb_lt in Hshort. cbn. split; [done|]. split; [lia|]. by right. }
  apply Z.ltb_ge in Hneg, Hshort.
  destruct (window_complete buf Hneg Hshort) as (Hw & Hd & Hlen).
  rewrite Hd in Hp.
  assert (Hrec : forall fs', parse_loop fuel (drop (Z.to_nat (find FRAME_HDR buf) + 61) buf)
                             = Some (fs', rest) ->
            rest `suffix_of` buf
            /\ (61 + (61 * length fs' + length rest) <= length buf)%nat
            /\ (find FRAME_HDR rest < 0 \/ len rest - find FRAME_HDR rest < FRAME_LEN)).
  { intros fs' Hfs'. destruct (IH _ _ _ Hfs') as (Hsuf & Hcnt & Hstop).
    split; [|split; [|done]].
    - etrans; [exact Hsuf|]. apply suffix_drop.
    - rewrite length_drop in Hcnt. lia. }
  destruct (decode_window _) as [f|].
  - destruct (parse_loop fuel _) as [[fs0 rest0]|] eqn:Hrec0; [|discriminate].
    injection Hp as <- <-. destruct (Hrec _ eq_refl) as (? & ? & ?).
    split; [done|]. split; [cbn [length]; lia|done].
  - destruct (Hrec _ Hp) as (? & ? & ?). split; [done|]. split; [lia|done].
Qed.

(** The loop runs to a fixed point: what it leaves is an end piece of the
    buffer on which a further run emits nothing and removes nothing, and
    every emitted frame has cost at least 61 bytes. *)
Theorem parse_frames_leftover (buf : list byte) (fs : list Frame) (rest : list byte) :
  parse_frames buf = Some (fs, rest) ->
  rest `suffix_of` buf
  /\ (61 * length fs + length rest <= length buf)%nat
  /\ parse_frames rest = Some ([], rest).
Proof.
  intros Hp. destruct (parse_loop_leftover _ _ _ _ Hp) as (Hsuf & Hcnt & Hstop).
  split; [done|]. split; [done|].
  rewrite parse_frames_unfold. cbv zeta.
  destruct (find FRAME_HDR rest <? 0) eqn:Hneg; [done|].
  destruct (len rest - find FRAME_HDR rest <? FRAME_LEN) eqn:Hshort; [done|].
  apply Z.ltb_ge in Hneg, Hshort. lia.
Qed.

Lemma parse_frames_leftover_witness :
  [x00] ++ take 40 frame_A `suffix_of` frame_A ++ [x00] ++ take 40 frame_A
  /\ (61 * 1 + 41 <= 102)%nat
  /\ parse_frames ([x00] ++ take 40 frame_A) = Some ([], [x00] ++ take 40 frame_A).
Proof.
  apply (parse_frames_leftover (frame_A ++ [x00] ++ take 40 frame_A)
           [spec_frame frame_A] ([x00] ++ take 40 frame_A)).
  vm_compute. reflexivity.
Defined.

(** Valid frames sent back to back are all decoded, in order, and the loop
    then goes on with whatever follows them. *)
Theorem parse_frames_back_to_back (ws : list (list byte)) (more : list byte) :
  Forall valid_frame ws ->
  parse_frames (concat ws ++ more) =
    match parse_frames more with
    | Some (fs, rest) => Some (map spec_frame ws ++ fs, rest)
    | None => None
    end.
Proof.
  induction 1 as [|w ws (Hlen & Hhdr & Hok) _ IH]; cbn [concat map app].
  - destruct (parse_frames more) as [[??]|]; done.
  - rewrite <- app_assoc.
    pose proof (parse_frames_window [] w (concat ws ++ more) Hlen) as Hw.
    cbn [app] in Hw. rewrite Hw by (apply find_header_0, has_header_app, Hhdr).
    rewrite (decode_window_ok w Hlen Hok), IH.
    destruct (parse_frames more) as [[??]|]; done.
Qed.

Lemma parse_frames_back_to_back_witness :
  parse_frames (concat [frame_A; frame_A; frame_A] ++ [xaa]) =
    Some ([spec_frame frame_A; spec_frame frame_A; spec_frame frame_A], [xaa]).
Proof.
  apply (parse_frames_back_to_back [frame_A; frame_A; frame_A] [xaa]).
  repeat constructor; unfold checksum_ok; vm_compute; reflexivity.
Defined.

End UsbFrameStream.

Module UsbSerialFacts.
Import PyBytes UsbFrame Py UsbSerial UsbFrameFacts UsbFrameStream.

Lemma byte_eqb_neq (b c : byte) : b <> c -> Byte.eqb b c = false.
Proof.
  intros Hne. destruct (Byte.eqb b c) eqn:E; [|done].
  apply Byte.byte_dec_bl in E. contradiction.
Qed.

Lemma byte_eqb_refl (b : byte) : Byte.eqb b b = true.
Proof. apply Byte.byte_dec_lb. reflexivity. Qed.

(** *** The one-shot reader *)

Lemma find_frame_start_loop_none n : forall inp,
  Forall (fun b => b <> FRAME_HEADER1) (take n inp) ->
  find_frame_start_loop n inp = (false, drop n inp).
Proof.
  induction n as [|n IH]; intros inp Hno; [by rewrite drop_0|].
  destruct inp as [|b inp]; cbn [find_frame_start_loop read take drop].
  - rewrite IH by (rewrite take_nil; constructor). by rewrite drop_nil.
  - cbn [take] in Hno. inversion Hno as [|? ? Hb Hrest]; subst.
    rewrite drop_0, (byte_eqb_neq _ _ Hb). apply IH, Hrest.
Qed.

Lemma find_frame_start_loop_found n : forall pre tl,
  Forall (fun b => b <> FRAME_HEADER1) pre ->
  (length pre < n)%nat ->
  find_frame_start_loop n (pre ++ FRAME_HEADER1 :: FRAME_HEADER2 :: tl) = (true, tl).
Proof.
  induction n as [|n IH]; intros pre tl Hno Hlen; [lia|].
  destruct pre as [|b pre]; cbn [app find_frame_start_loop read take drop].
  - rewrite !byte_eqb_refl. reflexivity.
  - inversion Hno as [|? ? Hb Hrest]; subst.
    rewrite drop_0, (byte_eqb_neq _ _ Hb). apply IH; [done|cbn in Hlen; lia].
Qed.

(** What [read_encoder_frame] does once the header has been read and the
    59 bytes [data] are waiting. *)
Lemma read_encoder_frame_found now inp data rest :
  find_frame_start inp = (true, data ++ rest) ->
  length data = 59%nat ->
  read_encoder_frame now inp =
    (option_map (pair now) (decode_window (FRAME_HEADER1 :: FRAME_HEADER2 :: data)),
     rest).
Proof.
  intros Hfind Hlen. unfold read_encoder_frame. rewrite Hfind. cbn [negb].
  unfold read. change (Z.to_nat (FRAME_SIZE - 2)) with 59%nat.
  rewrite take_app_length', drop_app_length' by done.
  unfold len. rewrite Hlen. cbn [Z.eqb negb].
  change (Z.of_nat 59 =? FRAME_SIZE - 2) with true. cbn [negb].
  unfold decode_window.
  change ((FRAME_HEADER1 :: FRAME_HEADER2 :: data) !! 2%nat) with (data !! 0%nat).
  destruct (data !! 0%nat) as [b|]; [|done].
  assert (Hcrc : unpack_H (slice data (1 + ENC_DATA_SIZE) (1 + ENC_DATA_SIZE + 2))
                 = Some (crc_rx (FRAME_HEADER1 :: FRAME_HEADER2 :: data))).
  { rewrite crc_rx_61 by (cbn; lia). unfold unpack_H, len, slice.
    change (Z.to_nat (1 + ENC_DATA_SIZE + 2 - (1 + ENC_DATA_SIZE))) with 2%nat.
    change (Z.to_nat (1 + ENC_DATA_SIZE)) with 57%nat.
    change (Z.to_nat (61 - 59)) with 2%nat. change (Z.to_nat 59) with 59%nat.
    rewrite length_take, length_drop, Hlen. reflexivity. }
  rewrite Hcrc.
  change (Z.land (sum (slice data 0 (1 + ENC_DATA_SIZE))) 65535)
    with (crc_calc (FRAME_HEADER1 :: FRAME_HEADER2 :: data)).
  destruct (negb _); [done|].
  change (slice (FRAME_HEADER1 :: FRAME_HEADER2 :: data) 3 (3 + ENC_DATA_SIZE))
    with (slice data 1 (1 + ENC_DATA_SIZE)).
  destruct (unpack_14I _); reflexivity.
Qed.

Lemma header_split v :
  length v = 61%nat -> has_header v ->
  exists data, v = FRAME_HEADER1 :: FRAME_HEADER2 :: data /\ length data = 59%nat.
Proof.
  intros Hlen [H0 H1]. destruct v as [|x [|y data]]; simplify_eq/=. eauto.
Qed.

(** On 61 bytes that start with AA BB and are first in the port, the
    one-shot reader decides as one round of the buffered loop does on that
    window: the same checksum test, the same switch byte, the same arm
    order; and it takes exactly these 61 bytes. *)
Theorem read_encoder_frame_aligned (now : Q) (v rest : list byte) :
  length v = 61%nat ->
  has_header v ->
  read_encoder_frame now (v ++ rest) = (option_map (pair now) (decode_window v), rest).
Proof.
  intros Hlen Hhdr. destruct (header_split v Hlen Hhdr) as (data & -> & Hdata).
  apply read_encoder_frame_found; [|done].
  apply (find_frame_start_loop_found 500 [] (data ++ rest)); [constructor|cbn; lia].
Qed.

Lemma read_encoder_frame_aligned_witness :
  read_encoder_frame 5%Q (frame_A ++ [xaa]) =
    (option_map (pair 5%Q) (decode_window frame_A), [xaa]).
Proof.
  apply (read_encoder_frame_aligned 5%Q frame_A [xaa]).
  - reflexivity.
  - split; reflexivity.
Defined.

(** The search for the header gives up after 500 reads.  Behind [pre],
    which holds no AA byte, a valid frame is returned when [pre] is shorter
    than 500 bytes; otherwise the call returns [None] after taking 500
    bytes from the port. *)
Theorem read_encoder_frame_scan_limit (now : Q) (pre v rest : list byte) :
  Forall (fun b => b <> FRAME_HEADER1) pre ->
  valid_frame v ->
  read_encoder_frame now (pre ++ v ++ rest) =
    if decide (length pre < 500)%nat
    then (Some (now, spec_frame v), rest)
    else (None, drop 500 (pre ++ v ++ rest)).
Proof.
  intros Hno (Hlen & Hhdr & Hok). case_decide as Hshort.
  - destruct (header_split v Hlen Hhdr) as (data & Hv & Hdata).
    rewrite (read_encoder_frame_found now _ data rest).
    + rewrite <- Hv, (decode_window_ok v Hlen Hok). reflexivity.
    + rewrite Hv. cbn [app]. apply find_frame_start_loop_found; done.
    + done.
  - unfold read_encoder_frame, find_frame_start.
    rewrite find_frame_start_loop_none; [reflexivity|].
    rewrite take_app_le by lia. apply Forall_take, Hno.
Qed.

Lemma read_encoder_frame_scan_limit_witness :
  read_encoder_frame 5%Q (replicate 499 x00 ++ frame_A ++ [x07]) =
    (if decide (length (replicate 499 x00) < 500)%nat
     then (Some (5%Q, spec_frame frame_A), [x07])
     else (None, drop 500 (replicate 499 x00 ++ frame_A ++ [x07])))
  /\ read_encoder_frame 5%Q (replicate 500 x00 ++ frame_A ++ [x07]) =
    (if decide (length (replicate 500 x00) < 500)%nat
     then (Some (5%Q, spec_frame frame_A), [x07])
     else (None, drop 500 (replicate 500 x00 ++ frame_A ++ [x07]))).
Proof.
  assert (Hv : valid_frame frame_A).
  { split; [reflexivity|]. split; [split; reflexivity|].
    unfold checksum_ok. vm_compute. reflexivity. }
  split.
  - refine (read_encoder_frame_scan_limit 5%Q (replicate 499 x00) frame_A [x07] _ Hv).
    apply Forall_replicate. discriminate.
  - refine (read_encoder_frame_scan_limit 5%Q (replicate 500 x00) frame_A [x07] _ Hv).
    apply Forall_replicate. discriminate.
Defined.

Lemma find_frame_start_loop_stray n inp :
  find_frame_start_loop (S n) (FRAME_HEADER1 :: FRAME_HEADER1 :: inp)
  = find_frame_start_loop n inp.
Proof.
  cbn [find_frame_start_loop read take drop].
  rewrite byte_eqb_refl.
  replace (Byte.eqb FRAME_HEADER1 FRAME_HEADER2) with false by reflexivity.
  reflexivity.
Qed.

(** A stray AA directly before a frame hides it from the one-shot reader:
    the search reads the frame's own AA as the second header byte and
    moves on.  When no other AA follows, the call returns [None], while
    the buffered loop emits the frame. *)
Theorem read_encoder_frame_misses_after_stray_header (now : Q) (v : list byte) :
  valid_frame v ->
  Forall (fun b => b <> FRAME_HEADER1) (drop 1 v) ->
  (read_encoder_frame now (FRAME_HEADER1 :: v)).1 = None
  /\ parse_frames (FRAME_HEADER1 :: v) = Some ([spec_frame v], []).
Proof.
  intros (Hlen & Hhdr & Hok) Hno.
  destruct (header_split v Hlen Hhdr) as (data & -> & Hdata). split.
  - unfold read_encoder_frame, find_frame_start.
    change 500%nat with (S 499).
    rewrite find_frame_start_loop_stray, find_frame_start_loop_none; [reflexivity|].
    apply Forall_take. exact Hno.
  - pose proof (parse_frames_window [FRAME_HEADER1]
                  (FRAME_HEADER1 :: FRAME_HEADER2 :: data) [] Hlen) as Hw.
    rewrite app_nil_r in Hw. cbn [app] in Hw. rewrite Hw.
    + rewrite (decode_window_ok _ Hlen Hok), parse_frames_nil. reflexivity.
    + reflexivity.
Qed.

Lemma read_encoder_frame_misses_after_stray_header_witness :
  (read_encoder_frame 5%Q (FRAME_HEADER1 :: frame_A)).1 = None
  /\ parse_frames (FRAME_HEADER1 :: frame_A) = Some ([spec_frame frame_A], []).
Proof.
  apply (read_encoder_frame_misses_after_stray_header 5%Q frame_A).
  - split; [reflexivity|]. split; [split; reflexivity|].
    unfold checksum_ok. vm_compute. reflexivity.
  - vm_compute. repeat constructor; discriminate.
Defined.


(** *** The text-line pass *)

Lemma find_from_lf (buf : list byte) : forall pos,
  (In x0a buf -> exists i, find_from [x0a] buf pos = Some i)
  /\ (~ In x0a buf -> find_from [x0a] buf pos = None).
Proof.
  induction buf as [|b buf IH]; intros pos.
  - split; [intros []|done].
  - cbn [find_from starts_with]. rewrite andb_true_r.
    destruct (Byte.eqb x0a b) eqn:E.
    + apply Byte.byte_dec_bl in E. subst b. split; [eauto|].
      intros Hno. exfalso. apply Hno. by left.
    + destruct (IH (S pos)) as [Hin Hout]. split.
      * intros [->|Hin']; [by rewrite byte_eqb_refl in E|]. apply Hin, Hin'.
      * intros Hno. apply Hout. intros Hin'. apply Hno. by right.
Qed.

Lemma find_lf_in (buf : list byte) : In x0a buf -> 0 <= find [x0a] buf.
Proof.
  intros Hin. unfold find.
  destruct (proj1 (find_from_lf buf 0) Hin) as [i ->]. lia.
Qed.

Lemma find_lf_not_in (buf : list byte) : ~ In x0a buf -> find [x0a] buf = -1.
Proof.
  intros Hno. unfold find. by rewrite (proj2 (find_from_lf buf 0) Hno).
Qed.

Lemma find_lf_neg (buf : list byte) : find [x0a] buf < 0 -> ~ In x0a buf.
Proof. intros Hneg Hin. apply find_lf_in in Hin. lia. Qed.

Lemma find_lf_bound (buf : list byte) :
  0 <= find [x0a] buf -> find [x0a] buf < len buf.
Proof.
  unfold find, len. destruct (find_from [x0a] buf 0) as [i|] eqn:E; [|lia].
  intros _. apply find_from_starts in E as [_ E]. rewrite Nat.sub_0_r in E.
  apply starts_with_length in E. rewrite length_drop in E. cbn in E. lia.
Qed.

Section ReaderFacts.
Variable decode_strip : list byte -> string.

Lemma text_loop_total fuel : forall buf,
  (length buf < fuel)%nat -> exists r, text_loop decode_strip fuel buf = Some r.
Proof.
  induction fuel as [|fuel IH]; intros buf Hlt; [lia|].
  cbn [text_loop].
  destruct (find [x0a] buf <? 0) eqn:Hneg; [eauto|].
  apply Z.ltb_ge in Hneg. pose proof (find_lf_bound buf Hneg) as Hb.
  assert (Hlen : (length (del_prefix buf (find [x0a] buf + 1)) < fuel)%nat).
  { unfold del_prefix, len in *. rewrite length_drop. lia. }
  destruct (IH _ Hlen) as [[ls rest] Hr]. rewrite Hr.
  destruct (String.eqb _ ""); [eauto|]. destruct (existsb _ _); eauto.
Qed.

Lemma text_lines_total buf : exists r, text_lines decode_strip buf = Some r.
Proof. apply text_loop_total. lia. Qed.

Lemma text_loop_post fuel : forall buf ls rest,
  text_loop decode_strip fuel buf = Some (ls, rest) ->
  rest `suffix_of` buf
  /\ ~ In x0a rest
  /\ (In x0a buf -> (length rest < length buf)%nat).
Proof.
  induction fuel as [|fuel IH]; intros buf ls rest Hp; [discriminate|].
  cbn [text_loop] in Hp.
  destruct (find [x0a] buf <? 0) eqn:Hneg.
  { injection Hp as <- <-. apply Z.ltb_lt in Hneg.
    split; [done|]. split; [by apply find_lf_neg|].
    intros Hin. apply find_lf_in in Hin. lia. }
  apply Z.ltb_ge in Hneg. pose proof (find_lf_bound buf Hneg) as Hb.
  assert (Hrec : forall ls', text_loop decode_strip fuel
                               (del_prefix buf (find [x0a] buf + 1)) = Some (ls', rest) ->
            rest `suffix_of` buf
            /\ ~ In x0a rest
            /\ (In x0a buf -> (length rest < length buf)%nat)).
  { intros ls' Hls'. destruct (IH _ _ _ Hls') as (Hsuf & Hno & _).
    split; [etrans; [exact Hsuf|apply suffix_drop]|]. split; [done|].
    intros _. apply suffix_length in Hsuf.
    unfold del_prefix, len in *. rewrite length_drop in Hsuf. lia. }
  destruct (String.eqb _ ""); [by eapply Hrec|].
  destruct (existsb _ _); [|by eapply Hrec].
  destruct (text_loop decode_strip fuel _) as [[ls0 rest0]|] eqn:Hrec0; [|discriminate].
  injection Hp as <- <-. by eapply Hrec.
Qed.

Lemma text_lines_no_lf buf :
  ~ In x0a buf -> text_lines decode_strip buf = Some ([], buf).
Proof.
  intros Hno. unfold text_lines. cbn [text_loop].
  by rewrite (find_lf_not_in buf Hno).
Qed.

(** The text pass always ends; it leaves an end piece of the buffer, and
    that piece holds no line feed: everything up to the last line feed is
    gone, whatever it was. *)
Theorem text_lines_leaves_no_line_feed (buf : list byte) :
  exists ls rest,
    text_lines decode_strip buf = Some (ls, rest)
    /\ rest `suffix_of` buf
    /\ Forall (fun b => b <> x0a) rest.
Proof.
  destruct (text_lines_total buf) as [[ls rest] Hp]. exists ls, rest.
  destruct (text_loop_post _ _ _ _ Hp) as (Hsuf & Hno & _).
  split; [done|]. split; [done|].
  apply Forall_forall. intros b Hb ->. apply Hno.
  by apply list_elem_of_In.
Qed.

(** A frame that arrives in two reads is lost when the first part holds a
    line feed: the binary loop waits for the rest, the text pass then cuts
    the part off behind the line feed, header included, and what the
    second read completes is no frame any more.  The same 61 bytes
    arriving in one read are decoded. *)
Theorem split_frame_with_line_feed_is_lost (a b : list byte) :
  valid_frame (a ++ b) ->
  b <> [] ->
  In x0a a ->
  (exists ls rest, reader_rounds decode_strip [] [a; b] = Some ([], ls, rest))
  /\ reader_rounds decode_strip [] [a ++ b] = Some ([spec_frame (a ++ b)], [], []).
Proof.
  intros (Hlen & Hhdr & Hok) Hb Hin. rewrite length_app in Hlen.
  assert (Hblen : (0 < length b)%nat) by (destruct b; [done|cbn; lia]).
  split.
  - destruct a as [|x a]; [destruct Hin|]. destruct b as [|y b]; [done|].
    cbn [reader_rounds reader_round app].
    rewrite (parse_frames_short (x :: a))
      by (unfold len, FRAME_LEN, FRAME_SIZE, ENC_DATA_SIZE, NUM_JOINTS; lia).
    destruct (text_lines_total (x :: a)) as [[ls1 r1] H1]. rewrite H1.
    destruct (text_loop_post _ _ _ _ H1) as (_ & _ & Hshort).
    specialize (Hshort Hin).
    rewrite (parse_frames_short (r1 ++ y :: b))
      by (unfold len, FRAME_LEN, FRAME_SIZE, ENC_DATA_SIZE, NUM_JOINTS;
          rewrite length_app; lia).
    destruct (text_lines_total (r1 ++ y :: b)) as [[ls2 r2] H2]. rewrite H2.
    eauto.
  - assert (Hlen' : length (a ++ b) = 61%nat) by (rewrite length_app; lia).
    pose proof (parse_frames_window [] (a ++ b) [] Hlen') as Hw.
    rewrite app_nil_r in Hw. cbn [app] in Hw.
    specialize (Hw (find_header_0 _ Hhdr)).
    rewrite (decode_window_ok _ Hlen' Hok), parse_frames_nil in Hw.
    destruct (a ++ b) as [|x v] eqn:Hv; [discriminate|].
    cbn [reader_rounds reader_round app]. rewrite Hw.
    reflexivity.
Qed.

Lemma reader_rounds_no_lf (chunks : list (list byte)) : forall buf,
  parse_frames buf = Some ([], buf) ->
  ~ In x0a (buf ++ concat chunks) ->
  reader_rounds decode_strip buf chunks =
    match parse_frames (buf ++ concat chunks) with
    | Some (fs, rest) => Some (fs, [], rest)
    | None => None
    end.
Proof.
  induction chunks as [|c cs IH]; intros buf Hfix Hno.
  - cbn [reader_rounds concat]. by rewrite app_nil_r, Hfix.
  - cbn [concat reader_rounds] in *. destruct c as [|x c].
    + cbn [reader_round app] in *. rewrite (IH buf Hfix Hno).
      destruct (parse_frames (buf ++ concat cs)) as [[??]|]; done.
    + cbn [reader_round].
      destruct (parse_frames_total (buf ++ x :: c)) as [[fs rest] Hp].
      rewrite Hp.
      destruct (parse_loop_leftover _ _ _ _ Hp) as (Hsuf & _ & Hstop).
      assert (Hfix' : parse_frames rest = Some ([], rest)).
      { rewrite parse_frames_unfold. cbv zeta.
        destruct (find FRAME_HDR rest <? 0) eqn:Hneg; [done|].
        destruct (len rest - find FRAME_HDR rest <? FRAME_LEN) eqn:Hshort; [done|].
        apply Z.ltb_ge in Hneg, Hshort. lia. }
      destruct Hsuf as [k Hk].
      assert (Hno' : ~ In x0a (rest ++ concat cs)).
      { intros Hin. apply Hno. rewrite app_assoc, Hk, <- app_assoc.
        apply in_or_app. by right. }
      rewrite text_lines_no_lf
        by (intros Hin; apply Hno'; apply in_or_app; by left).
      rewrite (IH rest Hfix' Hno').
      rewrite app_assoc, (parse_loop_app _ _ (concat cs) _ _ Hp).
      destruct (parse_frames (rest ++ concat cs)) as [[??]|]; [|done].
      by rewrite app_nil_r.
Qed.

(** As long as no line feed occurs in the stream, the reader thread emits
    the same frames, and keeps the same bytes, however the stream is cut
    into reads: what one run of the binary loop gives on the whole
    stream. *)
Theorem reader_rounds_without_line_feed (chunks : list (list byte)) :
  Forall (fun b => b <> x0a) (concat chunks) ->
  reader_rounds decode_strip [] chunks =
    match parse_frames (concat chunks) with
    | Some (fs, rest) => Some (fs, [], rest)
    | None => None
    end.
Proof.
  intros Hno. apply (reader_rounds_no_lf chunks []); [reflexivity|].
  cbn [app]. intros Hin. apply list_elem_of_In in Hin.
  rewrite Forall_forall in Hno. by apply (Hno _ Hin).
Qed.

End ReaderFacts.

Lemma split_frame_with_line_feed_is_lost_witness :
  (exists ls rest,
     reader_rounds ascii_line [] [take 30 frame_lf; drop 30 frame_lf]
     = Some ([], ls, rest))
  /\ reader_rounds ascii_line [] [take 30 frame_lf ++ drop 30 frame_lf]
     = Some ([spec_frame (take 30 frame_lf ++ drop 30 frame_lf)], [], []).
Proof.
  apply (split_frame_with_line_feed_is_lost ascii_line
           (take 30 frame_lf) (drop 30 frame_lf)).
  - split; [reflexivity|]. split; [split; reflexivity|].
    unfold checksum_ok. vm_compute. reflexivity.
  - discriminate.
  - vm_compute. tauto.
Defined.

Lemma reader_rounds_without_line_feed_witness :
  reader_rounds ascii_line [] [take 30 frame_A; drop 30 frame_A ++ take 7 frame_A]
  = match parse_frames (concat [take 30 frame_A; drop 30 frame_A ++ take 7 frame_A]) with
    | Some (fs, rest) => Some (fs, [], rest)
    | None => None
    end.
Proof.
  apply (reader_rounds_without_line_feed ascii_line
           [take 30 frame_A; drop 30 frame_A ++ take 7 frame_A]).
  vm_compute. repeat constructor; discriminate.
Defined.

End UsbSerialFacts.

Module UsbKeysFacts.
Import Py UsbFrame UsbUi.

Lemma key_on_insert (d : gmap string bool) (c : string) (b : bool) :
  key_on (<[c := b]> d) c = b.
Proof. unfold key_on. by rewrite lookup_insert_eq. Qed.

Lemma key_on_insert_ne (d : gmap string bool) (c k : string) (b : bool) :
  c <> k -> key_on (<[c := b]> d) k = key_on d k.
Proof. intros Hne. unfold key_on. by rewrite lookup_insert_ne. Qed.

(** What a first press of one of the six keys does, field by field. *)
Lemma on_key_press_fields (c : string) (st : State) :
  device_active st = true ->
  char_in c ["1"; "2"; "3"; "4"; "5"; "6"] = true ->
  key_on (key_physically_pressed st) c = false ->
  device_active (on_key_press (Some c) st) = true
  /\ key_physically_pressed (on_key_press (Some c) st)
     = <[c := true]> (key_physically_pressed st)
  /\ keyboard_state (on_key_press (Some c) st)
     = <[c := if char_in c ["1"; "2"; "4"]
              then negb (key_on (keyboard_state st) c) else true]>
         (keyboard_state st)
  /\ recording_active (on_key_press (Some c) st)
     = if String.eqb c "2" then negb (key_on (keyboard_state st) "2")
       else recording_active st.
Proof.
  intros Hdev Hkey Hup. unfold on_key_press. rewrite Hdev, Hkey, Hup. cbn [negb].
  destruct (char_in c ["1"; "2"; "4"]) eqn:Htoggle.
  - destruct (String.eqb c "2") eqn:H2.
    + apply String.eqb_eq in H2. subst c.
      unfold handle_special_key_functions. cbn [device_active set_keyboard negb].
      rewrite Hdev. cbn. rewrite key_on_insert. done.
    + done.
  - destruct (char_in c ["3"; "5"; "6"]) eqn:Hpush.
    + destruct (String.eqb c "5") eqn:H5.
      * apply String.eqb_eq in H5. subst c.
        unfold handle_special_key_functions. cbn [device_active set_keyboard negb].
        rewrite Hdev. cbn. done.
      * destruct (String.eqb c "2") eqn:H2; [|done].
        apply String.eqb_eq in H2. subst c. discriminate.
    + exfalso. unfold char_in in *. cbn in *.
      repeat match goal with
             | H : context [String.eqb c ?k] |- _ =>
                 destruct (String.eqb c k); try discriminate
             end.
Qed.

Lemma on_key_release_fields (c : string) (st : State) :
  device_active st = true ->
  char_in c ["1"; "2"; "3"; "4"; "5"; "6"] = true ->
  device_active (on_key_release (Some c) st) = true
  /\ key_physically_pressed (on_key_release (Some c) st)
     = <[c := false]> (key_physically_pressed st)
  /\ keyboard_state (on_key_release (Some c) st)
     = (if char_in c ["3"; "5"; "6"] && key_on (keyboard_state st) c
        then <[c := false]> (keyboard_state st) else keyboard_state st)
  /\ recording_active (on_key_release (Some c) st) = recording_active st
  /\ recorded_encoders (on_key_release (Some c) st) = recorded_encoders st.
Proof.
  intros Hdev Hkey. unfold on_key_release. rewrite Hdev, Hkey. cbn [negb].
  destruct (char_in c ["3"; "5"; "6"] && key_on (keyboard_state st) c);
    repeat split; exact Hdev.
Qed.

Lemma char_in_keys (c : string) :
  char_in c ["1"; "2"; "3"; "4"; "5"; "6"] = true ->
  c = "1" \/ c = "2" \/ c = "3" \/ c = "4" \/ c = "5" \/ c = "6".
Proof.
  unfold char_in. cbn [existsb]. rewrite !orb_true_iff, !String.eqb_eq.
  intros [?|[?|[?|[?|[?|[?|?]]]]]]; auto 10. discriminate.
Qed.

(** Key auto-repeat is ignored: a second press event for a key that has
    not been released in between changes nothing, for every key and every
    state, and so does any press while the device is switched off. *)
Theorem key_repeat_is_ignored (key : option string) (st : State) :
  on_key_press key (on_key_press key st) = on_key_press key st.
Proof.
  destruct key as [c|].
  2:{ assert (Hnone : forall st', on_key_press None st' = st').
      { intros st'. unfold on_key_press. destruct (negb (device_active st')); done. }
      by rewrite !Hnone. }
  assert (Hnoop : forall st',
            device_active st' = false
            \/ char_in c ["1"; "2"; "3"; "4"; "5"; "6"] = false
            \/ key_on (key_physically_pressed st') c = true ->
            on_key_press (Some c) st' = st').
  { intros st' H. unfold on_key_press.
    destruct (device_active st'); [|done]. cbn [negb].
    destruct (char_in c ["1"; "2"; "3"; "4"; "5"; "6"]); [|done].
    destruct (key_on (key_physically_pressed st') c); [done|].
    destruct H as [?|[?|?]]; discriminate. }
  destruct (device_active st) eqn:Hdev; [|rewrite (Hnoop st) by auto; apply Hnoop; auto].
  destruct (char_in c ["1"; "2"; "3"; "4"; "5"; "6"]) eqn:Hkey;
    [|rewrite (Hnoop st) by auto; apply Hnoop; auto].
  destruct (key_on (key_physically_pressed st) c) eqn:Hup;
    [rewrite (Hnoop st) by auto; apply Hnoop; auto|].
  destruct (on_key_press_fields c st Hdev Hkey Hup) as (Hdev' & Hphys & _ & _).
  apply Hnoop. right. right. by rewrite Hphys, key_on_insert.
Qed.

(** A press followed by the release of the same key.  Keys 1, 2 and 4 are
    toggles: the key's state is flipped by the press and kept by the
    release.  Keys 3, 5 and 6 are push keys: on while held, off after the
    release.  No other key's state changes, and the key counts as
    released again. *)
Theorem press_then_release (c : string) (st : State) :
  device_active st = true ->
  char_in c ["1"; "2"; "3"; "4"; "5"; "6"] = true ->
  key_on (key_physically_pressed st) c = false ->
  key_on (keyboard_state (on_key_press (Some c) st)) c
    = (if char_in c ["1"; "2"; "4"] then negb (key_on (keyboard_state st) c)
       else true)
  /\ key_on (keyboard_state (on_key_release (Some c) (on_key_press (Some c) st))) c
    = (if char_in c ["1"; "2"; "4"] then negb (key_on (keyboard_state st) c)
       else false)
  /\ key_on (key_physically_pressed
               (on_key_release (Some c) (on_key_press (Some c) st))) c = false
  /\ forall k, k <> c ->
       key_on (keyboard_state (on_key_release (Some c) (on_key_press (Some c) st))) k
       = key_on (keyboard_state st) k.
Proof.
  intros Hdev Hkey Hup.
  destruct (on_key_press_fields c st Hdev Hkey Hup) as (Hdev1 & Hphys1 & Hks1 & _).
  destruct (on_key_release_fields c _ Hdev1 Hkey) as (_ & Hphys2 & Hks2 & _ & _).
  rewrite Hks2, Hphys2, Hks1, !key_on_insert.
  split; [done|].
  assert (Hkinds : char_in c ["1"; "2"; "4"] = negb (char_in c ["3"; "5"; "6"])).
  { destruct (char_in_keys c Hkey) as [->|[->|[->|[->|[->| ->]]]]]; reflexivity. }
  rewrite Hkinds. destruct (char_in c ["3"; "5"; "6"]); cbn [negb andb].
  - rewrite key_on_insert. split; [done|]. split; [done|].
    intros k Hk. by rewrite !key_on_insert_ne.
  - rewrite key_on_insert. split; [done|]. split; [done|].
    intros k Hk. by rewrite key_on_insert_ne.
Qed.

Lemma press_then_release_witness :
  key_on (keyboard_state (on_key_press (Some "3") initial_state)) "3"
    = (if char_in "3" ["1"; "2"; "4"]
       then negb (key_on (keyboard_state initial_state) "3") else true)
  /\ key_on (keyboard_state
               (on_key_release (Some "3") (on_key_press (Some "3") initial_state))) "3"
    = (if char_in "3" ["1"; "2"; "4"]
       then negb (key_on (keyboard_state initial_state) "3") else false)
  /\ key_on (key_physically_pressed
               (on_key_release (Some "3") (on_key_press (Some "3") initial_state)))
       "3" = false
  /\ forall k, k <> "3" ->
       key_on (keyboard_state
                 (on_key_release (Some "3") (on_key_press (Some "3") initial_state))) k
       = key_on (keyboard_state initial_state) k.
Proof.
  apply (press_then_release "3" initial_state); reflexivity.
Defined.

(** Key 2 does not flip the recording flag: a press sets the flag to the
    new toggle state of the key itself, whatever the flag was.  So after
    the Recording button has started a recording, a first press of key 2
    leaves it running, and it takes a second press to stop it. *)
Theorem key_2_sets_recording_to_its_toggle_state (st : State) :
  device_active st = true ->
  key_on (key_physically_pressed st) "2" = false ->
  recording_active (on_key_press (Some "2") st)
    = negb (key_on (keyboard_state st) "2")
  /\ recorded_encoders (on_key_press (Some "2") st) = recorded_encoders st.
Proof.
  intros Hdev Hup.
  destruct (on_key_press_fields "2" st Hdev eq_refl Hup) as (_ & _ & _ & Hrec).
  split; [exact Hrec|]. apply UsbUiFacts.key_2_press_keeps_buffer.
Qed.

Lemma key_2_sets_recording_to_its_toggle_state_witness :
  recording_active (on_key_press (Some "2") (set_recording_active true initial_state))
    = negb (key_on (keyboard_state (set_recording_active true initial_state)) "2")
  /\ recorded_encoders (on_key_press (Some "2") (set_recording_active true initial_state))
     = recorded_encoders (set_recording_active true initial_state).
Proof.
  apply (key_2_sets_recording_to_its_toggle_state
           (set_recording_active true initial_state)); reflexivity.
Defined.

End UsbKeysFacts.

Module WorkerQueuesFacts.
Import Py Wifi WorkerQueues WifiFacts.

Lemma get_all_results_loop_drains fuel : forall wk,
  (length (result_queue wk) < fuel)%nat ->
  get_all_results_loop fuel wk =
    Some (result_queue wk,
          {| task_queue := task_queue wk; result_queue := [];
             running := running wk; connection_data := connection_data wk |}).
Proof.
  induction fuel as [|fuel IH]; intros wk Hlt; [lia|].
  cbn [get_all_results_loop]. unfold get_result.
  destruct wk as [tq rq run conn]. cbn [result_queue task_queue running connection_data] in *.
  destruct rq as [|r rq]; [done|].
  rewrite IH by (cbn in *; lia). done.
Qed.

Lemma get_all_results_drains wk :
  get_all_results wk =
    Some (result_queue wk,
          {| task_queue := task_queue wk; result_queue := [];
             running := running wk; connection_data := connection_data wk |}).
Proof. apply get_all_results_loop_drains. lia. Qed.

Section RoundsFacts.
Context {W : Type} `{!RpcClient W, !DataManager W}.

Lemma execute_task_timestamp avail wk task now (w : W) :
  r_timestamp (execute_task avail wk task now w).2 = now.
Proof.
  unfold execute_task. destruct avail; cbn [negb]; [|done].
  destruct (connection_data wk) as [ip port].
  destruct (execute_body ip port task w) as [w' [r|msg]]; done.
Qed.

Lemma worker_rounds_fifo avail : forall nows wk (w : W),
  running wk = true ->
  length nows = length (task_queue wk) ->
  exists rs,
    (worker_rounds avail nows wk w).1 =
      {| task_queue := []; result_queue := result_queue wk ++ rs;
         running := true; connection_data := connection_data wk |}
    /\ map r_task_id rs = map task_id (task_queue wk)
    /\ map r_timestamp rs = nows.
Proof.
  induction nows as [|now nows IH]; intros wk w Hrun Hlen.
  - exists []. destruct wk as [tq rq run conn]. cbn in *.
    destruct tq; [|discriminate]. subst run. by rewrite app_nil_r.
  - destruct (task_queue wk) as [|task q] eqn:Hq; [discriminate|].
    cbn [worker_rounds]. unfold worker_round. rewrite Hrun, Hq. cbn [negb].
    pose proof (execute_task_id avail wk task now w) as Hid.
    pose proof (execute_task_timestamp avail wk task now w) as Hts.
    destruct (execute_task avail wk task now w) as [w' r]. cbn [snd] in Hid, Hts.
    match goal with
    | |- context [worker_rounds avail nows ?wk1 w'] =>
        destruct (IH wk1 w') as (rs & Heq & Hids & Htss);
          [reflexivity|cbn in *; lia|]
    end.
    exists (r :: rs). cbn [task_queue result_queue connection_data] in *.
    rewrite Heq, <- app_assoc. cbn [map app]. rewrite Hid, Hts, Hids, Htss. done.
Qed.

(** The worker answers the queued tasks strictly first in, first out: one
    round per waiting task empties the task queue and adds one result per
    task to the result queue, in the tasks' order, each with its task's id
    and the reading of its round; [get_all_results] then hands out the
    whole result queue in that order and leaves it empty. *)
Theorem tasks_answered_in_order avail (nows : list Q) wk (w : W) :
  running wk = true ->
  length nows = length (task_queue wk) ->
  exists rs,
    task_queue (worker_rounds avail nows wk w).1 = []
    /\ result_queue (worker_rounds avail nows wk w).1 = result_queue wk ++ rs
    /\ map r_task_id rs = map task_id (task_queue wk)
    /\ map r_timestamp rs = nows
    /\ get_all_results (worker_rounds avail nows wk w).1 =
         Some (result_queue wk ++ rs,
               {| task_queue := []; result_queue := [];
                  running := true; connection_data := connection_data wk |}).
Proof.
  intros Hrun Hlen.
  destruct (worker_rounds_fifo avail nows wk w Hrun Hlen) as (rs & Heq & Hids & Hts).
  exists rs. rewrite get_all_results_drains, Heq. done.
Qed.

(** An APPLY_GAINS task that lacks one of its two parameters fails before
    anything is sent: the result carries [success = False] and the
    [KeyError] text naming the first missing key, and neither the client
    nor the data manager is called. *)
Theorem apply_gains_without_parameter wk task now (w : W) :
  task_type task = APPLY_GAINS ->
  params task !! "shoulder_gain" = None \/ params task !! "joint_gain" = None ->
  execute_task true wk task now w =
    (w, {| r_task_id := task_id task; success := false; result := VNone;
           error := match params task !! "shoulder_gain" with
                    | Some _ => "'joint_gain'"
                    | None => "'shoulder_gain'"
                    end;
           r_timestamp := now |}).
Proof.
  intros Hty Hmiss. unfold execute_task. cbn [negb].
  destruct (connection_data wk) as [ip port].
  unfold execute_body. rewrite Hty. unfold mbind, M_bind, param.
  destruct (params task !! "shoulder_gain") as [s|]; [|done].
  destruct (params task !! "joint_gain") as [j|]; [|done].
  destruct Hmiss; discriminate.
Qed.

End RoundsFacts.

Lemma tasks_answered_in_order_witness :
  exists rs,
    task_queue
      (@worker_rounds unit offline_client dummy_data_manager true [5%Q; 6%Q]
         (submit_task SEND_POWER_OFF ∅ 2 2
            (submit_task SEND_HOMING ∅ 1 1 (start new_worker)).2).2 ()).1 = []
    /\ result_queue
         (@worker_rounds unit offline_client dummy_data_manager true [5%Q; 6%Q]
            (submit_task SEND_POWER_OFF ∅ 2 2
               (submit_task SEND_HOMING ∅ 1 1 (start new_worker)).2).2 ()).1
       = result_queue
           (submit_task SEND_POWER_OFF ∅ 2 2
              (submit_task SEND_HOMING ∅ 1 1 (start new_worker)).2).2 ++ rs
    /\ map r_task_id rs
       = map task_id
           (task_queue
              (submit_task SEND_POWER_OFF ∅ 2 2
                 (submit_task SEND_HOMING ∅ 1 1 (start new_worker)).2).2)
    /\ map r_timestamp rs = [5%Q; 6%Q]
    /\ get_all_results
         (@worker_rounds unit offline_client dummy_data_manager true [5%Q; 6%Q]
            (submit_task SEND_POWER_OFF ∅ 2 2
               (submit_task SEND_HOMING ∅ 1 1 (start new_worker)).2).2 ()).1
       = Some (result_queue
                 (submit_task SEND_POWER_OFF ∅ 2 2
                    (submit_task SEND_HOMING ∅ 1 1 (start new_worker)).2).2 ++ rs,
               {| task_queue := []; result_queue := []; running := true;
                  connection_data :=
                    connection_data
                      (submit_task SEND_POWER_OFF ∅ 2 2
                         (submit_task SEND_HOMING ∅ 1 1 (start new_worker)).2).2 |}).
Proof.
  apply (@tasks_answered_in_order unit offline_client dummy_data_manager true
           [5%Q; 6%Q]
           (submit_task SEND_POWER_OFF ∅ 2 2
              (submit_task SEND_HOMING ∅ 1 1 (start new_worker)).2).2 ());
    reflexivity.
Defined.

Lemma apply_gains_without_parameter_witness :
  @execute_task unit offline_client dummy_data_manager true (start new_worker)
    {| task_id := "apply_gains_1000"; task_type := APPLY_GAINS;
       params := <["shoulder_gain" := VFloat 0.5]> ∅; timestamp := 1 |} 2 ()
  = ((), {| r_task_id := "apply_gains_1000"; success := false; result := VNone;
            error := "'joint_gain'";
            r_timestamp := 2 |}).
Proof.
  exact (@apply_gains_without_parameter unit offline_client dummy_data_manager
           (start new_worker)
           {| task_id := "apply_gains_1000"; task_type := APPLY_GAINS;
              params := <["shoulder_gain" := VFloat 0.5]> ∅; timestamp := 1 |}
           2 () eq_refl (or_intror eq_refl)).
Defined.

(** A task is sent to the address that is set when the worker takes it
    from the queue, not to the one that was set when it was submitted:
    [update_connection] between the two redirects it. *)
Theorem queued_task_uses_current_address (ty : TaskType)
    (params : gmap string PyVal) (now ts now' : Q) (ip : string) (port : Z)
    (wk : BackgroundWorker) (log : list (string * Z)) :
  running wk = true ->
  task_queue wk = [] ->
  (ty = APPLY_GAINS ->
   is_Some (params !! "shoulder_gain") /\ is_Some (params !! "joint_gain")) ->
  (@worker_round _ address_log_client dummy_data_manager true now'
     (update_connection ip port (submit_task ty params now ts wk).2) log).2
  = log ++ [(ip, port)].
Proof.
  intros Hrun Hq Hgains. unfold worker_round, update_connection, submit_task.
  cbn [snd running task_queue result_queue connection_data]. rewrite Hrun, Hq.
  cbn [negb app].
  unfold execute_task. cbn [negb connection_data].
  unfold execute_body. cbn [task_type].
  destruct ty; unfold mbind, M_bind, mret, M_ret, param, param_get; cbn [Wifi.params];
    try (cbn; destruct (is_str _ _); reflexivity); try reflexivity.
  destruct (Hgains eq_refl) as [[s Hs] [j Hj]]. rewrite Hs, Hj. reflexivity.
Qed.

Lemma queued_task_uses_current_address_witness :
  (@worker_round _ address_log_client dummy_data_manager true 3
     (update_connection "10.0.0.7" 6000
        (submit_task SEND_HOMING ∅ 1 1 (start new_worker)).2) []).2
  = [] ++ [("10.0.0.7", 6000)].
Proof.
  apply (queued_task_uses_current_address SEND_HOMING ∅ 1 1 3 "10.0.0.7" 6000
           (start new_worker) []).
  - reflexivity.
  - reflexivity.
  - discriminate.
Defined.

End WorkerQueuesFacts.

Module ClientUtilFacts.
Import Py Wifi Client ClientUtil ClientFacts.

Lemma clamp_gain_range x : (0.2 <= clamp_gain x)%Q /\ (clamp_gain x <= 1.0)%Q.
Proof.
  destruct (clamp_gain_cases x) as [[_ ->]|[[_ ->]|(Hlo & Hhi & ->)]];
    split; try lra.
Qed.

(** [validate_gain_values] never reports a value as out of range: on two
    numbers it returns the clamped values with [is_valid = True] and the
    message "Valid", however far outside 0.2 .. 1.0 the inputs were; the
    message "Values clamped to valid range" cannot occur. *)
Theorem validate_gain_values_always_valid (s j : Q) :
  validate_gain_values (VFloat s) (VFloat j)
  = (clamp_gain s, clamp_gain j, true, "Valid").
Proof.
  unfold validate_gain_values. cbn [py_float].
  fold (clamp_gain s). fold (clamp_gain j).
  destruct (clamp_gain_range s) as [Hs1 Hs2].
  destruct (clamp_gain_range j) as [Hj1 Hj2].
  unfold Qleb. apply Qle_bool_iff in Hs1, Hs2, Hj1, Hj2.
  rewrite Hs1, Hs2, Hj1, Hj2. reflexivity.
Qed.

(** Whatever its arguments and whatever the remote side does,
    [send_gravity_comp_gain] returns a text and never raises; it closes
    the channel exactly when it got one; it sends at most one request, and
    a request that is sent carries both gains within 0.2 .. 1.0. *)
Theorem gain_request_always_in_range (ip : string) (port : Z)
    (shoulder_gain joint_gain : PyVal) (r : Remote) :
  (exists txt,
     (send_gravity_comp_gain ip port shoulder_gain joint_gain r).2
     = Returned (VStr txt))
  /\ closed (send_gravity_comp_gain ip port shoulder_gain joint_gain r).1
     = (closed r + if (connect r).1 then 1 else 0)%nat
  /\ (sent (send_gravity_comp_gain ip port shoulder_gain joint_gain r).1 = sent r
      \/ exists req,
           sent (send_gravity_comp_gain ip port shoulder_gain joint_gain r).1
           = sent r ++ [req]
           /\ (0.2 <= Client.shoulder_gain req)%Q
           /\ (Client.shoulder_gain req <= 1.0)%Q
           /\ (0.2 <= Client.joint_gain req)%Q
           /\ (Client.joint_gain req <= 1.0)%Q).
Proof.
  unfold send_gravity_comp_gain.
  destruct (connect r) as [[|] status]; cbn [negb fst].
  2:{ cbn. split; [eauto|]. split; [lia|]. by left. }
  destruct (py_float shoulder_gain) as [s|msg].
  2:{ cbn. split; [eauto|]. split; [lia|]. by left. }
  destruct (py_float joint_gain) as [j|msg].
  2:{ cbn. split; [eauto|]. split; [lia|]. by left. }
  destruct (clamp_gain_range s) as [Hs1 Hs2].
  destruct (clamp_gain_range j) as [Hj1 Hj2].
  destruct (respond r _); cbn; (split; [eauto|]); (split; [lia|]);
    right; eexists; (split; [reflexivity|]); cbn; done.
Qed.

End ClientUtilFacts.

Module GrpcDataManagerFacts.
Import Py Wifi Client GrpcDataManager ClientFacts.

Lemma with_lock_held {A} (body : Manager -> Run A) m :
  lock_held m = true -> with_lock body m = Blocked m.
Proof. intros Hl. unfold with_lock. by rewrite Hl. Qed.

(** [connect_client] and [disconnect_client] never return.  Each takes
    the lock and, still holding it, calls [add_grpc_entry], which waits
    for the same lock.  No log entry is written, the lock stays held, and
    from then on every method that takes the lock waits as well. *)
Theorem connect_client_never_returns (now : Q) (clock command : string)
    (m : Manager) :
  (exists m',
     connect_client now clock command m = Blocked m'
     /\ lock_held m' = true
     /\ grpc_logs m' = grpc_logs m
     /\ forall (A : Type) (body : Manager -> Run A), with_lock body m' = Blocked m')
  /\ (exists m',
        disconnect_client now clock m = Blocked m'
        /\ lock_held m' = true
        /\ grpc_logs m' = grpc_logs m
        /\ forall (A : Type) (body : Manager -> Run A),
             with_lock body m' = Blocked m').
Proof.
  unfold connect_client, disconnect_client, add_grpc_entry, with_lock.
  destruct (lock_held m) eqn:Hl.
  - split; exists m; repeat split; try done;
      intros A body; by rewrite Hl.
  - cbn. split; eexists; repeat split.
Qed.

(** [stop_recording] never saves a pose, although saving the latest
    encoder reading as a pose is what it is written to do: with no
    recording on, or with no encoder reading, it returns [None]; with a
    recording on and a reading at hand it calls [save_encoder_pose] while
    holding the lock, and waits for ever. *)
Theorem stop_recording_never_saves_a_pose (now : Q)
    (clock default_name : string) (m : Manager) :
  match stop_recording now clock default_name m with
  | Done r m' => r = None /\ pose_data m' = pose_data m
  | Blocked m' => pose_data m' = pose_data m
  end
  /\ (lock_held m = false ->
      is_recording m = true ->
      encoder_data m <> [] ->
      exists m',
        stop_recording now clock default_name m = Blocked m'
        /\ lock_held m' = true
        /\ is_recording m' = false).
Proof.
  unfold stop_recording, save_encoder_pose, with_lock.
  destruct (lock_held m) eqn:Hl; [split; [reflexivity|discriminate]|].
  cbn [set_lock_held is_recording lock_held].
  destruct (is_recording m) eqn:Hrec; cbn [negb].
  2:{ cbn. split; [split; reflexivity|]. intros; discriminate. }
  cbn.
  destruct (last (encoder_data m)) as [latest|] eqn:Hlast.
  - cbn. split; [reflexivity|]. intros _ _ _. eexists. repeat split.
  - cbn. split; [split; reflexivity|]. intros _ _ Hne. apply last_None in Hlast.
    contradiction.
Qed.

Lemma stop_recording_never_saves_a_pose_witness :
  match stop_recording 3 "12:00:03" "Pose_120003"
          (set_samples [{| timestamp := 2; angles := [0.5%Q]; formatted := "" |}]
             [] [] (set_recording true (Some 1%Q) (new_manager 10000))) with
  | Done r m' =>
      r = None
      /\ pose_data m'
         = pose_data
             (set_samples [{| timestamp := 2; angles := [0.5%Q]; formatted := "" |}]
                [] [] (set_recording true (Some 1%Q) (new_manager 10000)))
  | Blocked m' =>
      pose_data m'
      = pose_data
          (set_samples [{| timestamp := 2; angles := [0.5%Q]; formatted := "" |}]
             [] [] (set_recording true (Some 1%Q) (new_manager 10000)))
  end
  /\ exists m',
       stop_recording 3 "12:00:03" "Pose_120003"
         (set_samples [{| timestamp := 2; angles := [0.5%Q]; formatted := "" |}]
            [] [] (set_recording true (Some 1%Q) (new_manager 10000)))
       = Blocked m'
       /\ lock_held m' = true
       /\ is_recording m' = false.
Proof.
  pose proof (stop_recording_never_saves_a_pose 3 "12:00:03" "Pose_120003"
                (set_samples
                   [{| timestamp := 2; angles := [0.5%Q]; formatted := "" |}]
                   [] [] (set_recording true (Some 1%Q) (new_manager 10000))))
    as [H1 H2].
  split; [exact H1|]. apply H2; [reflexivity|reflexivity|discriminate].
Defined.

(** A manager with a recording on and one encoder reading is a state the
    methods themselves produce. *)
Example recording_with_a_reading :
  match start_recording 1 (new_manager 10000) with
  | Done _ m1 =>
      update_encoder_data (fun _ => "") [0.5%Q] 2 m1
      = Done ()
          (set_samples [{| timestamp := 2; angles := [0.5%Q]; formatted := "" |}]
             [] [] (set_recording true (Some 1%Q) (new_manager 10000)))
  | Blocked _ => False
  end.
Proof. reflexivity. Qed.

(** With the lock free, [update_gain_values] stores the two numbers as
    they are given, and the worker's view of it is exact. *)
Lemma update_gain_values_unlocked (s j : PyVal) (m : Manager) (r : Remote) :
  lock_held m = false ->
  update_gain_values s j m
  = Done (store_gains s j (r, gain_values m)).2
      (set_gain_values (store_gains s j (r, gain_values m)).1.2 m).
Proof.
  intros Hl. unfold update_gain_values, with_lock, store_gains. rewrite Hl.
  destruct m; cbn in *; subst.
  destruct (py_float s); [|done]. cbn.
  destruct (py_float j); done.
Qed.



End GrpcDataManagerFacts.

Module StreamStatsFacts.
Import Py StreamHandler StreamHandlerFacts.

Section Stats.
Context {World : Type}.
Implicit Types (h : Handler World) (s : System World).

(** The counters after a run, against the answers [add_sample] gave. *)
Record stats_inv (m : Z) s : Prop := {
  st_size : max_queue_size (handler s) = m;
  st_running : is_running (handler s) = true;
  st_alive : worker_alive s = true;
  st_samples : Forall (fun x => is_Some x) (data_queue (handler s));
  st_total :
    total_samples (stats (handler s))
    = Z.of_nat (count_occ bool_dec (returns s) true);
  st_dropped :
    dropped_samples (stats (handler s))
    = Z.of_nat (count_occ bool_dec (returns s) false);
  st_processed :
    processed_samples (stats (handler s))
      + Z.of_nat (length (data_queue (handler s)))
    = total_samples (stats (handler s));
  st_bound : 0 < m -> Z.of_nat (length (data_queue (handler s))) <= m
}.

Lemma stats_inv_started m cbs t0 (w : World) : stats_inv m (started m cbs t0 w).
Proof.
  assert (Hfields : forall cbs h,
            max_queue_size (foldl (fun h cb => add_callback cb h) h cbs)
              = max_queue_size h
            /\ stats (foldl (fun h cb => add_callback cb h) h cbs) = stats h).
  { clear. intros cbs. induction cbs as [|cb cbs IH]; intros h; cbn; [done|].
    destruct (IH (add_callback cb h)) as [-> ->]. done. }
  destruct (Hfields cbs (new_handler m)) as [Hm Hs].
  destruct (queue_registered cbs (new_handler m)) as [Hq Hr].
  cbn in Hm, Hs, Hq, Hr.
  split; unfold started, start; cbn [handler worker_alive returns];
    rewrite ?Hr; cbn; rewrite ?Hq, ?Hs, ?Hm; cbn; try done; try lia.
Qed.

Lemma stats_inv_step m s e : stats_inv m s -> stats_inv m (sys_step s e).
Proof.
  intros [Hm Hr Ha Hq Ht Hd Hp Hb]. destruct e as [a sq sid c sd now|t].
  - cbn [sys_step]. unfold add_sample. rewrite Hr. cbn [negb].
    destruct (queue_full (handler s)) eqn:Hfull.
    + split; cbn; rewrite ?count_occ_app; cbn; try done; lia.
    + assert (Hroom : 0 < m -> Z.of_nat (length (data_queue (handler s))) < m).
      { intros Hpos. unfold queue_full in Hfull. rewrite Hm in Hfull.
        apply andb_false_iff in Hfull as [Hfull|Hfull].
        - apply Z.ltb_ge in Hfull. lia.
        - apply Z.leb_gt in Hfull. lia. }
      split; cbn; rewrite ?count_occ_app, ?length_app; cbn; try done; try lia;
        try (apply Forall_app; split; [done|]; repeat constructor; eauto);
        try (intros Hpos; specialize (Hroom Hpos); lia).
  - cbn [sys_step]. rewrite Ha. unfold worker_iter. rewrite Hr. cbn [negb].
    destruct (data_queue (handler s)) as [|[sample|] q] eqn:Hdq.
    + split; cbn; rewrite ?Hdq; try done.
    + cbn [length] in Hp, Hb.
      split; cbn; try done; try lia;
        try (by inversion Hq);
        try (intros Hpos; specialize (Hb Hpos); lia).
    + inversion Hq as [|? ? Hnone _]. destruct Hnone as [? Hnone]. discriminate.
Qed.

Lemma stats_inv_run m evs : forall s, stats_inv m s -> stats_inv m (sys_run evs s).
Proof.
  induction evs as [|e evs IH]; intros s Hinv; [done|].
  cbn. apply IH, stats_inv_step, Hinv.
Qed.

(** The counters of a started handler account for every [add_sample]
    call, whatever the interleaving with the worker: [total_samples] is
    the number of calls that returned [True], [dropped_samples] the
    number that returned [False], the accepted samples are either
    processed or still queued, and a bounded queue never holds more than
    [max_queue_size] samples. *)
Theorem counters_account_for_every_sample (m : Z)
    (cbs : list (Callback World)) (t0 : Q) (w : World) (evs : list Event) :
  total_samples (stats (handler (sys_run evs (started m cbs t0 w))))
  = Z.of_nat (count_occ bool_dec (returns (sys_run evs (started m cbs t0 w))) true)
  /\ dropped_samples (stats (handler (sys_run evs (started m cbs t0 w))))
     = Z.of_nat (count_occ bool_dec (returns (sys_run evs (started m cbs t0 w))) false)
  /\ processed_samples (stats (handler (sys_run evs (started m cbs t0 w))))
       + Z.of_nat (length (data_queue (handler (sys_run evs (started m cbs t0 w)))))
     = total_samples (stats (handler (sys_run evs (started m cbs t0 w))))
  /\ (0 < m ->
      Z.of_nat (length (data_queue (handler (sys_run evs (started m cbs t0 w)))))
      <= m).
Proof.
  pose proof (stats_inv_run m evs _ (stats_inv_started m cbs t0 w))
    as [_ _ _ _ Ht Hd Hp Hb].
  split; [exact Ht|]. split; [exact Hd|]. split; [exact Hp|exact Hb].
Qed.

End Stats.

Lemma counters_account_for_every_sample_witness :
  total_samples (stats (handler (sys_run demo_events
                                   (started 2 [cb_raising; cb_recording] 0%Q []))))
  = Z.of_nat (count_occ bool_dec
                (returns (sys_run demo_events
                            (started 2 [cb_raising; cb_recording] 0%Q []))) true)
  /\ dropped_samples (stats (handler (sys_run demo_events
                                        (started 2 [cb_raising; cb_recording] 0%Q []))))
     = Z.of_nat (count_occ bool_dec
                   (returns (sys_run demo_events
                               (started 2 [cb_raising; cb_recording] 0%Q []))) false)
  /\ processed_samples (stats (handler (sys_run demo_events
                                          (started 2 [cb_raising; cb_recording] 0%Q []))))
       + Z.of_nat (length (data_queue (handler (sys_run demo_events
                                  (started 2 [cb_raising; cb_recording] 0%Q [])))))
     = total_samples (stats (handler (sys_run demo_events
                                        (started 2 [cb_raising; cb_recording] 0%Q []))))
  /\ (0 < 2 ->
      Z.of_nat (length (data_queue (handler (sys_run demo_events
                                 (started 2 [cb_raising; cb_recording] 0%Q [])))))
      <= 2).
Proof.
  apply (counters_account_for_every_sample 2 [cb_raising; cb_recording] 0%Q []
           demo_events).
Defined.

End StreamStatsFacts.
